(** * Bingo server: card generator, room store and socket handlers

    A shallow embedding of [server.js].  JavaScript numbers that the
    program only ever uses as integers are [Z]; arrays are lists;
    the [Set] of one card column is a [gset Z]; the [rooms] and [users]
    [Map]s are [gmap string _].  The [participants] of a room is a plain
    object: its own keys are a [gmap string _], and a read of a key goes
    through [getMember], which falls back on [Object.prototype] as the
    property lookup of JavaScript does.

    The fields of a request are strings, and a card size is an integer:
    the arithmetic of [generateBingoCard] on a fraction or on a string is
    floating-point and string arithmetic, which this embedding leaves
    out.  An exception that leaves a handler is the output [Uncaught].

    [Math.random()] is read from a stream of samples: the [i]-th call
    returns the double [m / 2^53] where [m] is the [i]-th sample reduced
    modulo [2^53].  Loops that reject samples take a bound on their
    iterations and return [None] when it is used up. *)

From Stdlib Require Import ZArith List Lia Permutation.
From stdpp Require Import base decidable option numbers list list_numbers
  sorting gmap fin_sets strings.

Local Open Scope Z_scope.

(** ** JavaScript arithmetic used by the program *)

(** [Math.floor(a / b)] for integers [a] and [b > 0]. *)
Definition floorDiv (a b : Z) : Z := a / b.

(** [a % b]: the sign of the result follows the dividend. *)
Definition jsRem (a b : Z) : Z := Z.rem a b.

(** [Math.ceil(a / b)] for integers [a] and [b > 0]. *)
Definition ceilDiv (a b : Z) : Z := - ((- a) / b).

(** [arr.sort((a, b) => a - b)]: ascending numeric order. *)
Definition sortAsc (l : list Z) : list Z := merge_sort Z.le l.

(** ** The random source *)

Definition randomScale : Z := 2 ^ 53.

(** [Math.floor(Math.random() * k)] when [Math.random()] is the sample
    [u]; the product is taken exactly. *)
Definition randomBelow (u k : Z) : Z := (u mod randomScale) * k / randomScale.

(** A stream is fair for [k] when, from every position on, every value
    below [k] is still to come. *)
Definition fair (rnd : nat → Z) (k : Z) : Prop :=
  ∀ (pos : nat) (v : Z), 0 ≤ v < k →
    ∃ j : nat, (pos ≤ j)%nat ∧ randomBelow (rnd j) k = v.

(** ** generateBingoCard *)

Record Range := { rmin : Z; rmax : Z }.

(** The object returned by [generateBingoCard]. *)
Module CardData.
Record t := mk {
  numbers : list Z;
  grid : list (option Z);
  numbersPerRow : Z;
  numbersPerCol : Z;
  centerRow : Z;
  centerCol : Z
}.
End CardData.

Module Gen.

Definition numbersPerRow : Z := 5.
Definition centerCol : Z := 2.

Definition columnRanges : list Range :=
  [ {| rmin := 1;  rmax := 15 |};
    {| rmin := 16; rmax := 30 |};
    {| rmin := 31; rmax := 45 |};
    {| rmin := 46; rmax := 60 |};
    {| rmin := 61; rmax := 75 |} ].

Definition columns : list Z := seqZ 0 numbersPerRow.

Definition positionInNonCenter (col : Z) : Z :=
  if col <? centerCol then col else col - 1.

(** The body of the first loop for one column.  The counter
    [colsBeforeWithExtra] of the source is computed and never read. *)
Definition targetCount (numbersPerCard col : Z) : Z :=
  let numbersPerColumn := floorDiv numbersPerCard numbersPerRow in
  let remainder := jsRem numbersPerCard numbersPerRow in
  if col =? centerCol then numbersPerColumn
  else if positionInNonCenter col <? remainder then numbersPerColumn + 1
       else numbersPerColumn.

Definition initialCounts (numbersPerCard : Z) : list Z :=
  targetCount numbersPerCard <$> columns.

Definition totalTarget (numbersPerCard : Z) : Z :=
  foldl Z.add 0 (initialCounts numbersPerCard).

(** [targetCounts] after the adjustment of the last column. *)
Definition targetCounts (numbersPerCard : Z) : list Z :=
  let counts := initialCounts numbersPerCard in
  let total := totalTarget numbersPerCard in
  if total =? numbersPerCard then counts
  else
    let last := Z.to_nat (numbersPerRow - 1) in
    <[ last := default 0 (counts !! last) + (numbersPerCard - total) ]> counts.

Section WithRandom.
Variable rnd : nat → Z.

(** The [while (numbers.length < count)] loop of one column; [pos] counts
    the calls to [Math.random()] made so far. *)
Fixpoint fillColumn (fuel : nat) (pos : nat) (range : Range) (count : Z)
    (nums : list Z) (used : gset Z) : option (list Z * nat) :=
  if Z.of_nat (length nums) <? count then
    match fuel with
    | O => None
    | S fuel' =>
        let num := randomBelow (rnd pos) (rmax range - rmin range + 1)
                   + rmin range in
        if decide (num ∈ used)
        then fillColumn fuel' (S pos) range count nums used
        else fillColumn fuel' (S pos) range count (nums ++ [num])
               ({[ num ]} ∪ used)
    end
  else Some (nums, pos).

(** The second loop: one sorted column per range. *)
Fixpoint fillColumns (fuel : nat) (pos : nat) (work : list (Range * Z))
    : option (list (list Z) * nat) :=
  match work with
  | [] => Some ([], pos)
  | (range, count) :: rest =>
      match fillColumn fuel pos range count [] ∅ with
      | None => None
      | Some (nums, pos1) =>
          match fillColumns fuel pos1 rest with
          | None => None
          | Some (cols, pos2) => Some (sortAsc nums :: cols, pos2)
          end
      end
  end.

End WithRandom.

(** One column of [matrix]: rows top to bottom, [numberIndex] the next
    number of the column to place. *)
Fixpoint matrixColumn (rows : list Z) (col centerRow : Z) (nums : list Z)
    (numberIndex : nat) : list (option Z) :=
  match rows with
  | [] => []
  | row :: rest =>
      if (row =? centerRow) && (col =? centerCol)
      then None :: matrixColumn rest col centerRow nums numberIndex
      else if (numberIndex <? length nums)%nat
           then nums !! numberIndex
                  :: matrixColumn rest col centerRow nums (S numberIndex)
           else None :: matrixColumn rest col centerRow nums numberIndex
  end.

Definition buildMatrix (numbersPerCol centerRow : Z)
    (columnNumbers : list (list Z)) : list (list (option Z)) :=
  (λ col, matrixColumn (seqZ 0 numbersPerCol) col centerRow
            (default [] (columnNumbers !! Z.to_nat col)) 0%nat) <$> columns.

(** [matrix[col][row]]. *)
Definition matrixCell (matrix : list (list (option Z))) (col row : Z)
    : option Z :=
  match matrix !! Z.to_nat col with
  | Some column => default None (column !! Z.to_nat row)
  | None => None
  end.

(** The row-major flattening pushed into [grid]. *)
Definition flattenMatrix (numbersPerCol : Z)
    (matrix : list (list (option Z))) : list (option Z) :=
  row ← seqZ 0 numbersPerCol; (λ col, matrixCell matrix col row) <$> columns.

Definition generateBingoCard (rnd : nat → Z) (fuel pos : nat)
    (numbersPerCard : Z) : option (CardData.t * nat) :=
  match fillColumns rnd fuel pos
          (zip columnRanges (targetCounts numbersPerCard)) with
  | None => None
  | Some (columnNumbers, pos') =>
      let allNumbers := sortAsc (concat columnNumbers) in
      let totalSpaces := numbersPerCard + 1 in
      let numbersPerCol := ceilDiv totalSpaces numbersPerRow in
      let centerRow := floorDiv numbersPerCol 2 in
      let matrix := buildMatrix numbersPerCol centerRow columnNumbers in
      Some ({| CardData.numbers := allNumbers;
               CardData.grid := flattenMatrix numbersPerCol matrix;
               CardData.numbersPerRow := numbersPerRow;
               CardData.numbersPerCol := numbersPerCol;
               CardData.centerRow := centerRow;
               CardData.centerCol := centerCol |}, pos')
  end.

End Gen.

(** A sample stream in which the [j]-th call lands in slot [j mod 75] of
    75 equal slots. *)
Definition demoStream (j : nat) : Z :=
  ((Z.of_nat j mod 75) * randomScale + 74) / 75.


(** ** The room store *)

(** [room.lastDrawnAt]: absent until the first draw, [null] after a reset. *)
Inductive Stamp :=
| Undefined
| Null
| Millis (t : Z).

Module Participant.
Record t := mk {
  id : string;
  name : string;
  card : list Z;
  cardGrid : list (option Z);
  numbersPerRow : Z;
  numbersPerCol : Z;
  centerRow : Z;
  centerCol : Z;
  markedNumbers : list Z;
  joinedAt : Z
}.

Definition setMarked (p : t) (marked : list Z) : t :=
  mk (id p) (name p) (card p) (cardGrid p) (numbersPerRow p)
     (numbersPerCol p) (centerRow p) (centerCol p) marked (joinedAt p).
End Participant.

Module Room.
Record t := mk {
  id : string;
  hostName : string;
  numbersPerCard : Z;
  drawnNumbers : list Z;
  participants : gmap string Participant.t;
  createdAt : Z;
  lastDrawnAt : Stamp
}.

Definition setDraw (r : t) (drawn : list Z) (stamp : Stamp) : t :=
  mk (id r) (hostName r) (numbersPerCard r) drawn (participants r)
     (createdAt r) stamp.

Definition setParticipants (r : t) (ps : gmap string Participant.t) : t :=
  mk (id r) (hostName r) (numbersPerCard r) (drawnNumbers r) ps
     (createdAt r) (lastDrawnAt r).
End Room.

(** An entry of [users]: socket id -> { userId, roomId, isHost }. *)
Module Session.
Record t := mk {
  userId : string;
  roomId : string;
  isHost : bool
}.
End Session.

Record Server := mkServer {
  rooms : gmap string Room.t;
  users : gmap string Session.t;
  randomCalls : nat
}.

Definition emptyServer : Server := mkServer ∅ ∅ 0%nat.

Definition setRoom (st : Server) (roomId : string) (room : Room.t) : Server :=
  mkServer (<[ roomId := room ]> (rooms st)) (users st) (randomCalls st).

(** ** The participants object *)

(** The property names every plain object inherits from
    [Object.prototype]. *)
Definition prototypeKeys : list string :=
  [ "__proto__"; "constructor"; "hasOwnProperty"; "isPrototypeOf";
    "propertyIsEnumerable"; "toLocaleString"; "toString"; "valueOf";
    "__defineGetter__"; "__defineSetter__"; "__lookupGetter__";
    "__lookupSetter__" ]%string.

(** What [room.participants[key]] evaluates to: the participant stored
    under [key]; or, for a key that is not stored, the member of
    [Object.prototype] of that name (a function, and for [__proto__] the
    prototype itself: truthy, and without a [card]); or [undefined]. *)
Inductive Member :=
| Stored (participant : Participant.t)
| Inherited (key : string)
| Absent.

Definition getMember (participants : gmap string Participant.t)
    (key : string) : Member :=
  match participants !! key with
  | Some participant => Stored participant
  | None => if bool_decide (key ∈ prototypeKeys) then Inherited key else Absent
  end.

(** ** Messages and events *)

Definition msgHostNameRequired : string := "Nome do host é obrigatório".
Definition msgParticipantNameRequired : string :=
  "Nome do participante é obrigatório".
Definition msgRoomNotFound : string := "Sala não encontrada".
Definition msgNotInRoom : string := "Participante não encontrado na sala".
Definition msgParticipantNotFound : string := "Participante não encontrado".
Definition msgOnlyHostDraws : string := "Apenas o host pode sortear números".
Definition msgAllDrawn : string := "Todos os números já foram sorteados".
Definition msgNotOnCard : string := "Número não está na sua cartela".
Definition msgOnlyHostResets : string :=
  "Apenas o host pode reiniciar o sorteio".

Inductive Event :=
| EvError (message : string)
| RoomJoined (room : Room.t) (isHost : bool) (participant : Member)
| ParticipantJoined (participant : Participant.t) (participantCount : nat)
| NumberDrawn (number : Z) (drawnNumbers : list Z) (totalDrawn : nat)
| NumberMarked (number : Z) (markedNumbers : list Z) (hasBingo : bool)
| Bingo (participantId participantName : string)
| DrawReset (room : Room.t)
| RoomState (room : Room.t) (isHost : bool) (participant : Member).

Inductive HttpBody :=
| ErrorBody (error : string)
| RoomCreated (roomId : string) (room : Room.t)
| RoomBody (room : Room.t)
| Joined (userId : string) (room : Room.t) (participant : Participant.t).

Inductive Exception :=
| TypeError.

(** What a handler sends: [socket.emit] to the calling connection,
    [io.to(roomId).emit] to every subscriber of the room, or the HTTP
    response of a REST route.  [Uncaught] is an exception thrown in the
    handler: [server.js] has no [try] and no listener for uncaught
    exceptions, so it leaves the handler, nothing is sent, and the maps
    are as they were when it was thrown. *)
Inductive Output :=
| SocketEmit (socketId : string) (ev : Event)
| RoomEmit (roomId : string) (ev : Event)
| HttpJson (status : Z) (body : HttpBody)
| Uncaught (error : Exception).

(** ** Handlers *)

(** [!name] is false: the field is present and not the empty string. *)
Definition truthy (s : option string) : bool :=
  match s with
  | Some v => negb (bool_decide (v = ""%string))
  | None => false
  end.

(** [uuidv4().substring(0, 8)]. *)
Definition shortId (uuid : string) : string := String.substring 0 8 uuid.

(** [Object.keys(participants).forEach(userId => participants[userId].markedNumbers = [])]. *)
Definition clearMarks (ps : gmap string Participant.t)
    : gmap string Participant.t :=
  foldr (λ userId acc, alter (λ p, Participant.setMarked p []) userId acc)
        ps (map_to_list ps).*1.

(** The toggle of [markNumber]: [indexOf], then [splice(index, 1)] or [push]. *)
Definition toggle (marked : list Z) (number : Z) : list Z :=
  match list_find (λ x, x = number) marked with
  | Some (index, _) => delete index marked
  | None => marked ++ [number]
  end.

Section Handlers.
Variable rnd : nat → Z.

(** POST /api/rooms.  [uuid] is the value [uuidv4()] returns and [now] the
    value of [Date.now()] during the call.  [numbersPerCard] is [None]
    when the body has no such field and [Some n] when the field is the
    integer [n]; the route stores the field as it comes, unchecked. *)
Definition createRoom (st : Server) (hostName : option string)
    (numbersPerCard : option Z) (uuid : string) (now : Z)
    : Server * list Output :=
  if negb (truthy hostName)
  then (st, [HttpJson 400 (ErrorBody msgHostNameRequired)])
  else
    let roomId := shortId uuid in
    let room := Room.mk roomId (default ""%string hostName)
                  (default 24 numbersPerCard) [] ∅ now Undefined in
    (setRoom st roomId room, [HttpJson 200 (RoomCreated roomId room)]).

(** GET /api/rooms/:roomId. *)
Definition getRoom (st : Server) (roomId : string) : Server * list Output :=
  match rooms st !! roomId with
  | None => (st, [HttpJson 404 (ErrorBody msgRoomNotFound)])
  | Some room => (st, [HttpJson 200 (RoomBody room)])
  end.

(** POST /api/rooms/:roomId/join.  [uuid] is the value [uuidv4()]
    returns, 36 hexadecimal digits and dashes, hence no property name of
    [Object.prototype]. *)
Definition joinRoom (fuel : nat) (st : Server) (roomId : string)
    (participantName : option string) (uuid : string) (now : Z)
    : option (Server * list Output) :=
  if negb (truthy participantName)
  then Some (st, [HttpJson 400 (ErrorBody msgParticipantNameRequired)])
  else
    match rooms st !! roomId with
    | None => Some (st, [HttpJson 404 (ErrorBody msgRoomNotFound)])
    | Some room =>
        let userId := uuid in
        match Gen.generateBingoCard rnd fuel (randomCalls st)
                (Room.numbersPerCard room) with
        | None => None
        | Some (cardData, pos') =>
            let participant :=
              Participant.mk userId (default ""%string participantName)
                (CardData.numbers cardData) (CardData.grid cardData)
                (CardData.numbersPerRow cardData)
                (CardData.numbersPerCol cardData)
                (CardData.centerRow cardData) (CardData.centerCol cardData)
                [] now in
            let room' :=
              Room.setParticipants room
                (<[ userId := participant ]> (Room.participants room)) in
            Some (mkServer (<[ roomId := room' ]> (rooms st)) (users st) pos',
                  [ RoomEmit roomId
                      (ParticipantJoined participant
                         (size (Room.participants room')));
                    HttpJson 200 (Joined userId room' participant) ])
        end
    end.

Definition joinAsHost (st : Server) (socketId roomId userId : string)
    : Server * list Output :=
  match rooms st !! roomId with
  | None => (st, [SocketEmit socketId (EvError msgRoomNotFound)])
  | Some room =>
      (mkServer (rooms st)
         (<[ socketId := Session.mk userId roomId true ]> (users st))
         (randomCalls st),
       [SocketEmit socketId (RoomJoined room true Absent)])
  end.

(** The test [!room.participants[userId]] lets every truthy member
    through, an inherited one included. *)
Definition joinAsParticipant (st : Server) (socketId roomId userId : string)
    : Server * list Output :=
  match rooms st !! roomId with
  | None => (st, [SocketEmit socketId (EvError msgRoomNotFound)])
  | Some room =>
      match getMember (Room.participants room) userId with
      | Absent => (st, [SocketEmit socketId (EvError msgNotInRoom)])
      | participant =>
          (mkServer (rooms st)
             (<[ socketId := Session.mk userId roomId false ]> (users st))
             (randomCalls st),
           [SocketEmit socketId (RoomJoined room false participant)])
      end
  end.

Definition maxNumber : Z := 75.

(** The [do ... while (room.drawnNumbers.includes(number))] loop. *)
Fixpoint drawLoop (fuel pos : nat) (drawn : list Z) : option (Z * nat) :=
  match fuel with
  | O => None
  | S fuel' =>
      let number := randomBelow (rnd pos) maxNumber + 1 in
      if bool_decide (number ∈ drawn)
      then drawLoop fuel' (S pos) drawn
      else Some (number, S pos)
  end.

Definition drawNumber (fuel : nat) (st : Server) (socketId roomId : string)
    (now : Z) : option (Server * list Output) :=
  match users st !! socketId with
  | Some userInfo =>
      if Session.isHost userInfo then
        match rooms st !! roomId with
        | None => Some (st, [SocketEmit socketId (EvError msgRoomNotFound)])
        | Some room =>
            if Z.of_nat (length (Room.drawnNumbers room)) >=? maxNumber
            then Some (st, [SocketEmit socketId (EvError msgAllDrawn)])
            else
              match drawLoop fuel (randomCalls st) (Room.drawnNumbers room) with
              | None => None
              | Some (number, pos') =>
                  let drawn := sortAsc (Room.drawnNumbers room ++ [number]) in
                  let room' := Room.setDraw room drawn (Millis now) in
                  Some (mkServer (<[ roomId := room' ]> (rooms st))
                          (users st) pos',
                        [RoomEmit roomId
                           (NumberDrawn number drawn (length drawn))])
              end
        end
      else Some (st, [SocketEmit socketId (EvError msgOnlyHostDraws)])
  | None => Some (st, [SocketEmit socketId (EvError msgOnlyHostDraws)])
  end.

(** An inherited member passes the test [!participant]; it has no
    [card], so [participant.card.includes] reads a property of
    [undefined] and throws. *)
Definition markNumber (st : Server) (socketId roomId userId : string)
    (number : Z) : Server * list Output :=
  match rooms st !! roomId with
  | None => (st, [SocketEmit socketId (EvError msgRoomNotFound)])
  | Some room =>
      match getMember (Room.participants room) userId with
      | Absent => (st, [SocketEmit socketId (EvError msgParticipantNotFound)])
      | Inherited _ => (st, [Uncaught TypeError])
      | Stored participant =>
          if negb (bool_decide (number ∈ Participant.card participant))
          then (st, [SocketEmit socketId (EvError msgNotOnCard)])
          else
            let marked := toggle (Participant.markedNumbers participant) number in
            let participant' := Participant.setMarked participant marked in
            let room' :=
              Room.setParticipants room
                (<[ userId := participant' ]> (Room.participants room)) in
            let hasBingo :=
              bool_decide (length marked
                           = length (Participant.card participant')) in
            (setRoom st roomId room',
             SocketEmit socketId (NumberMarked number marked hasBingo)
             :: (if hasBingo
                 then [RoomEmit roomId
                         (Bingo userId (Participant.name participant'))]
                 else []))
      end
  end.

Definition resetDraw (st : Server) (socketId roomId : string)
    : Server * list Output :=
  match users st !! socketId with
  | Some userInfo =>
      if Session.isHost userInfo then
        match rooms st !! roomId with
        | None => (st, [SocketEmit socketId (EvError msgRoomNotFound)])
        | Some room =>
            let room' :=
              Room.setParticipants (Room.setDraw room [] Null)
                (clearMarks (Room.participants room)) in
            (setRoom st roomId room', [RoomEmit roomId (DrawReset room')])
        end
      else (st, [SocketEmit socketId (EvError msgOnlyHostResets)])
  | None => (st, [SocketEmit socketId (EvError msgOnlyHostResets)])
  end.

Definition getRoomState (st : Server) (socketId roomId : string)
    : Server * list Output :=
  match rooms st !! roomId with
  | None => (st, [SocketEmit socketId (EvError msgRoomNotFound)])
  | Some room =>
      let userInfo := users st !! socketId in
      let isHost := from_option Session.isHost false userInfo in
      let participant :=
        match userInfo with
        | Some info =>
            if Session.isHost info then Absent
            else getMember (Room.participants room) (Session.userId info)
        | None => Absent
        end in
      (st, [SocketEmit socketId (RoomState room isHost participant)])
  end.

Definition disconnect (st : Server) (socketId : string)
    : Server * list Output :=
  match users st !! socketId with
  | Some _ =>
      (mkServer (rooms st) (delete socketId (users st)) (randomCalls st), [])
  | None => (st, [])
  end.

(** ** The server as a transition system *)

(** A REST call with the fields of its body, or a socket event with the
    fields of its payload object. *)
Inductive Request :=
| CreateRoom (hostName : option string) (numbersPerCard : option Z)
    (uuid : string) (now : Z)
| GetRoom (roomId : string)
| JoinRoom (roomId : string) (participantName : option string)
    (uuid : string) (now : Z)
| JoinAsHost (socketId roomId userId : string)
| JoinAsParticipant (socketId roomId userId : string)
| DrawNumber (socketId roomId : string) (now : Z)
| MarkNumber (socketId roomId userId : string) (number : Z)
| ResetDraw (socketId roomId : string)
| GetRoomState (socketId roomId : string)
| Disconnect (socketId : string).

Definition handle (fuel : nat) (st : Server) (req : Request)
    : option (Server * list Output) :=
  match req with
  | CreateRoom hostName numbersPerCard uuid now =>
      Some (createRoom st hostName numbersPerCard uuid now)
  | GetRoom roomId => Some (getRoom st roomId)
  | JoinRoom roomId participantName uuid now =>
      joinRoom fuel st roomId participantName uuid now
  | JoinAsHost socketId roomId userId =>
      Some (joinAsHost st socketId roomId userId)
  | JoinAsParticipant socketId roomId userId =>
      Some (joinAsParticipant st socketId roomId userId)
  | DrawNumber socketId roomId now => drawNumber fuel st socketId roomId now
  | MarkNumber socketId roomId userId number =>
      Some (markNumber st socketId roomId userId number)
  | ResetDraw socketId roomId => Some (resetDraw st socketId roomId)
  | GetRoomState socketId roomId => Some (getRoomState st socketId roomId)
  | Disconnect socketId => Some (disconnect st socketId)
  end.

(** One request handled: the handler ran to its end, or threw.  A
    handler that throws has changed no map by then, so such a step adds no
    state to those the server can be in. *)
Definition step (st st' : Server) : Prop :=
  ∃ fuel req outs, handle fuel st req = Some (st', outs).

(** The states the server can be in, starting with empty maps. *)
Definition reachable (st : Server) : Prop := rtc step emptyServer st.

End Handlers.

(** ** Predicates and sample data used to state the properties *)

Definition inRange (rg : Range) (v : Z) : Prop := rmin rg ≤ v ≤ rmax rg.

Global Instance inRange_dec rg v : Decision (inRange rg v).
Proof. unfold inRange. apply _. Defined.

(** How many numbers of [l] lie in the range [rg]. *)
Definition countIn (rg : Range) (l : list Z) : nat :=
  length (filter (inRange rg) l).

(** What the column loop maintains: [nums] and [used] hold the same
    pairwise distinct values of the range. *)
Record columnInv (rg : Range) (nums : list Z) (used : gset Z) : Prop := {
  inv_nodup : NoDup nums;
  inv_used : ∀ v, v ∈ used ↔ v ∈ nums;
  inv_range : Forall (inRange rg) nums
}.

(** What one finished column satisfies, given its range and target count. *)
Definition columnOk (work : Range * Z) (col : list Z) : Prop :=
  NoDup col ∧ Forall (inRange work.1) col ∧ Sorted Z.le col ∧
  Z.of_nat (length col) = Z.max work.2 0.

(** A work item the column loop can finish. *)
Definition columnFits (rnd : nat → Z) (work : Range * Z) : Prop :=
  rmin work.1 ≤ rmax work.1 ∧
  work.2 ≤ rmax work.1 - rmin work.1 + 1 ∧
  fair rnd (rmax work.1 - rmin work.1 + 1).

(** The five sorted columns behind a generated card. *)
Record cardColumns (n : Z) (card : CardData.t)
    (c0 c1 c2 c3 c4 : list Z) : Prop := {
  cc_numbers : CardData.numbers card = sortAsc (c0 ++ c1 ++ c2 ++ c3 ++ c4);
  cc_grid :
    CardData.grid card =
      Gen.flattenMatrix (ceilDiv (n + 1) 5)
        (Gen.buildMatrix (ceilDiv (n + 1) 5) (ceilDiv (n + 1) 5 / 2)
           [c0; c1; c2; c3; c4]);
  cc_perRow : CardData.numbersPerRow card = 5;
  cc_perCol : CardData.numbersPerCol card = ceilDiv (n + 1) 5;
  cc_centerRow : CardData.centerRow card = ceilDiv (n + 1) 5 / 2;
  cc_centerCol : CardData.centerCol card = 2;
  cc_col0 : columnOk ({| rmin := 1; rmax := 15 |}, Gen.targetCount n 0) c0;
  cc_col1 : columnOk ({| rmin := 16; rmax := 30 |}, Gen.targetCount n 1) c1;
  cc_col2 : columnOk ({| rmin := 31; rmax := 45 |}, Gen.targetCount n 2) c2;
  cc_col3 : columnOk ({| rmin := 46; rmax := 60 |}, Gen.targetCount n 3) c3;
  cc_col4 : columnOk ({| rmin := 61; rmax := 75 |}, Gen.targetCount n 4) c4
}.

(** Unpack the range facts of the five columns as statements about
    members. *)
Ltac column_facts H :=
  destruct H as [? ? ? ? ? ? (Hnd0 & Hr0 & Hs0 & Hl0) (Hnd1 & Hr1 & Hs1 & Hl1)
                   (Hnd2 & Hr2 & Hs2 & Hl2) (Hnd3 & Hr3 & Hs3 & Hl3)
                   (Hnd4 & Hr4 & Hs4 & Hl4)];
  simpl in Hr0, Hr1, Hr2, Hr3, Hr4, Hl0, Hl1, Hl2, Hl3, Hl4.

(** The cell of a row-major grid of five columns. *)
Definition gridCell (grid : list (option Z)) (row col : Z)
    : option (option Z) :=
  grid !! Z.to_nat (row * 5 + col).

(** The free cells of a card: the positions of its grid at which the
    matrix loop takes the free-cell branch, the one guarded by
    [row === centerRow && col === centerCol]. *)
Definition freeCells (card : CardData.t) : list (Z * Z) :=
  filter (λ cell, cell.1 = CardData.centerRow card
                  ∧ cell.2 = CardData.centerCol card)
    (row ← seqZ 0 (CardData.numbersPerCol card);
     (λ col, (row, col)) <$> seqZ 0 (CardData.numbersPerRow card)).

(** How many cells of the grid are [null]. *)
Definition nullCells (grid : list (option Z)) : nat :=
  length (filter (λ cell, cell = None) grid).

(** Decide every integer comparison in the goal. *)
Ltac split_tests :=
  repeat match goal with
    | |- context [Z.eqb ?a ?b] => destruct (Z.eqb_spec a b)
    | |- context [Z.leb ?a ?b] => destruct (Z.leb_spec a b)
    | |- context [Z.ltb ?a ?b] => destruct (Z.ltb_spec a b)
    end; simpl.

(** The cells of a column skipped above [row], counting from row [s]:
    one in the center column below its center row, none elsewhere. *)
Definition skipped (col cr s row : Z) : nat :=
  if (col =? 2) && (s <=? cr) && (cr <? row) then 1%nat else 0%nat.

(** [1] when the proposition holds and [0] otherwise. *)
Definition indicator (P : Prop) `{Decision P} : nat :=
  if decide P then 1%nat else 0%nat.

(** Where the grid of a card of size [n] holds [null]: the free cell in
    the middle of the center column, and the last row of every other
    column that got no extra number. *)
Definition nullAt (n row col : Z) : Prop :=
  (row = (n / 5 + 1) / 2 ∧ col = 2) ∨
  (col ≠ 2 ∧ row = n / 5 ∧ n mod 5 ≤ Gen.positionInNonCenter col).

Global Instance nullAt_dec n row col : Decision (nullAt n row col).
Proof. unfold nullAt. apply _. Defined.

(** The card the sample stream yields for size 20. *)
Definition demoCard20 : CardData.t :=
  {| CardData.numbers :=
       [1; 2; 3; 4; 19; 20; 21; 22; 37; 38; 39; 40; 55; 56; 57; 58;
        61; 73; 74; 75];
     CardData.grid :=
       [Some 1; Some 19; Some 37; Some 55; Some 61;
        Some 2; Some 20; Some 38; Some 56; Some 73;
        Some 3; Some 21; None;    Some 57; Some 74;
        Some 4; Some 22; Some 39; Some 58; Some 75;
        None;   None;    Some 40; None;    None];
     CardData.numbersPerRow := 5;
     CardData.numbersPerCol := 5;
     CardData.centerRow := 2;
     CardData.centerCol := 2 |}.

(** The reply of a handler is one [numberDrawn] broadcast. *)
Definition isNumberDrawn (outs : list Output) : bool :=
  match outs with
  | [RoomEmit _ (NumberDrawn _ _ _)] => true
  | _ => false
  end.

(** [k] calls of [drawNumber] in a row, every one of them a draw. *)
Fixpoint drawTimes (rnd : nat → Z) (k fuel : nat) (st : Server)
    (socketId roomId : string) (now : Z) : option Server :=
  match k with
  | O => Some st
  | S k' =>
      match drawNumber rnd fuel st socketId roomId now with
      | Some (st', outs) =>
          if isNumberDrawn outs
          then drawTimes rnd k' fuel st' socketId roomId now
          else None
      | None => None
      end
  end.

(** A room with one host connection and nothing drawn yet. *)
Definition demoRoom : Room.t :=
  Room.mk "abcd1234" "Ana" 24 [] ∅ 0 Undefined.

Definition demoServer : Server :=
  mkServer {[ "abcd1234"%string := demoRoom ]}
           {[ "s1"%string := Session.mk "host" "abcd1234" true ]} 0%nat.

(** The spec's names for the failures the handlers report by message. *)
Inductive ErrorKind :=
| ValidationError
| NotFoundError
| AuthorizationError
| ExhaustedError.

Definition errorKind (message : string) : option ErrorKind :=
  if decide (message = msgHostNameRequired) then Some ValidationError
  else if decide (message = msgParticipantNameRequired)
  then Some ValidationError
  else if decide (message = msgNotOnCard) then Some ValidationError
  else if decide (message = msgRoomNotFound) then Some NotFoundError
  else if decide (message = msgNotInRoom) then Some NotFoundError
  else if decide (message = msgParticipantNotFound) then Some NotFoundError
  else if decide (message = msgOnlyHostDraws) then Some AuthorizationError
  else if decide (message = msgOnlyHostResets) then Some AuthorizationError
  else if decide (message = msgAllDrawn) then Some ExhaustedError
  else None.

(** What the drawn-number sequence of a room has to satisfy. *)
Definition drawnOk (drawn : list Z) : Prop :=
  Sorted Z.le drawn ∧ NoDup drawn ∧ Forall (λ v, 1 ≤ v ≤ 75) drawn ∧
  (length drawn ≤ 75)%nat.

Definition roomsOk (st : Server) : Prop :=
  ∀ roomId room, rooms st !! roomId = Some room →
    drawnOk (Room.drawnNumbers room).

(** Requests handled one after the other. *)
Fixpoint runRequests (rnd : nat → Z) (fuel : nat) (st : Server)
    (reqs : list Request) : option Server :=
  match reqs with
  | [] => Some st
  | req :: rest =>
      match handle rnd fuel st req with
      | Some (st', _) => runRequests rnd fuel st' rest
      | None => None
      end
  end.

(** A room is created, a host connects and draws three numbers. *)
Definition demoRequests : list Request :=
  [ CreateRoom (Some "Ana"%string) None "abcd1234-0000" 0;
    JoinAsHost "s1" "abcd1234" "host";
    DrawNumber "s1" "abcd1234" 1;
    DrawNumber "s1" "abcd1234" 2;
    DrawNumber "s1" "abcd1234" 3 ].

(** A room of card size 3 is created, a participant joins and marks 1
    and 16, and a host connects. *)
Definition demoMarkRequests : list Request :=
  [ CreateRoom (Some "Ana"%string) (Some 3) "abcd1234-0000" 0;
    JoinRoom "abcd1234" (Some "Bruno"%string) "u1" 1;
    JoinAsHost "s1" "abcd1234" "host";
    MarkNumber "s2" "abcd1234" "u1" 1;
    MarkNumber "s2" "abcd1234" "u1" 16 ].

(** The participant, the room and the server state after these requests. *)
Definition demoParticipant : Participant.t :=
  Participant.mk "u1" "Bruno" [1; 16; 46]
    [Some 1; Some 16; None; Some 46; None] 5 1 0 2 [1; 16] 1.

Definition demoMarkRoom : Room.t :=
  Room.mk "abcd1234" "Ana" 3 [] {[ "u1"%string := demoParticipant ]} 0
    Undefined.

Definition demoMarkServer : Server :=
  mkServer {[ "abcd1234"%string := demoMarkRoom ]}
           {[ "s1"%string := Session.mk "host" "abcd1234" true ]} 3%nat.

(** The marked numbers of a participant of a room, when both exist. *)
Definition markedOf (st : Server) (roomId userId : string)
    : option (list Z) :=
  room ← rooms st !! roomId;
  participant ← Room.participants room !! userId;
  Some (Participant.markedNumbers participant).

(** The connection a socket event comes from; [None] for a REST call,
    whose reply is the HTTP response to the caller. *)
Definition origin (req : Request) : option string :=
  match req with
  | CreateRoom _ _ _ _ | GetRoom _ | JoinRoom _ _ _ _ => None
  | JoinAsHost socketId _ _ | JoinAsParticipant socketId _ _
  | DrawNumber socketId _ _ | MarkNumber socketId _ _ _
  | ResetDraw socketId _ | GetRoomState socketId _
  | Disconnect socketId => Some socketId
  end.

(** An output that reports a failure, to whomever. *)
Definition isError (out : Output) : bool :=
  match out with
  | SocketEmit _ (EvError _) | RoomEmit _ (EvError _)
  | HttpJson _ (ErrorBody _) => true
  | _ => false
  end.

(** A failure reported to the caller alone: the [error] event on the
    socket of the request, or the 400/404 response of the REST call. *)
Definition unicastError (req : Request) (out : Output) : Prop :=
  match out with
  | SocketEmit socketId (EvError _) => origin req = Some socketId
  | HttpJson status (ErrorBody _) =>
      origin req = None ∧ (status = 400 ∨ status = 404)
  | _ => False
  end.

Definition isHostSocket (st : Server) (socketId : string) : bool :=
  from_option Session.isHost false (users st !! socketId).

Definition roomKnown (st : Server) (roomId : string) : bool :=
  bool_decide (is_Some (rooms st !! roomId)).

Definition participantOf (st : Server) (roomId userId : string)
    : option Participant.t :=
  room ← rooms st !! roomId; Room.participants room !! userId.

Definition exhausted (st : Server) (roomId : string) : bool :=
  match rooms st !! roomId with
  | Some room => bool_decide (75 ≤ length (Room.drawnNumbers room))%nat
  | None => false
  end.

(** The inputs on which an operation fails: a missing name, an unknown
    room or participant, a number that is not on the card, a caller that
    is not a host, no number left to draw. *)
Definition fails (st : Server) (req : Request) : bool :=
  match req with
  | CreateRoom hostName _ _ _ => negb (truthy hostName)
  | GetRoom roomId => negb (roomKnown st roomId)
  | JoinRoom roomId participantName _ _ =>
      negb (truthy participantName) || negb (roomKnown st roomId)
  | JoinAsHost _ roomId _ => negb (roomKnown st roomId)
  | JoinAsParticipant _ roomId userId =>
      negb (bool_decide (is_Some (participantOf st roomId userId)))
  | DrawNumber socketId roomId _ =>
      negb (isHostSocket st socketId) || negb (roomKnown st roomId)
      || exhausted st roomId
  | MarkNumber _ roomId userId number =>
      match participantOf st roomId userId with
      | Some participant =>
          negb (bool_decide (number ∈ Participant.card participant))
      | None => true
      end
  | ResetDraw socketId roomId =>
      negb (isHostSocket st socketId) || negb (roomKnown st roomId)
  | GetRoomState _ roomId => negb (roomKnown st roomId)
  | Disconnect _ => false
  end.

(** The request reads, from the participants of a stored room, a user id
    that is not stored there and names a member of [Object.prototype]. *)
Definition namesInherited (st : Server) (req : Request) : bool :=
  match req with
  | JoinAsParticipant _ roomId userId | MarkNumber _ roomId userId _ =>
      match rooms st !! roomId with
      | Some room =>
          match getMember (Room.participants room) userId with
          | Inherited _ => true
          | _ => false
          end
      | None => false
      end
  | _ => false
  end.

(** An exception that left the handler. *)
Definition isUncaught (out : Output) : bool :=
  match out with
  | Uncaught _ => true
  | _ => false
  end.

(** The state after a room was created with the default card size. *)
Definition demoCreated : Server :=
  (createRoom emptyServer (Some "Ana"%string) None "abcd1234-0000" 0).1.

(** ** Predicates and sample data for the store as a whole *)

(** What a stored participant satisfies under its key: the marked numbers
    are pairwise distinct numbers of the card. *)
Definition marksOk (userId : string) (p : Participant.t) : Prop :=
  Participant.id p = userId ∧
  NoDup (Participant.markedNumbers p) ∧
  Participant.markedNumbers p ⊆ Participant.card p.

(** What the card of a participant satisfies in a room whose card size
    [n] is not negative. *)
Definition cardOk (n : Z) (p : Participant.t) : Prop :=
  0 ≤ n →
  n ≤ 75 ∧
  Z.of_nat (length (Participant.card p)) = n ∧
  NoDup (Participant.card p) ∧
  Sorted Z.le (Participant.card p) ∧
  Forall (λ v, 1 ≤ v ≤ 75) (Participant.card p) ∧
  Participant.numbersPerRow p = 5 ∧
  Participant.numbersPerCol p = n / 5 + 1 ∧
  Participant.centerRow p = (n / 5 + 1) / 2 ∧
  Participant.centerCol p = 2 ∧
  Z.of_nat (length (Participant.cardGrid p)) = 5 * (n / 5 + 1).

Definition storeOk (st : Server) : Prop :=
  ∀ roomId room, rooms st !! roomId = Some room →
    Room.id room = roomId ∧
    ∀ userId p, Room.participants room !! userId = Some p →
      marksOk userId p ∧ cardOk (Room.numbersPerCard room) p.

(** Every session names a stored room. *)
Definition sessionsOk (st : Server) : Prop :=
  ∀ socketId session, users st !! socketId = Some session →
    is_Some (rooms st !! Session.roomId session).

(** [markNumber] for each number of a list in turn, on one socket. *)
Fixpoint markEach (st : Server) (socketId roomId userId : string)
    (nums : list Z) : Server * list Output :=
  match nums with
  | [] => (st, [])
  | number :: rest =>
      let result := markNumber st socketId roomId userId number in
      let later := markEach result.1 socketId roomId userId rest in
      (later.1, result.2 ++ later.2)
  end.

(** The [bingo] broadcasts among the outputs. *)
Definition isBingo (out : Output) : bool :=
  match out with
  | RoomEmit _ (Bingo _ _) => true
  | _ => false
  end.

Definition bingoCount (outs : list Output) : nat :=
  length (filter (λ out, isBingo out = true) outs).

(** The sample room after its participant marked the whole card. *)
Definition demoFullServer : Server :=
  (markNumber demoMarkServer "s2" "abcd1234" "u1" 46).1.

(** * Properties *)

(** ** Arithmetic and sorting *)

Lemma randomBelow_range u k : 0 < k → 0 ≤ randomBelow u k < k.
Proof.
  intros Hk. unfold randomBelow, randomScale.
  assert (Hm : 0 ≤ u mod 2 ^ 53 < 2 ^ 53) by (apply Z.mod_pos_bound; lia).
  split.
  - apply Z.div_pos; nia.
  - apply Z.div_lt_upper_bound; nia.
Qed.

Lemma sortAsc_perm l : sortAsc l ≡ₚ l.
Proof. apply merge_sort_Permutation. Qed.

Lemma sortAsc_sorted l : Sorted Z.le (sortAsc l).
Proof. apply (Sorted_merge_sort Z.le). Qed.

Lemma sortAsc_length l : length (sortAsc l) = length l.
Proof. by rewrite sortAsc_perm. Qed.

Lemma sortAsc_elem l v : v ∈ sortAsc l ↔ v ∈ l.
Proof. by rewrite sortAsc_perm. Qed.

Lemma sortAsc_NoDup l : NoDup (sortAsc l) ↔ NoDup l.
Proof. by rewrite sortAsc_perm. Qed.

Lemma sortAsc_Forall (P : Z → Prop) l : Forall P (sortAsc l) ↔ Forall P l.
Proof. by rewrite sortAsc_perm. Qed.

(** ** The column loop *)

Section ColumnLoop.
Variable rnd : nat → Z.

Lemma columnInv_nil rg : columnInv rg [] ∅.
Proof. split; [constructor | set_solver | constructor]. Qed.

Lemma columnInv_push rg nums used v :
  columnInv rg nums used → inRange rg v → v ∉ used →
  columnInv rg (nums ++ [v]) ({[ v ]} ∪ used).
Proof.
  intros [Hnd Hu Hr] Hv Hfresh. split.
  - apply NoDup_app. split; [done|]. split; [|apply NoDup_singleton].
    intros x Hx Hx'. apply list_elem_of_singleton in Hx' as ->.
    by apply Hfresh, Hu.
  - intros x. rewrite elem_of_union, elem_of_singleton, elem_of_app,
      list_elem_of_singleton, Hu. tauto.
  - apply Forall_app. split; [done|]. by constructor.
Qed.

Lemma sample_inRange rg u :
  rmin rg ≤ rmax rg →
  inRange rg (randomBelow u (rmax rg - rmin rg + 1) + rmin rg).
Proof.
  intros Hle. pose proof (randomBelow_range u (rmax rg - rmin rg + 1)).
  unfold inRange. lia.
Qed.

Lemma fillColumn_spec fuel : ∀ pos rg count nums used res pos',
  rmin rg ≤ rmax rg →
  columnInv rg nums used →
  Gen.fillColumn rnd fuel pos rg count nums used = Some (res, pos') →
  NoDup res ∧ Forall (inRange rg) res ∧
  Z.of_nat (length res) = Z.max count (Z.of_nat (length nums)).
Proof.
  induction fuel as [|fuel IH]; intros pos rg count nums used res pos' Hrg Hinv;
    simpl; destruct (Z.ltb_spec (Z.of_nat (length nums)) count) as [Hlt|Hge];
    intros Hrun; try discriminate.
  - injection Hrun as <- <-. destruct Hinv. repeat split; try done. lia.
  - destruct (decide _) as [Hin|Hnin].
    + apply IH in Hrun; done.
    + apply IH in Hrun; [|done|].
      * rewrite length_app in Hrun. simpl in Hrun.
        destruct Hrun as (? & ? & Hl). repeat split; try done. lia.
      * apply columnInv_push; [done| by apply sample_inRange |done].
  - injection Hrun as <- <-. destruct Hinv. repeat split; try done. lia.
Qed.

Lemma fillColumn_mono fuel : ∀ fuel' pos rg count nums used r,
  Gen.fillColumn rnd fuel pos rg count nums used = Some r →
  (fuel ≤ fuel')%nat →
  Gen.fillColumn rnd fuel' pos rg count nums used = Some r.
Proof.
  induction fuel as [|fuel IH]; intros fuel' pos rg count nums used r; simpl.
  - destruct (Z.ltb_spec (Z.of_nat (length nums)) count) as [Hlt|Hge];
      [discriminate|].
    intros Hr _. destruct fuel'; simpl;
      destruct (Z.ltb_spec (Z.of_nat (length nums)) count); done || lia.
  - intros Hr Hle. destruct fuel' as [|fuel']; [lia|]. simpl.
    destruct (Z.of_nat (length nums) <? count); [|done].
    destruct (decide _); apply IH; done || lia.
Qed.

(** While the column is short of the range's size a value of the range is
    still unused. *)
Lemma fresh_value rg nums used :
  columnInv rg nums used →
  Z.of_nat (length nums) < rmax rg - rmin rg + 1 →
  ∃ v, 0 ≤ v < rmax rg - rmin rg + 1 ∧ v + rmin rg ∉ used.
Proof.
  intros [Hnd Hu Hr] Hlen.
  set (K := rmax rg - rmin rg + 1) in *.
  set (L := (λ v, v + rmin rg) <$> seqZ 0 K).
  destruct (decide (Forall (λ x, x ∈ nums) L)) as [Hall|Hex].
  - exfalso.
    assert (HndL : NoDup L).
    { apply NoDup_fmap_2; [intros x y; lia | apply NoDup_seqZ]. }
    assert (Hsub : L ⊆+ nums).
    { apply NoDup_submseteq; [done|]. by apply Forall_forall. }
    apply submseteq_length in Hsub.
    unfold L in Hsub. rewrite length_fmap, length_seqZ in Hsub. lia.
  - apply not_Forall_Exists in Hex; [|apply _].
    apply Exists_exists in Hex as (x & Hx & Hnot).
    apply list_elem_of_fmap in Hx as (v & -> & Hv).
    apply elem_of_seqZ in Hv. exists v. split; [lia|].
    by rewrite Hu.
Qed.

(** With a fair stream the loop ends as soon as the count fits the range. *)
Lemma fillColumn_terminates rg count :
  rmin rg ≤ rmax rg →
  count ≤ rmax rg - rmin rg + 1 →
  fair rnd (rmax rg - rmin rg + 1) →
  ∀ (m : nat) nums used pos,
    columnInv rg nums used →
    (Z.to_nat (count - Z.of_nat (length nums)) ≤ m)%nat →
    ∃ fuel r, Gen.fillColumn rnd fuel pos rg count nums used = Some r.
Proof.
  intros Hrg Hcount Hfair m.
  induction m as [|m IHm]; intros nums used pos Hinv Hm.
  - exists 0%nat, (nums, pos). simpl.
    destruct (Z.ltb_spec (Z.of_nat (length nums)) count); [lia|done].
  - destruct (Z.ltb_spec (Z.of_nat (length nums)) count) as [Hlt|Hge].
    2:{ exists 0%nat, (nums, pos). simpl.
        destruct (Z.ltb_spec (Z.of_nat (length nums)) count); [lia|done]. }
    destruct (fresh_value rg nums used Hinv) as (v & Hv & Hfresh); [lia|].
    destruct (Hfair pos v Hv) as (j & Hj & Hsample).
    assert (Hd : ∃ d, j = (pos + d)%nat) by (exists (j - pos)%nat; lia).
    destruct Hd as [d ->]. clear Hj.
    revert pos Hsample. induction d as [|d IHd]; intros pos Hsample.
    + replace (pos + 0)%nat with pos in Hsample by lia.
      destruct (IHm (nums ++ [v + rmin rg]) ({[ v + rmin rg ]} ∪ used) (S pos))
        as (fuel & r & Hrun).
      * apply columnInv_push; [done| |done]. unfold inRange. lia.
      * rewrite length_app. simpl. lia.
      * exists (S fuel), r. simpl.
        destruct (Z.ltb_spec (Z.of_nat (length nums)) count); [|lia].
        rewrite Hsample. by rewrite decide_False.
    + destruct (decide (randomBelow (rnd pos) (rmax rg - rmin rg + 1)
                        + rmin rg ∈ used)) as [Hin|Hnin].
      * destruct (IHd (S pos)) as (fuel & r & Hrun).
        { by replace (S pos + d)%nat with (pos + S d)%nat by lia. }
        exists (S fuel), r. simpl.
        destruct (Z.ltb_spec (Z.of_nat (length nums)) count); [|lia].
        by rewrite decide_True.
      * set (num := randomBelow (rnd pos) (rmax rg - rmin rg + 1) + rmin rg)
          in *.
        destruct (IHm (nums ++ [num]) ({[ num ]} ∪ used) (S pos))
          as (fuel & r & Hrun).
        { apply columnInv_push; [done| by apply sample_inRange |done]. }
        { rewrite length_app. simpl. lia. }
        exists (S fuel), r. simpl.
        destruct (Z.ltb_spec (Z.of_nat (length nums)) count); [|lia].
        fold num. by rewrite decide_False.
Qed.

End ColumnLoop.

(** ** All five columns *)

Section Columns.
Variable rnd : nat → Z.

Lemma fillColumns_spec fuel : ∀ work pos cols pos',
  Forall (λ w : Range * Z, rmin w.1 ≤ rmax w.1) work →
  Gen.fillColumns rnd fuel pos work = Some (cols, pos') →
  Forall2 columnOk work cols.
Proof.
  induction work as [|[rg count] work IH]; intros pos cols pos' Hwork; simpl.
  - intros [= <- <-]. constructor.
  - apply Forall_cons in Hwork as [Hrg Hwork].
    destruct (Gen.fillColumn _ _ _ _ _ _ _) as [[nums pos1]|] eqn:Hcol;
      [|discriminate].
    destruct (Gen.fillColumns _ _ _ _) as [[rest pos2]|] eqn:Hrest;
      [|discriminate].
    intros [= <- <-]. constructor; [|by eapply IH].
    apply fillColumn_spec in Hcol as (Hnd & Hr & Hl);
      [|done|apply columnInv_nil].
    unfold columnOk. simpl in *.
    rewrite sortAsc_NoDup, sortAsc_Forall, sortAsc_length.
    repeat split; [done|done|apply sortAsc_sorted|lia].
Qed.

Lemma fillColumns_mono fuel fuel' : ∀ work pos r,
  Gen.fillColumns rnd fuel pos work = Some r →
  (fuel ≤ fuel')%nat →
  Gen.fillColumns rnd fuel' pos work = Some r.
Proof.
  induction work as [|[rg count] work IH]; intros pos r; simpl; [done|].
  destruct (Gen.fillColumn _ fuel _ _ _ _ _) as [[nums pos1]|] eqn:Hcol;
    [|discriminate].
  destruct (Gen.fillColumns _ fuel _ _) as [[rest pos2]|] eqn:Hrest;
    [|discriminate].
  intros [= <-] Hle.
  rewrite (fillColumn_mono rnd fuel fuel' _ _ _ _ _ _ Hcol Hle).
  by rewrite (IH _ _ Hrest Hle).
Qed.

Lemma fillColumns_terminates : ∀ work pos,
  Forall (columnFits rnd) work →
  ∃ fuel r, Gen.fillColumns rnd fuel pos work = Some r.
Proof.
  induction work as [|[rg count] work IH]; intros pos Hwork.
  - by exists 0%nat, ([], pos).
  - apply Forall_cons in Hwork as [(Hrg & Hcount & Hfair) Hwork].
    simpl in *.
    destruct (fillColumn_terminates rnd rg count Hrg Hcount Hfair
                (Z.to_nat count) [] ∅ pos (columnInv_nil rg))
      as (fuel1 & [nums pos1] & Hcol); [simpl; lia|].
    destruct (IH pos1 Hwork) as (fuel2 & [rest pos2] & Hrest).
    exists (fuel1 `max` fuel2)%nat, (sortAsc nums :: rest, pos2).
    rewrite (fillColumn_mono rnd fuel1 _ _ _ _ _ _ _ Hcol) by lia.
    by rewrite (fillColumns_mono fuel2 _ _ _ _ Hrest) by lia.
Qed.

End Columns.

(** ** Target counts *)

Lemma columns_eq : Gen.columns = [0; 1; 2; 3; 4].
Proof. reflexivity. Qed.

Lemma initialCounts_eq n :
  Gen.initialCounts n =
    [Gen.targetCount n 0; Gen.targetCount n 1; Gen.targetCount n 2;
     Gen.targetCount n 3; Gen.targetCount n 4].
Proof. reflexivity. Qed.

(** For a size that is not negative the first loop already hands out
    exactly [n] numbers: the base count to the center column, and the
    remainder to the non-center columns from the left. *)
Lemma targetCount_cases n c :
  0 ≤ n →
  Gen.targetCount n c =
    n / 5 + (if decide (c ≠ 2 ∧ Gen.positionInNonCenter c < n mod 5)
             then 1 else 0).
Proof.
  intros Hn.
  unfold Gen.targetCount, floorDiv, jsRem, Gen.numbersPerRow, Gen.centerCol.
  rewrite Z.rem_mod_nonneg by lia.
  destruct (Z.eqb_spec c 2) as [->|Hne].
  - rewrite decide_False by lia. lia.
  - destruct (Z.ltb_spec (Gen.positionInNonCenter c) (n mod 5)).
    + rewrite decide_True by done. lia.
    + rewrite decide_False by lia. lia.
Qed.

Lemma totalTarget_eq n : 0 ≤ n → Gen.totalTarget n = n.
Proof.
  intros Hn. unfold Gen.totalTarget. rewrite initialCounts_eq. simpl.
  rewrite !targetCount_cases by done.
  unfold Gen.positionInNonCenter, Gen.centerCol. simpl.
  pose proof (Z.mod_pos_bound n 5 ltac:(lia)).
  pose proof (Z.div_mod n 5 ltac:(lia)).
  repeat case_decide; lia.
Qed.

Lemma targetCounts_eq n : 0 ≤ n → Gen.targetCounts n = Gen.initialCounts n.
Proof.
  intros Hn. unfold Gen.targetCounts. rewrite totalTarget_eq by done.
  by rewrite Z.eqb_refl.
Qed.

Lemma targetCount_bounds n c :
  0 ≤ n ≤ 75 → 0 ≤ c < 5 → 0 ≤ Gen.targetCount n c ≤ 15.
Proof.
  intros Hn Hc. rewrite targetCount_cases by lia.
  pose proof (Z.mod_pos_bound n 5 ltac:(lia)).
  pose proof (Z.div_mod n 5 ltac:(lia)).
  unfold Gen.positionInNonCenter, Gen.centerCol.
  case_decide; destruct (Z.ltb_spec c 2); lia.
Qed.

(** ** Counting the numbers of a range *)

Lemma countIn_app rg l k :
  countIn rg (l ++ k) = (countIn rg l + countIn rg k)%nat.
Proof. unfold countIn. by rewrite filter_app, length_app. Qed.

Lemma countIn_all rg l : Forall (inRange rg) l → countIn rg l = length l.
Proof.
  unfold countIn. induction 1 as [|x l Hx _ IH]; [done|].
  rewrite filter_cons_True by done. simpl. by rewrite IH.
Qed.

Lemma countIn_none rg l :
  Forall (λ v, ¬ inRange rg v) l → countIn rg l = 0%nat.
Proof.
  unfold countIn. induction 1 as [|x l Hx _ IH]; [done|].
  by rewrite filter_cons_False.
Qed.

Lemma countIn_sortAsc rg l : countIn rg (sortAsc l) = countIn rg l.
Proof. unfold countIn. by rewrite sortAsc_perm. Qed.

(** Numbers of one range lie outside any range disjoint from it. *)
Lemma Forall_outside rg rg' l :
  (rmax rg < rmin rg' ∨ rmax rg' < rmin rg) →
  Forall (inRange rg) l → Forall (λ v, ¬ inRange rg' v) l.
Proof.
  intros Hdisj Hl. eapply Forall_impl; [exact Hl|].
  unfold inRange. simpl. lia.
Qed.

(** ** The generated card, column by column *)

Lemma generateBingoCard_columns rnd fuel pos n card pos' :
  0 ≤ n →
  Gen.generateBingoCard rnd fuel pos n = Some (card, pos') →
  ∃ c0 c1 c2 c3 c4, cardColumns n card c0 c1 c2 c3 c4.
Proof.
  intros Hn. unfold Gen.generateBingoCard.
  rewrite targetCounts_eq, initialCounts_eq by done.
  destruct (Gen.fillColumns _ _ _ _) as [[cols pos1]|] eqn:Hcols;
    [|discriminate].
  intros [= <- <-].
  apply fillColumns_spec in Hcols.
  2:{ unfold Gen.columnRanges. simpl. repeat constructor; simpl; lia. }
  unfold Gen.columnRanges in Hcols. simpl in Hcols.
  apply Forall2_cons_inv_l in Hcols as (c0 & cols0 & H0 & Hcols & ->).
  apply Forall2_cons_inv_l in Hcols as (c1 & cols1 & H1 & Hcols & ->).
  apply Forall2_cons_inv_l in Hcols as (c2 & cols2 & H2 & Hcols & ->).
  apply Forall2_cons_inv_l in Hcols as (c3 & cols3 & H3 & Hcols & ->).
  apply Forall2_cons_inv_l in Hcols as (c4 & cols4 & H4 & Hcols & ->).
  apply Forall2_nil_inv_l in Hcols as ->.
  exists c0, c1, c2, c3, c4. split; try done.
  simpl. by rewrite app_nil_r.
Qed.

Lemma columns_NoDup n card c0 c1 c2 c3 c4 :
  cardColumns n card c0 c1 c2 c3 c4 →
  NoDup (c0 ++ c1 ++ c2 ++ c3 ++ c4).
Proof.
  intros H. column_facts H.
  rewrite Forall_forall in Hr0, Hr1, Hr2, Hr3, Hr4. unfold inRange in *.
  simpl in *.
  repeat (apply NoDup_app; split; [done|]; split; [|try done]);
    intros x Hx; rewrite ?elem_of_app; intros Hx';
    repeat match goal with
      | H : _ ∨ _ |- _ => destruct H
      | H : ∀ y, y ∈ ?c → _, Hin : ?x ∈ ?c |- _ => apply H in Hin
      end; lia.
Qed.

Lemma columns_length n card c0 c1 c2 c3 c4 :
  0 ≤ n ≤ 75 →
  cardColumns n card c0 c1 c2 c3 c4 →
  Z.of_nat (length (c0 ++ c1 ++ c2 ++ c3 ++ c4)) = n.
Proof.
  intros Hn H. column_facts H.
  rewrite !length_app.
  pose proof (totalTarget_eq n ltac:(lia)) as Htot.
  unfold Gen.totalTarget in Htot. rewrite initialCounts_eq in Htot.
  simpl in Htot.
  pose proof (targetCount_bounds n 0 Hn ltac:(lia)).
  pose proof (targetCount_bounds n 1 Hn ltac:(lia)).
  pose proof (targetCount_bounds n 2 Hn ltac:(lia)).
  pose proof (targetCount_bounds n 3 Hn ltac:(lia)).
  pose proof (targetCount_bounds n 4 Hn ltac:(lia)).
  lia.
Qed.

Lemma columns_countIn n card c0 c1 c2 c3 c4 (c : nat) rg :
  0 ≤ n ≤ 75 →
  cardColumns n card c0 c1 c2 c3 c4 →
  Gen.columnRanges !! c = Some rg →
  Z.of_nat (countIn rg (c0 ++ c1 ++ c2 ++ c3 ++ c4))
  = Gen.targetCount n (Z.of_nat c).
Proof.
  intros Hn H Hc. column_facts H.
  pose proof (targetCount_bounds n 0 Hn ltac:(lia)).
  pose proof (targetCount_bounds n 1 Hn ltac:(lia)).
  pose proof (targetCount_bounds n 2 Hn ltac:(lia)).
  pose proof (targetCount_bounds n 3 Hn ltac:(lia)).
  pose proof (targetCount_bounds n 4 Hn ltac:(lia)).
  rewrite !countIn_app.
  destruct c as [|[|[|[|[|c]]]]]; simpl in Hc; [..|done];
    injection Hc as <-;
    repeat match goal with
      | |- context [countIn ?r ?l] =>
          first [ rewrite (countIn_all r l) by done
                | rewrite (countIn_none r l)
                    by (eapply Forall_outside; [|eassumption]; simpl; lia) ]
      end;
    match goal with
    | |- context [Gen.targetCount n (Z.of_nat ?k)] =>
        let v := eval vm_compute in (Z.of_nat k) in
        change (Z.of_nat k) with v
    end; lia.
Qed.

Lemma generateBingoCard_mono rnd fuel fuel' pos n r :
  Gen.generateBingoCard rnd fuel pos n = Some r →
  (fuel ≤ fuel')%nat →
  Gen.generateBingoCard rnd fuel' pos n = Some r.
Proof.
  unfold Gen.generateBingoCard. intros Hrun Hle.
  destruct (Gen.fillColumns rnd fuel _ _) as [[cols pos1]|] eqn:Hcols;
    [|discriminate].
  by rewrite (fillColumns_mono rnd fuel fuel' _ _ _ Hcols Hle).
Qed.

Lemma generateBingoCard_terminates rnd pos n :
  0 ≤ n ≤ 75 → fair rnd 15 →
  ∃ fuel0, ∀ fuel, (fuel0 ≤ fuel)%nat →
    is_Some (Gen.generateBingoCard rnd fuel pos n).
Proof.
  intros Hn Hfair.
  destruct (fillColumns_terminates rnd
              (zip Gen.columnRanges (Gen.targetCounts n)) pos)
    as (fuel0 & [cols pos1] & Hcols).
  { rewrite targetCounts_eq, initialCounts_eq by lia.
    unfold Gen.columnRanges. simpl.
    repeat constructor; simpl; try done;
      apply targetCount_bounds; lia. }
  exists fuel0. intros fuel Hle. unfold Gen.generateBingoCard.
  by rewrite (fillColumns_mono rnd fuel0 fuel _ _ _ Hcols Hle).
Qed.

(** The sample stream reaches every slot again and again. *)
Lemma demoStream_slot (pos : nat) (m : Z) :
  0 ≤ m < 75 →
  demoStream (75 * pos + Z.to_nat m) = (m * randomScale + 74) / 75.
Proof.
  intros Hm. unfold demoStream.
  replace (Z.of_nat (75 * pos + Z.to_nat m)) with (m + Z.of_nat pos * 75)
    by lia.
  by rewrite Z.mod_add, Z.mod_small by lia.
Qed.

Lemma demoStream_fair_draw : fair demoStream 75.
Proof.
  intros pos v Hv. exists (75 * pos + Z.to_nat v)%nat. split; [lia|].
  rewrite demoStream_slot by done.
  assert (Hall : Forall (λ m, randomBelow ((m * randomScale + 74) / 75) 75 = m)
                   (seqZ 0 75)).
  { apply (bool_decide_unpack _). by vm_compute. }
  rewrite Forall_forall in Hall. apply Hall, elem_of_seqZ. lia.
Qed.

Lemma demoStream_fair_column : fair demoStream 15.
Proof.
  intros pos v Hv. exists (75 * pos + Z.to_nat (5 * v))%nat. split; [lia|].
  rewrite demoStream_slot by lia.
  assert (Hall : Forall (λ m, randomBelow ((5 * m * randomScale + 74) / 75) 15
                              = m) (seqZ 0 15)).
  { apply (bool_decide_unpack _). by vm_compute. }
  rewrite Forall_forall in Hall. apply Hall, elem_of_seqZ. lia.
Qed.

(** A size above 75 asks some column for more numbers than its range
    holds, and the column loop then never ends: no bound on its
    iterations lets [generateBingoCard] return. *)
Lemma fillColumn_overfull rnd fuel pos rg count :
  rmin rg ≤ rmax rg → rmax rg - rmin rg + 1 < count →
  Gen.fillColumn rnd fuel pos rg count [] ∅ = None.
Proof.
  intros Hrg Hcount.
  destruct (Gen.fillColumn _ _ _ _ _ _ _) as [[res pos']|] eqn:Hrun; [|done].
  exfalso.
  apply fillColumn_spec in Hrun as (Hnd & Hr & Hl);
    [|done|apply columnInv_nil].
  assert (Hsub : res ⊆+ seqZ (rmin rg) (rmax rg - rmin rg + 1)).
  { apply NoDup_submseteq; [done|]. intros x Hx.
    rewrite Forall_forall in Hr. apply Hr in Hx. unfold inRange in Hx.
    apply elem_of_seqZ. lia. }
  apply submseteq_length in Hsub. rewrite length_seqZ in Hsub.
  simpl in Hl. lia.
Qed.

Lemma generateBingoCard_overfull rnd fuel pos n :
  75 < n → Gen.generateBingoCard rnd fuel pos n = None.
Proof.
  intros Hn. unfold Gen.generateBingoCard.
  rewrite targetCounts_eq, initialCounts_eq by lia.
  unfold Gen.columnRanges. cbn [zip zip_with Gen.fillColumns].
  rewrite fillColumn_overfull; [done|simpl; lia|]. simpl.
  rewrite targetCount_cases by lia.
  pose proof (Z.mod_pos_bound n 5 ltac:(lia)).
  pose proof (Z.div_mod n 5 ltac:(lia)).
  unfold Gen.positionInNonCenter, Gen.centerCol. simpl.
  case_decide; lia.
Qed.

(** A card size above 75 is stored by [createRoom] as it comes, and a
    join of a room of such a size never answers: whatever the random
    samples and the bound on the loop iterations, [generateBingoCard], and
    with it the join route, is still in the loop of the first column. *)
Theorem generateBingoCard_too_large (rnd : nat → Z) (fuel : nat) (n : Z) :
  75 < n →
  (∀ pos, Gen.generateBingoCard rnd fuel pos n = None) ∧
  (∀ st hostName uuid now, truthy hostName = true →
     ∃ room,
       rooms (createRoom st hostName (Some n) uuid now).1 !! shortId uuid
       = Some room ∧
       Room.numbersPerCard room = n) ∧
  (∀ st roomId room participantName uuid now,
     rooms st !! roomId = Some room →
     Room.numbersPerCard room = n →
     truthy participantName = true →
     joinRoom rnd fuel st roomId participantName uuid now = None).
Proof.
  intros Hn. split; [|split].
  - intros pos. by apply generateBingoCard_overfull.
  - intros st hostName uuid now Hname. unfold createRoom. rewrite Hname.
    simpl. eexists. split; [apply lookup_insert_eq|done].
  - intros st roomId room participantName uuid now Hr Hsize Hname.
    unfold joinRoom. rewrite Hname, Hr. simpl.
    by rewrite generateBingoCard_overfull by lia.
Qed.

Lemma generateBingoCard_too_large_witness :
  Gen.generateBingoCard demoStream 1000 0 76 = None ∧
  joinRoom demoStream 1000
    (createRoom emptyServer (Some "Ana"%string) (Some 76) "abcd1234-0000" 0).1
    "abcd1234" (Some "Bruno"%string) "u1" 1 = None.
Proof.
  destruct (generateBingoCard_too_large demoStream 1000 76 ltac:(lia))
    as (Hgen & _ & Hjoin).
  split; [apply Hgen|].
  exact (Hjoin
           (createRoom emptyServer (Some "Ana"%string) (Some 76)
              "abcd1234-0000" 0).1
           "abcd1234"%string
           (Room.mk "abcd1234" "Ana" 76 [] ∅ 0 Undefined)
           (Some "Bruno"%string) "u1"%string 1 eq_refl eq_refl eq_refl).
Defined.

Example generateBingoCard_24 :
  Gen.generateBingoCard demoStream 100 0 24 =
    Some ({| CardData.numbers :=
               [1; 2; 3; 4; 5; 20; 21; 22; 23; 24; 39; 40; 41; 42; 46; 57;
                58; 59; 60; 61; 62; 63; 64; 65];
             CardData.grid :=
               [Some 1; Some 20; Some 39; Some 46; Some 61;
                Some 2; Some 21; Some 40; Some 57; Some 62;
                Some 3; Some 22; None;    Some 58; Some 63;
                Some 4; Some 23; Some 41; Some 59; Some 64;
                Some 5; Some 24; Some 42; Some 60; Some 65];
             CardData.numbersPerRow := 5;
             CardData.numbersPerCol := 5;
             CardData.centerRow := 2;
             CardData.centerCol := 2 |}, 96%nat).
Proof. by vm_compute. Qed.

(** ** Card numbers (claim C1) *)

(** C1.  For a card size from 1 to 75, whenever [generateBingoCard]
    returns, the flat number list has exactly [n] elements, pairwise
    distinct, each inside the range of one column; the numbers inside the
    range of column [c] are exactly [targetCount n c] many, the center
    column's count being [n / 5].  The counts of the first loop already
    sum to [n], so the adjustment of the last column leaves them as they
    are.  With a fair random stream the call does return for every large
    enough bound on the loop iterations. *)
Theorem generateBingoCard_flat_numbers (rnd : nat → Z) (pos : nat) (n : Z) :
  1 ≤ n ≤ 75 →
  (∀ fuel card pos',
     Gen.generateBingoCard rnd fuel pos n = Some (card, pos') →
     length (CardData.numbers card) = Z.to_nat n ∧
     NoDup (CardData.numbers card) ∧
     (∀ v, v ∈ CardData.numbers card →
           ∃ rg, rg ∈ Gen.columnRanges ∧ inRange rg v) ∧
     (∀ (c : nat) rg, Gen.columnRanges !! c = Some rg →
        Z.of_nat (countIn rg (CardData.numbers card))
        = Gen.targetCount n (Z.of_nat c))) ∧
  Gen.targetCount n Gen.centerCol = n / 5 ∧
  Gen.totalTarget n = n ∧
  Gen.targetCounts n = Gen.initialCounts n ∧
  foldl Z.add 0 (Gen.targetCounts n) = n ∧
  (fair rnd 15 →
   ∃ fuel0, ∀ fuel, (fuel0 ≤ fuel)%nat →
     is_Some (Gen.generateBingoCard rnd fuel pos n)).
Proof.
  intros Hn. split; [|split; [|split; [|split; [|split]]]].
  - intros fuel card pos' Hrun.
    apply generateBingoCard_columns in Hrun as (c0 & c1 & c2 & c3 & c4 & Hcols);
      [|lia].
    pose proof (cc_numbers _ _ _ _ _ _ _ Hcols) as Hnum. rewrite Hnum.
    rewrite sortAsc_length, sortAsc_NoDup.
    assert (Hn' : 0 ≤ n ≤ 75) by lia.
    pose proof (columns_length _ _ _ _ _ _ _ Hn' Hcols).
    split; [lia|]. split; [by eapply columns_NoDup|]. split.
    + intros v. rewrite sortAsc_elem. column_facts Hcols.
      rewrite Forall_forall in Hr0, Hr1, Hr2, Hr3, Hr4.
      unfold Gen.columnRanges. rewrite !elem_of_app.
      intros [?|[?|[?|[?|?]]]]; eexists; (split; [|eauto]);
        apply list_elem_of_In; simpl; tauto.
    + intros c rg Hc. rewrite countIn_sortAsc.
      eapply columns_countIn; [|done..]. lia.
  - reflexivity.
  - apply totalTarget_eq. lia.
  - apply targetCounts_eq. lia.
  - rewrite targetCounts_eq by lia. apply totalTarget_eq. lia.
  - intros Hfair. apply generateBingoCard_terminates; [lia|done].
Qed.

Lemma generateBingoCard_flat_numbers_witness :
  (∀ fuel card pos',
     Gen.generateBingoCard demoStream fuel 0 24 = Some (card, pos') →
     length (CardData.numbers card) = 24%nat ∧
     NoDup (CardData.numbers card)) ∧
  ∃ fuel, is_Some (Gen.generateBingoCard demoStream fuel 0 24).
Proof.
  destruct (generateBingoCard_flat_numbers demoStream 0 24 ltac:(lia))
    as (Hres & _ & _ & _ & _ & Hterm).
  split.
  - intros fuel card pos' Hrun. destruct (Hres fuel card pos' Hrun) as (? & ? & _).
    done.
  - destruct (Hterm demoStream_fair_column) as [fuel0 Hfuel].
    exists fuel0. by apply Hfuel.
Defined.

(** ** The grid *)

Lemma ceilDiv_rows n : ceilDiv (n + 1) 5 = n / 5 + 1.
Proof. unfold ceilDiv. Z.div_mod_to_equations. lia. Qed.

Lemma matrixColumn_length rows col cr nums : ∀ idx,
  length (Gen.matrixColumn rows col cr nums idx) = length rows.
Proof.
  induction rows as [|row rows IH]; intros idx; simpl; [done|].
  destruct (_ && _); simpl; [by rewrite IH|].
  destruct (_ <? _)%nat; simpl; by rewrite IH.
Qed.

(** Row [k] of a column: the center column skips its center row, any
    other column is filled top to bottom. *)
Lemma matrixColumn_lookup col cr nums (len : nat) : ∀ s idx (k : nat),
  (k < len)%nat →
  Gen.matrixColumn (seqZ s (Z.of_nat len)) col cr nums idx !! k =
    Some (if (s + Z.of_nat k =? cr) && (col =? 2) then None
          else nums !! (idx + k - skipped col cr s (s + Z.of_nat k))%nat).
Proof.
  induction len as [|len IH]; intros s idx k Hk; [lia|].
  rewrite seqZ_cons by lia.
  replace (Z.pred (Z.of_nat (S len))) with (Z.of_nat len) by lia.
  simpl. unfold Gen.centerCol, skipped.
  destruct k as [|k].
  - replace (s + Z.of_nat 0) with s by lia.
    destruct ((s =? cr) && (col =? 2)) eqn:Hcenter; simpl; [done|].
    destruct (Nat.ltb_spec idx (length nums)); simpl.
    + do 2 f_equal. split_tests; lia.
    + f_equal. symmetry. apply lookup_ge_None_2. split_tests; lia.
  - destruct ((s =? cr) && (col =? 2)) eqn:Hcenter; simpl.
    + rewrite IH by lia. apply andb_true_iff in Hcenter as [Hs Hc].
      apply Z.eqb_eq in Hs, Hc. subst. f_equal. unfold skipped.
      split_tests; try lia; f_equal; lia.
    + destruct (Nat.ltb_spec idx (length nums)); simpl.
      * rewrite IH by lia. f_equal.
        apply andb_false_iff in Hcenter.
        rewrite Z.eqb_neq, Z.eqb_neq in Hcenter. unfold skipped.
        split_tests; try lia; try done; f_equal; lia.
      * rewrite IH by lia. f_equal. unfold skipped.
        split_tests; try lia; try done;
          rewrite !lookup_ge_None_2; (done || lia).
Qed.

(** Lookup in a concatenation of blocks of one width. *)
Lemma lookup_bind_blocks {A B} (f : A → list B) (w : nat) (l : list A) :
  (∀ x, length (f x) = w) →
  ∀ i j, (j < w)%nat →
    (l ≫= f) !! (i * w + j)%nat = l !! i ≫= (λ x, f x !! j).
Proof.
  intros Hw. induction l as [|x l IH]; intros i j Hj; [done|].
  rewrite bind_cons. destruct i as [|i]; simpl.
  - rewrite lookup_app_l by (rewrite Hw; lia). done.
  - rewrite lookup_app_r by (rewrite Hw; lia).
    rewrite Hw. replace (w + i * w + j - w)%nat with (i * w + j)%nat by lia.
    by apply IH.
Qed.

Lemma length_bind_blocks {A B} (f : A → list B) (w : nat) (l : list A) :
  (∀ x, length (f x) = w) → length (l ≫= f) = (length l * w)%nat.
Proof.
  intros Hw. induction l as [|x l IH]; [done|].
  rewrite bind_cons, length_app, Hw, IH. simpl. lia.
Qed.

Lemma flattenMatrix_length rows matrix :
  length (Gen.flattenMatrix rows matrix) = Z.to_nat (rows * 5).
Proof.
  unfold Gen.flattenMatrix.
  rewrite (length_bind_blocks _ 5) by (intros; by rewrite length_fmap).
  rewrite length_seqZ. lia.
Qed.

Lemma flattenMatrix_cell rows matrix row col :
  0 ≤ row < rows → 0 ≤ col < 5 →
  gridCell (Gen.flattenMatrix rows matrix) row col
  = Some (Gen.matrixCell matrix col row).
Proof.
  intros Hrow Hcol. unfold gridCell, Gen.flattenMatrix.
  replace (Z.to_nat (row * 5 + col))
    with (Z.to_nat row * 5 + Z.to_nat col)%nat by lia.
  rewrite (lookup_bind_blocks _ 5) by ((intros; by rewrite length_fmap) || lia).
  rewrite lookup_seqZ_lt by lia. cbn [mbind option_bind].
  rewrite list_lookup_fmap. unfold Gen.columns, Gen.numbersPerRow.
  rewrite lookup_seqZ_lt by lia. simpl. do 2 f_equal; lia.
Qed.

Lemma buildMatrix_cell rows cr cols row col :
  0 ≤ row < rows → 0 ≤ col < 5 →
  Gen.matrixCell (Gen.buildMatrix rows cr cols) col row =
    if (row =? cr) && (col =? 2) then None
    else default [] (cols !! Z.to_nat col)
           !! (Z.to_nat row - skipped col cr 0 row)%nat.
Proof.
  intros Hrow Hcol. unfold Gen.matrixCell, Gen.buildMatrix.
  rewrite list_lookup_fmap. unfold Gen.columns, Gen.numbersPerRow.
  rewrite lookup_seqZ_lt by lia. simpl.
  replace (0 + Z.of_nat (Z.to_nat col)) with col by lia.
  replace rows with (Z.of_nat (Z.to_nat rows)) at 1 by lia.
  rewrite matrixColumn_lookup by lia. simpl.
  replace (Z.of_nat (Z.to_nat row)) with row by lia.
  done.
Qed.

Lemma indicator_iff (P Q : Prop) `{Decision P, Decision Q} :
  (P ↔ Q) → indicator P = indicator Q.
Proof. unfold indicator. intros HPQ. repeat case_decide; tauto. Qed.

Lemma nullCells_cons cell g :
  nullCells (cell :: g) = (indicator (cell = None) + nullCells g)%nat.
Proof.
  unfold nullCells, indicator. rewrite filter_cons. by case_decide.
Qed.

Lemma nullCells_app g1 g2 :
  nullCells (g1 ++ g2) = (nullCells g1 + nullCells g2)%nat.
Proof. unfold nullCells. by rewrite filter_app, length_app. Qed.

Lemma length_filter_cons {A} (P : A → Prop) `{∀ x, Decision (P x)} x l :
  length (filter P (x :: l)) = (indicator (P x) + length (filter P l))%nat.
Proof. unfold indicator. rewrite filter_cons. by case_decide. Qed.

(** The null cells of a row-major grid, counted column by column. *)
Lemma nullCells_by_column (cell : Z → Z → option Z) (P : Z → Z → Prop)
    `{∀ c r, Decision (P c r)} (l : list Z) :
  (∀ r c, r ∈ l → 0 ≤ c < 5 → cell c r = None ↔ P c r) →
  nullCells (r ← l; (λ c, cell c r) <$> Gen.columns) =
    (length (filter (P 0%Z) l) + length (filter (P 1%Z) l)
     + length (filter (P 2%Z) l) + length (filter (P 3%Z) l)
     + length (filter (P 4%Z) l))%nat.
Proof.
  induction l as [|r l IH]; intros Hcell; [done|].
  rewrite bind_cons, nullCells_app, IH.
  2:{ intros r' c Hr' Hc. apply Hcell; [by right|done]. }
  rewrite columns_eq. simpl fmap. rewrite !nullCells_cons.
  rewrite !length_filter_cons.
  rewrite (indicator_iff (cell 0 r = None) (P 0 r)
             (Hcell r 0 ltac:(by left) ltac:(lia))).
  rewrite (indicator_iff (cell 1 r = None) (P 1 r)
             (Hcell r 1 ltac:(by left) ltac:(lia))).
  rewrite (indicator_iff (cell 2 r = None) (P 2 r)
             (Hcell r 2 ltac:(by left) ltac:(lia))).
  rewrite (indicator_iff (cell 3 r = None) (P 3 r)
             (Hcell r 3 ltac:(by left) ltac:(lia))).
  rewrite (indicator_iff (cell 4 r = None) (P 4 r)
             (Hcell r 4 ltac:(by left) ltac:(lia))).
  unfold nullCells at 1. simpl. lia.
Qed.

Lemma length_filter_one (Q : Z → Prop) `{∀ r, Decision (Q r)} (l : list Z) x :
  NoDup l → x ∈ l → (∀ r, Q r ↔ r = x) → length (filter Q l) = 1%nat.
Proof.
  intros Hnd Hx HQ.
  assert (Hin : x ∈ filter Q l) by (apply list_elem_of_filter; by rewrite HQ).
  assert (Hall : ∀ y, y ∈ filter Q l → y = x).
  { intros y Hy. apply list_elem_of_filter in Hy as [Hy _]. by apply HQ. }
  pose proof (NoDup_filter Q l Hnd) as Hnd'.
  destruct (filter Q l) as [|a [|b rest]]; [by inv Hin|done|].
  exfalso. apply NoDup_cons in Hnd' as [Hnot _]. apply Hnot.
  rewrite (Hall a) by left. rewrite <- (Hall b) at 1 by (right; left).
  by left.
Qed.

Lemma length_filter_zero (Q : Z → Prop) `{∀ r, Decision (Q r)} (l : list Z) :
  (∀ r, ¬ Q r) → length (filter Q l) = 0%nat.
Proof.
  intros HQ. induction l as [|r l IH]; [done|].
  by rewrite filter_cons_False.
Qed.

Lemma matrix_null_iff n card c0 c1 c2 c3 c4 row col :
  0 ≤ n ≤ 75 →
  cardColumns n card c0 c1 c2 c3 c4 →
  0 ≤ row < n / 5 + 1 → 0 ≤ col < 5 →
  Gen.matrixCell
    (Gen.buildMatrix (n / 5 + 1) ((n / 5 + 1) / 2) [c0; c1; c2; c3; c4])
    col row = None
  ↔ nullAt n row col.
Proof.
  intros Hn Hcols Hrow Hcol. column_facts Hcols.
  rewrite buildMatrix_cell by done.
  rewrite !targetCount_cases in * by lia.
  unfold nullAt, skipped, Gen.positionInNonCenter, Gen.centerCol in *.
  simpl in Hl0, Hl1, Hl2, Hl3, Hl4.
  pose proof (Z.mod_pos_bound n 5 ltac:(lia)) as Hrem.
  pose proof (Z.div_mod n 5 ltac:(lia)) as Hdiv.
  assert (Hq : 0 ≤ n / 5) by (apply Z.div_pos; lia).
  pose proof (Z.div_mod (n / 5 + 1) 2 ltac:(lia)) as Hhalf.
  pose proof (Z.mod_pos_bound (n / 5 + 1) 2 ltac:(lia)) as Hhalf'.
  set (par := (n / 5 + 1) mod 2) in *. clearbody par.
  set (cr := (n / 5 + 1) / 2) in *. clearbody cr.
  set (rem := n mod 5) in *. clearbody rem.
  set (q := n / 5) in *. clearbody q.
  assert (Hc : col = 0 ∨ col = 1 ∨ col = 2 ∨ col = 3 ∨ col = 4) by lia.
  destruct Hc as [->|[->|[->|[->| ->]]]];
    [ clear Hl1 Hl2 Hl3 Hl4 | clear Hl0 Hl2 Hl3 Hl4 | clear Hl0 Hl1 Hl3 Hl4
    | clear Hl0 Hl1 Hl2 Hl4 | clear Hl0 Hl1 Hl2 Hl3 ];
    match goal with
    | |- context [Z.to_nat (Zpos ?p)] =>
        let v := eval vm_compute in (Z.to_nat (Zpos p)) in
        change (Z.to_nat (Zpos p)) with v
    | |- context [Z.to_nat 0] => change (Z.to_nat 0) with 0%nat
    end; simpl;
    split_tests; rewrite ?lookup_ge_None;
    repeat case_decide; try tauto; lia.
Qed.

Lemma nullAt_column_count n c :
  0 ≤ n → 0 ≤ c < 5 →
  length (filter (λ r, nullAt n r c) (seqZ 0 (n / 5 + 1))) =
    if decide (c = 2) then 1%nat
    else indicator (n mod 5 ≤ Gen.positionInNonCenter c).
Proof.
  intros Hn Hc.
  assert (Hq : 0 ≤ n / 5) by (apply Z.div_pos; lia).
  case_decide as Hcenter.
  - subst c. apply (length_filter_one _ _ ((n / 5 + 1) / 2)).
    + apply NoDup_seqZ.
    + apply elem_of_seqZ. split; [apply Z.div_pos; lia|].
      apply Z.div_lt_upper_bound; lia.
    + intros r. unfold nullAt. tauto.
  - unfold indicator. case_decide as Hextra.
    + apply (length_filter_one _ _ (n / 5)).
      * apply NoDup_seqZ.
      * apply elem_of_seqZ. lia.
      * intros r. unfold nullAt. tauto.
    + apply length_filter_zero. intros r. unfold nullAt. tauto.
Qed.

Lemma nullCells_flattenMatrix n card c0 c1 c2 c3 c4 :
  0 ≤ n ≤ 75 →
  cardColumns n card c0 c1 c2 c3 c4 →
  nullCells (CardData.grid card) = Z.to_nat (5 - n mod 5).
Proof.
  intros Hn Hcols. rewrite (cc_grid _ _ _ _ _ _ _ Hcols), ceilDiv_rows.
  unfold Gen.flattenMatrix.
  rewrite (nullCells_by_column _ (λ c r, nullAt n r c)).
  2:{ intros r c Hr Hc. apply elem_of_seqZ in Hr.
      eapply matrix_null_iff; (done || lia). }
  rewrite !nullAt_column_count by lia.
  unfold indicator, Gen.positionInNonCenter, Gen.centerCol. simpl.
  pose proof (Z.mod_pos_bound n 5 ltac:(lia)).
  repeat case_decide; lia.
Qed.

Example generateBingoCard_20 :
  Gen.generateBingoCard demoStream 100 0 20 = Some (demoCard20, 76%nat).
Proof. by vm_compute. Qed.

(** ** Grid shape and free cell (claim C3) *)

Lemma freeCells_one q :
  0 ≤ q ≤ 15 →
  filter (λ cell : Z * Z, cell.1 = (q + 1) / 2 ∧ cell.2 = 2)
    (row ← seqZ 0 (q + 1); (λ col, (row, col)) <$> seqZ 0 5)
  = [((q + 1) / 2, 2)].
Proof.
  intros Hq.
  assert (Hcases : q = 0 ∨ q = 1 ∨ q = 2 ∨ q = 3 ∨ q = 4 ∨ q = 5 ∨ q = 6 ∨
                   q = 7 ∨ q = 8 ∨ q = 9 ∨ q = 10 ∨ q = 11 ∨ q = 12 ∨
                   q = 13 ∨ q = 14 ∨ q = 15) by lia.
  repeat (destruct Hcases as [->|Hcases]; [by vm_compute|]).
  subst q. by vm_compute.
Qed.

(** C3.  For a card size from 1 to 75 the grid has [ceil((n + 1) / 5)]
    rows of 5 cells, the center row is [floor(rows / 2)], and the grid
    has exactly one free cell, at [(centerRow, centerCol)]: that position
    lies inside the grid, it is the only one at which the loop takes the
    free-cell branch, and its cell holds [null] and no number.  The other
    [null] cells of the grid are the empty cells beyond the numbers of a
    column: a cell is [null] exactly when it is the free cell or lies in
    the last row of a non-center column that received no extra number,
    which makes [5 - n mod 5] null cells in all. *)
Theorem generateBingoCard_grid (rnd : nat → Z) (fuel pos : nat) (n : Z)
    (card : CardData.t) (pos' : nat) :
  1 ≤ n ≤ 75 →
  Gen.generateBingoCard rnd fuel pos n = Some (card, pos') →
  let rows := CardData.numbersPerCol card in
  let cr := CardData.centerRow card in
  rows = ceilDiv (n + 1) 5 ∧
  CardData.numbersPerRow card = 5 ∧
  length (CardData.grid card) = Z.to_nat (rows * 5) ∧
  cr = floorDiv rows 2 ∧
  CardData.centerCol card = 2 ∧
  0 ≤ cr < rows ∧
  gridCell (CardData.grid card) cr (CardData.centerCol card) = Some None ∧
  (∀ row col, 0 ≤ row < rows → 0 ≤ col < 5 →
     gridCell (CardData.grid card) row col = Some None
     ↔ (row = cr ∧ col = 2) ∨
       (col ≠ 2 ∧ row = rows - 1 ∧ n mod 5 ≤ Gen.positionInNonCenter col)) ∧
  nullCells (CardData.grid card) = Z.to_nat (5 - n mod 5) ∧
  freeCells card = [(cr, CardData.centerCol card)].
Proof.
  intros Hn Hrun.
  apply generateBingoCard_columns in Hrun as (c0 & c1 & c2 & c3 & c4 & Hcols);
    [|lia].
  assert (Hn' : 0 ≤ n ≤ 75) by lia.
  pose proof (nullCells_flattenMatrix _ _ _ _ _ _ _ Hn' Hcols) as Hcount.
  assert (Hq : 0 ≤ n / 5) by (apply Z.div_pos; lia).
  assert (Hfree : freeCells card
                  = [(CardData.centerRow card, CardData.centerCol card)]).
  { unfold freeCells.
    rewrite (cc_perCol _ _ _ _ _ _ _ Hcols), (cc_centerRow _ _ _ _ _ _ _ Hcols),
      (cc_centerCol _ _ _ _ _ _ _ Hcols), (cc_perRow _ _ _ _ _ _ _ Hcols).
    rewrite ceilDiv_rows. apply freeCells_one.
    split; [done|]. apply Z.lt_succ_r, Z.div_lt_upper_bound; lia. }
  assert (Hcr : 0 ≤ (n / 5 + 1) / 2 < n / 5 + 1).
  { split; [apply Z.div_pos; lia | apply Z.div_lt_upper_bound; lia]. }
  assert (Hcells : ∀ row col, 0 ≤ row < n / 5 + 1 → 0 ≤ col < 5 →
            gridCell (CardData.grid card) row col = Some None
            ↔ nullAt n row col).
  { intros row col Hrow Hcol.
    rewrite (cc_grid _ _ _ _ _ _ _ Hcols), ceilDiv_rows.
    rewrite flattenMatrix_cell by done.
    rewrite <- (matrix_null_iff _ _ _ _ _ _ _ row col Hn' Hcols Hrow Hcol).
    split; [by intros [= ->] | by intros ->]. }
  simpl. rewrite Hfree.
  rewrite (cc_perCol _ _ _ _ _ _ _ Hcols), (cc_centerRow _ _ _ _ _ _ _ Hcols),
    (cc_centerCol _ _ _ _ _ _ _ Hcols), (cc_perRow _ _ _ _ _ _ _ Hcols).
  rewrite ceilDiv_rows. unfold floorDiv.
  repeat split; try done; try lia.
  - rewrite (cc_grid _ _ _ _ _ _ _ Hcols), ceilDiv_rows.
    apply flattenMatrix_length.
  - apply Hcells; [done|lia|]. left. done.
  - intros Hcell. apply Hcells in Hcell; [|done..].
    unfold nullAt in Hcell.
    replace (n / 5 + 1 - 1) with (n / 5) by lia. done.
  - intros Hcell. apply Hcells; [done..|].
    replace (n / 5 + 1 - 1) with (n / 5) in Hcell by lia. done.
Qed.

Lemma generateBingoCard_grid_witness :
  nullCells (CardData.grid demoCard20) = 5%nat ∧
  gridCell (CardData.grid demoCard20) 2 2 = Some None ∧
  freeCells demoCard20 = [(2, 2)].
Proof.
  destruct (generateBingoCard_grid demoStream 100 0 20 demoCard20 76
              ltac:(lia) generateBingoCard_20)
    as (_ & _ & _ & _ & _ & _ & Hfree & _ & Hcount & Hone).
  split; [exact Hcount|]. split; [exact Hfree | exact Hone].
Defined.

(** The grid of a card of size 20 holds five [null] cells: the free cell
    at row 2, column 2 and the empty last cell of each of the other four
    columns. *)
Example grid_size_20_null_cells :
  Gen.generateBingoCard demoStream 100 0 20 = Some (demoCard20, 76%nat) ∧
  CardData.centerRow demoCard20 = 2 ∧ CardData.centerCol demoCard20 = 2 ∧
  nullCells (CardData.grid demoCard20) = 5%nat ∧
  nullCells (CardData.grid demoCard20) ≠ 1%nat ∧
  gridCell (CardData.grid demoCard20) 4 0 = Some None.
Proof. by vm_compute. Qed.

(** ** The numbers on the grid *)

Lemma grid_cell_columns n card c0 c1 c2 c3 c4 row col :
  0 ≤ n →
  cardColumns n card c0 c1 c2 c3 c4 →
  0 ≤ row < n / 5 + 1 → 0 ≤ col < 5 →
  gridCell (CardData.grid card) row col =
    Some (if (row =? (n / 5 + 1) / 2) && (col =? 2) then None
          else default [] ([c0; c1; c2; c3; c4] !! Z.to_nat col)
                 !! (Z.to_nat row - skipped col ((n / 5 + 1) / 2) 0 row)%nat).
Proof.
  intros Hn Hcols Hrow Hcol.
  rewrite (cc_grid _ _ _ _ _ _ _ Hcols), ceilDiv_rows.
  rewrite flattenMatrix_cell by done. by rewrite buildMatrix_cell.
Qed.

(** Every number on the grid belongs to the range of its column and to
    the flat number list, and every number of the flat list is on the
    grid. *)
Lemma generateBingoCard_grid_numbers rnd fuel pos n card pos' :
  1 ≤ n ≤ 75 →
  Gen.generateBingoCard rnd fuel pos n = Some (card, pos') →
  (∀ row col rg v,
     0 ≤ row < CardData.numbersPerCol card → 0 ≤ col < 5 →
     Gen.columnRanges !! Z.to_nat col = Some rg →
     gridCell (CardData.grid card) row col = Some (Some v) →
     inRange rg v ∧ v ∈ CardData.numbers card) ∧
  (∀ v, v ∈ CardData.numbers card →
     ∃ row col, 0 ≤ row < CardData.numbersPerCol card ∧ 0 ≤ col < 5 ∧
       gridCell (CardData.grid card) row col = Some (Some v)).
Proof.
  intros Hn Hrun.
  apply generateBingoCard_columns in Hrun as (c0 & c1 & c2 & c3 & c4 & Hcols);
    [|lia].
  assert (Hn0 : 0 ≤ n) by lia.
  pose proof (λ row col,
                grid_cell_columns n card c0 c1 c2 c3 c4 row col Hn0 Hcols)
    as Hcell.
  rewrite (cc_perCol _ _ _ _ _ _ _ Hcols), (cc_numbers _ _ _ _ _ _ _ Hcols),
    ceilDiv_rows.
  assert (Hq : 0 ≤ n / 5) by (apply Z.div_pos; lia).
  assert (Hcr : 0 ≤ (n / 5 + 1) / 2 < n / 5 + 1).
  { split; [apply Z.div_pos; lia | apply Z.div_lt_upper_bound; lia]. }
  pose proof (Z.mod_pos_bound n 5 ltac:(lia)) as Hrem.
  column_facts Hcols.
  rewrite !targetCount_cases in * by lia.
  unfold Gen.positionInNonCenter, Gen.centerCol in *.
  simpl in Hl0, Hl1, Hl2, Hl3, Hl4.
  rewrite Forall_forall in Hr0, Hr1, Hr2, Hr3, Hr4.
  split.
  - intros row col rg v Hrow Hcol Hrg. rewrite Hcell by done.
    destruct ((row =? (n / 5 + 1) / 2) && (col =? 2)); [done|].
    intros [= Hv]. apply list_elem_of_lookup_2 in Hv.
    setoid_rewrite sortAsc_elem. rewrite !elem_of_app.
    assert (Hc : col = 0 ∨ col = 1 ∨ col = 2 ∨ col = 3 ∨ col = 4) by lia.
    destruct Hc as [->|[->|[->|[->| ->]]]]; injection Hrg as <-;
      simpl in Hv; auto 10.
  - intros v. rewrite sortAsc_elem, !elem_of_app.
    set (cr := (n / 5 + 1) / 2) in *.
    assert (Hplace : ∀ col (c : list Z),
              0 ≤ col < 5 →
              default [] ([c0; c1; c2; c3; c4] !! Z.to_nat col) = c →
              Z.of_nat (length c) ≤ n / 5 + (if decide (col = 2) then 0 else 1) →
              v ∈ c →
              ∃ row col, 0 ≤ row < n / 5 + 1 ∧ 0 ≤ col < 5 ∧
                gridCell (CardData.grid card) row col = Some (Some v)).
    { intros col c Hcol Hc Hlen Hv.
      apply list_elem_of_lookup in Hv as [k Hk].
      pose proof (lookup_lt_Some _ _ _ Hk) as Hlt.
      exists (if decide (col = 2 ∧ cr ≤ Z.of_nat k)
              then Z.of_nat k + 1 else Z.of_nat k), col.
      assert (Hrow : 0 ≤ (if decide (col = 2 ∧ cr ≤ Z.of_nat k)
                          then Z.of_nat k + 1 else Z.of_nat k) < n / 5 + 1).
      { repeat case_decide; lia. }
      split; [done|]. split; [done|].
      rewrite Hcell by done. rewrite Hc. unfold skipped.
      repeat case_decide; split_tests; try lia;
        rewrite <- Hk; do 2 f_equal; lia. }
    intros [Hv|[Hv|[Hv|[Hv|Hv]]]].
    + apply (Hplace 0 c0); (done || simpl; repeat case_decide; lia).
    + apply (Hplace 1 c1); (done || simpl; repeat case_decide; lia).
    + apply (Hplace 2 c2); (done || simpl; repeat case_decide; lia).
    + apply (Hplace 3 c3); (done || simpl; repeat case_decide; lia).
    + apply (Hplace 4 c4); (done || simpl; repeat case_decide; lia).
Qed.

Lemma generateBingoCard_grid_numbers_witness :
  ∃ row col, 0 ≤ row < 5 ∧ 0 ≤ col < 5 ∧
    gridCell (CardData.grid demoCard20) row col = Some (Some 40).
Proof.
  apply (proj2 (generateBingoCard_grid_numbers demoStream 100 0 20
                  demoCard20 76 ltac:(lia) generateBingoCard_20) 40).
  apply (bool_decide_unpack _). exact I.
Defined.

(** ** Drawing numbers *)

Section DrawLoop.
Variable rnd : nat → Z.

Lemma drawLoop_spec fuel : ∀ pos drawn number pos',
  drawLoop rnd fuel pos drawn = Some (number, pos') →
  1 ≤ number ≤ 75 ∧ (number ∉ drawn) ∧ (pos < pos')%nat.
Proof.
  induction fuel as [|fuel IH]; intros pos drawn number pos'; simpl;
    [discriminate|].
  case_bool_decide as Hin.
  - intros Hrun. apply IH in Hrun. intuition lia.
  - intros [= <- <-].
    pose proof (randomBelow_range (rnd pos) maxNumber ltac:(done)).
    unfold maxNumber in *. repeat split; (done || lia).
Qed.

Lemma drawLoop_mono fuel : ∀ fuel' pos drawn r,
  drawLoop rnd fuel pos drawn = Some r → (fuel ≤ fuel')%nat →
  drawLoop rnd fuel' pos drawn = Some r.
Proof.
  induction fuel as [|fuel IH]; intros fuel' pos drawn r; simpl;
    [discriminate|].
  intros Hrun Hle. destruct fuel' as [|fuel']; [lia|]. simpl.
  case_bool_decide; [apply IH; done || lia | done].
Qed.

(** Fewer than 75 drawn numbers leave a number from 1 to 75 undrawn. *)
Lemma undrawn_value (drawn : list Z) :
  (length drawn < 75)%nat → ∃ v, 0 ≤ v < 75 ∧ v + 1 ∉ drawn.
Proof.
  intros Hlen. set (L := (λ v, v + 1) <$> seqZ 0 75).
  destruct (decide (Forall (λ x, x ∈ drawn) L)) as [Hall|Hex].
  - exfalso.
    assert (HndL : NoDup L).
    { apply NoDup_fmap_2; [intros x y; lia | apply NoDup_seqZ]. }
    assert (Hsub : L ⊆+ drawn).
    { apply NoDup_submseteq; [done|]. by apply Forall_forall. }
    apply submseteq_length in Hsub.
    unfold L in Hsub. rewrite length_fmap, length_seqZ in Hsub. lia.
  - apply not_Forall_Exists in Hex; [|apply _].
    apply Exists_exists in Hex as (x & Hx & Hnot).
    apply list_elem_of_fmap in Hx as (v & -> & Hv).
    apply elem_of_seqZ in Hv. exists v. split; [lia|done].
Qed.

Lemma drawLoop_terminates pos drawn :
  fair rnd 75 → (length drawn < 75)%nat →
  ∃ fuel r, drawLoop rnd fuel pos drawn = Some r.
Proof.
  intros Hfair Hlen.
  destruct (undrawn_value drawn Hlen) as (v & Hv & Hfresh).
  destruct (Hfair pos v Hv) as (j & Hj & Hsample).
  assert (Hd : ∃ d, j = (pos + d)%nat) by (exists (j - pos)%nat; lia).
  destruct Hd as [d ->]. clear Hj.
  revert pos Hsample. induction d as [|d IHd]; intros pos Hsample.
  - replace (pos + 0)%nat with pos in Hsample by lia.
    exists 1%nat, (v + 1, S pos). simpl. unfold maxNumber.
    rewrite Hsample. by rewrite bool_decide_eq_false_2.
  - destruct (decide ((randomBelow (rnd pos) 75 + 1) ∈ drawn)) as [Hin|Hnin].
    + destruct (IHd (S pos)) as (fuel & r & Hrun).
      { by replace (S pos + d)%nat with (pos + S d)%nat by lia. }
      exists (S fuel), r. simpl. unfold maxNumber.
      by rewrite bool_decide_eq_true_2.
    + exists 1%nat, (randomBelow (rnd pos) 75 + 1, S pos). simpl.
      unfold maxNumber. by rewrite bool_decide_eq_false_2.
Qed.

(** *** The three outcomes of [drawNumber] for a host and a known room *)

Lemma drawNumber_exhausted fuel st socketId roomId now userInfo room :
  users st !! socketId = Some userInfo → Session.isHost userInfo = true →
  rooms st !! roomId = Some room →
  (75 ≤ length (Room.drawnNumbers room))%nat →
  drawNumber rnd fuel st socketId roomId now
  = Some (st, [SocketEmit socketId (EvError msgAllDrawn)]).
Proof.
  intros Hu Hh Hr Hlen. unfold drawNumber. rewrite Hu, Hh, Hr.
  unfold maxNumber.
  destruct (Z.geb_spec (Z.of_nat (length (Room.drawnNumbers room))) 75);
    [done|lia].
Qed.

Lemma drawNumber_draw fuel st socketId roomId now userInfo room st' outs :
  users st !! socketId = Some userInfo → Session.isHost userInfo = true →
  rooms st !! roomId = Some room →
  (length (Room.drawnNumbers room) < 75)%nat →
  drawNumber rnd fuel st socketId roomId now = Some (st', outs) →
  ∃ number pos',
    1 ≤ number ≤ 75 ∧ (number ∉ Room.drawnNumbers room) ∧
    let drawn := sortAsc (Room.drawnNumbers room ++ [number]) in
    outs = [RoomEmit roomId (NumberDrawn number drawn (length drawn))] ∧
    st' = mkServer
            (<[ roomId := Room.setDraw room drawn (Millis now) ]> (rooms st))
            (users st) pos'.
Proof.
  intros Hu Hh Hr Hlen. unfold drawNumber. rewrite Hu, Hh, Hr.
  unfold maxNumber.
  destruct (Z.geb_spec (Z.of_nat (length (Room.drawnNumbers room))) 75);
    [lia|].
  destruct (drawLoop _ _ _ _) as [[number pos']|] eqn:Hloop; [|discriminate].
  intros [= <- <-]. apply drawLoop_spec in Hloop as (Hrange & Hfresh & _).
  by exists number, pos'.
Qed.

Lemma drawNumber_terminates st socketId roomId now userInfo room :
  users st !! socketId = Some userInfo → Session.isHost userInfo = true →
  rooms st !! roomId = Some room →
  (length (Room.drawnNumbers room) < 75)%nat →
  fair rnd 75 →
  ∃ fuel0, ∀ fuel, (fuel0 ≤ fuel)%nat →
    is_Some (drawNumber rnd fuel st socketId roomId now).
Proof.
  intros Hu Hh Hr Hlen Hfair.
  destruct (drawLoop_terminates (randomCalls st) (Room.drawnNumbers room)
              Hfair Hlen) as (fuel0 & [number pos'] & Hloop).
  exists fuel0. intros fuel Hle. unfold drawNumber. rewrite Hu, Hh, Hr.
  unfold maxNumber.
  destruct (Z.geb_spec (Z.of_nat (length (Room.drawnNumbers room))) 75);
    [lia|].
  by rewrite (drawLoop_mono fuel0 fuel _ _ _ Hloop Hle).
Qed.

(** A run of draws adds one number per call and keeps the sessions. *)
Lemma drawTimes_length k fuel : ∀ st socketId roomId now userInfo room st',
  users st !! socketId = Some userInfo → Session.isHost userInfo = true →
  rooms st !! roomId = Some room →
  drawTimes rnd k fuel st socketId roomId now = Some st' →
  users st' = users st ∧
  ∃ room', rooms st' !! roomId = Some room' ∧
    length (Room.drawnNumbers room')
    = (length (Room.drawnNumbers room) + k)%nat.
Proof.
  induction k as [|k IH]; intros st socketId roomId now userInfo room st'
    Hu Hh Hr; simpl.
  - intros [= <-]. split; [done|]. exists room. split; [done|lia].
  - destruct (drawNumber _ _ _ _ _ _) as [[st1 outs]|] eqn:Hdraw;
      [|discriminate].
    destruct (isNumberDrawn outs) eqn:Hout; [|discriminate].
    intros Hrest.
    destruct (decide ((length (Room.drawnNumbers room) < 75)%nat))
      as [Hlt|Hge].
    + destruct (drawNumber_draw _ _ _ _ _ _ _ _ _ Hu Hh Hr Hlt Hdraw)
        as (number & pos' & _ & _ & _ & ->).
      eapply IH in Hrest as (Husers & room' & Hroom' & Hlen);
        [| simpl; exact Hu | done | simpl; apply lookup_insert_eq ].
      simpl in *. split; [done|]. exists room'. split; [done|].
      rewrite Hlen. simpl. rewrite sortAsc_length, length_app. simpl. lia.
    + rewrite (drawNumber_exhausted fuel st socketId roomId now _ _ Hu Hh Hr)
        in Hdraw by lia.
      injection Hdraw as <- <-. done.
Qed.

End DrawLoop.

(** ** Draws are fresh until the numbers run out (claim C2) *)

(** C2.  A host calls [drawNumber] on a known room.  With fewer than 75
    numbers drawn, whatever the call returns is a broadcast of a number
    from 1 to 75 that was not among the drawn numbers, stored sorted
    with them; with a fair random stream the call does return.  With 75
    or more numbers drawn the call answers the caller alone with the
    exhausted error and changes nothing.  So after 75 draws in a row on
    a room that started with none, the next call fails that way. *)
Theorem drawNumber_fresh_or_exhausted (rnd : nat → Z) (st : Server)
    (socketId roomId : string) (now : Z) (userInfo : Session.t)
    (room : Room.t) :
  users st !! socketId = Some userInfo →
  Session.isHost userInfo = true →
  rooms st !! roomId = Some room →
  ((length (Room.drawnNumbers room) < 75)%nat →
   (∀ fuel st' outs,
      drawNumber rnd fuel st socketId roomId now = Some (st', outs) →
      ∃ number,
        1 ≤ number ≤ 75 ∧ (number ∉ Room.drawnNumbers room) ∧
        outs = [RoomEmit roomId
                  (NumberDrawn number
                     (sortAsc (Room.drawnNumbers room ++ [number]))
                     (S (length (Room.drawnNumbers room))))] ∧
        ∃ room', rooms st' !! roomId = Some room' ∧
          Room.drawnNumbers room'
          = sortAsc (Room.drawnNumbers room ++ [number])) ∧
   (fair rnd 75 →
    ∃ fuel0, ∀ fuel, (fuel0 ≤ fuel)%nat →
      is_Some (drawNumber rnd fuel st socketId roomId now))) ∧
  ((75 ≤ length (Room.drawnNumbers room))%nat →
   ∀ fuel,
     drawNumber rnd fuel st socketId roomId now
     = Some (st, [SocketEmit socketId (EvError msgAllDrawn)])) ∧
  errorKind msgAllDrawn = Some ExhaustedError ∧
  (Room.drawnNumbers room = [] →
   ∀ fuel st75,
     drawTimes rnd 75 fuel st socketId roomId now = Some st75 →
     ∀ fuel' now',
       drawNumber rnd fuel' st75 socketId roomId now'
       = Some (st75, [SocketEmit socketId (EvError msgAllDrawn)])).
Proof.
  intros Hu Hh Hr. split; [|split; [|split]].
  - intros Hlt. split.
    + intros fuel st' outs Hdraw.
      destruct (drawNumber_draw rnd _ _ _ _ _ _ _ _ _ Hu Hh Hr Hlt Hdraw)
        as (number & pos' & Hrange & Hfresh & Houts & ->).
      simpl in Houts. subst outs.
      exists number. split; [done|]. split; [done|]. split.
      * rewrite sortAsc_length, length_app. simpl. do 3 f_equal. lia.
      * eexists. split; [apply lookup_insert_eq|done].
    + intros Hfair. by eapply drawNumber_terminates.
  - intros Hge fuel. by eapply drawNumber_exhausted.
  - reflexivity.
  - intros Hempty fuel st75 Hrun fuel' now'.
    destruct (drawTimes_length rnd 75 fuel _ _ _ _ _ _ _ Hu Hh Hr Hrun)
      as (Husers & room' & Hroom' & Hlen).
    eapply drawNumber_exhausted; [by rewrite Husers|done|done|].
    rewrite Hlen, Hempty. simpl. lia.
Qed.

Lemma drawNumber_fresh_or_exhausted_witness :
  ∃ st75,
    drawTimes demoStream 75 100 demoServer "s1" "abcd1234" 0 = Some st75 ∧
    drawNumber demoStream 100 st75 "s1" "abcd1234" 1
    = Some (st75, [SocketEmit "s1" (EvError msgAllDrawn)]).
Proof.
  assert (Hrun : is_Some
            (drawTimes demoStream 75 100 demoServer "s1" "abcd1234" 0)).
  { vm_compute. eexists. reflexivity. }
  destruct Hrun as [st75 Hrun]. exists st75. split; [exact Hrun|].
  destruct (drawNumber_fresh_or_exhausted demoStream demoServer
              "s1" "abcd1234" 0 (Session.mk "host" "abcd1234" true) demoRoom
              eq_refl eq_refl eq_refl) as (_ & _ & _ & Hlast).
  exact (Hlast eq_refl 100%nat st75 Hrun 100%nat 1).
Defined.

(** ** The drawn numbers of every reachable room (claim C8) *)

Lemma drawnOk_nil : drawnOk [].
Proof.
  split; [constructor|]. split; [constructor|]. split; [constructor|].
  simpl. lia.
Qed.

Lemma drawnOk_draw drawn number :
  drawnOk drawn → (length drawn < 75)%nat →
  1 ≤ number ≤ 75 → number ∉ drawn →
  drawnOk (sortAsc (drawn ++ [number])).
Proof.
  intros (Hs & Hnd & Hr & Hl) Hlt Hrange Hfresh. unfold drawnOk.
  rewrite sortAsc_NoDup, sortAsc_Forall, sortAsc_length, length_app.
  split; [apply sortAsc_sorted|]. split; [|split].
  - apply NoDup_app. split; [done|]. split; [|apply NoDup_singleton].
    intros x Hx Hx'. apply list_elem_of_singleton in Hx' as ->. done.
  - apply Forall_app. split; [done|]. by constructor.
  - simpl. lia.
Qed.

Lemma roomsOk_insert st roomId room users' pos' :
  roomsOk st → drawnOk (Room.drawnNumbers room) →
  roomsOk (mkServer (<[ roomId := room ]> (rooms st)) users' pos').
Proof.
  intros Hinv Hroom rid r. simpl.
  destruct (decide (roomId = rid)) as [->|Hne].
  - rewrite lookup_insert_eq. by intros [= <-].
  - rewrite lookup_insert_ne by done. apply Hinv.
Qed.

Section Invariant.
Variable rnd : nat → Z.

Lemma drawNumber_roomsOk fuel st socketId roomId now st' outs :
  roomsOk st →
  drawNumber rnd fuel st socketId roomId now = Some (st', outs) →
  roomsOk st'.
Proof.
  intros Hinv Hdraw.
  destruct (users st !! socketId) as [userInfo|] eqn:Hu.
  2:{ unfold drawNumber in Hdraw. rewrite Hu in Hdraw. by injection Hdraw as <-. }
  destruct (Session.isHost userInfo) eqn:Hh.
  2:{ unfold drawNumber in Hdraw. rewrite Hu, Hh in Hdraw.
      by injection Hdraw as <-. }
  destruct (rooms st !! roomId) as [room|] eqn:Hr.
  2:{ unfold drawNumber in Hdraw. rewrite Hu, Hh, Hr in Hdraw.
      by injection Hdraw as <-. }
  destruct (decide ((length (Room.drawnNumbers room) < 75)%nat)) as [Hlt|Hge].
  - destruct (drawNumber_draw rnd _ _ _ _ _ _ _ _ _ Hu Hh Hr Hlt Hdraw)
      as (number & pos' & Hrange & Hfresh & _ & ->).
    apply roomsOk_insert; [done|]. simpl.
    apply drawnOk_draw; try done. by eapply Hinv.
  - rewrite (drawNumber_exhausted rnd fuel st socketId roomId now _ _ Hu Hh Hr)
      in Hdraw by lia.
    by injection Hdraw as <-.
Qed.

Lemma resetDraw_roomsOk st socketId roomId :
  roomsOk st → roomsOk (resetDraw st socketId roomId).1.
Proof.
  intros Hinv. unfold resetDraw.
  destruct (users st !! socketId) as [userInfo|]; [|done].
  destruct (Session.isHost userInfo); [|done].
  destruct (rooms st !! roomId) as [room|]; [|done].
  simpl. apply roomsOk_insert; [done|]. apply drawnOk_nil.
Qed.

Lemma handle_roomsOk fuel st req st' outs :
  roomsOk st → handle rnd fuel st req = Some (st', outs) → roomsOk st'.
Proof.
  intros Hinv. destruct req; simpl.
  - unfold createRoom. destruct (negb _); intros [= <- <-]; [done|].
    apply roomsOk_insert; [done|apply drawnOk_nil].
  - unfold getRoom. destruct (rooms st !! roomId); by intros [= <- <-].
  - unfold joinRoom. destruct (negb _); [by intros [= <- <-]|].
    destruct (rooms st !! roomId) as [room|] eqn:Hr; [|by intros [= <- <-]].
    destruct (Gen.generateBingoCard _ _ _ _) as [[cardData pos']|];
      [|discriminate].
    intros [= <- <-]. apply roomsOk_insert; [done|]. simpl. by eapply Hinv.
  - unfold joinAsHost. destruct (rooms st !! roomId); by intros [= <- <-].
  - unfold joinAsParticipant. destruct (rooms st !! roomId) as [room|];
      [|by intros [= <- <-]].
    destruct (getMember _ _); by intros [= <- <-].
  - apply drawNumber_roomsOk. done.
  - unfold markNumber.
    destruct (rooms st !! roomId) as [room|] eqn:Hr; [|by intros [= <- <-]].
    destruct (getMember _ _) as [p| |]; [|by intros [= <- <-]..].
    destruct (negb _); intros [= <- <-]; [done|].
    apply roomsOk_insert; [done|]. simpl. by eapply Hinv.
  - intros [= Heq]. change st' with (st', outs).1. rewrite <- Heq.
    by apply resetDraw_roomsOk.
  - unfold getRoomState. destruct (rooms st !! roomId); by intros [= <- <-].
  - unfold disconnect. destruct (users st !! socketId); by intros [= <- <-].
Qed.

Lemma reachable_roomsOk st : reachable rnd st → roomsOk st.
Proof.
  unfold reachable. intros Hreach.
  apply rtc_nsteps in Hreach as [k Hreach].
  revert st Hreach. induction k as [|k IH]; intros st Hreach.
  - inversion Hreach; subst. intros rid room. simpl.
    by rewrite lookup_empty.
  - apply nsteps_inv_r in Hreach as (mid & Hmid & (fuel & req & outs & Hstep)).
    eapply handle_roomsOk; [|done]. by apply IH.
Qed.

Lemma runRequests_reachable fuel reqs : ∀ st st',
  reachable rnd st → runRequests rnd fuel st reqs = Some st' →
  reachable rnd st'.
Proof.
  induction reqs as [|req reqs IH]; intros st st' Hreach; simpl.
  - by intros [= <-].
  - destruct (handle rnd fuel st req) as [[st1 outs]|] eqn:Hstep;
      [|discriminate].
    apply IH. unfold reachable in *. eapply rtc_r; [done|].
    by exists fuel, req, outs.
Qed.

End Invariant.

(** C8.  In every state the server can reach, the drawn numbers of every
    room are sorted ascending, pairwise distinct, between 1 and 75 and at
    most 75 in number; a further [drawNumber] or [resetDraw] keeps it so. *)
Theorem drawnNumbers_invariant (rnd : nat → Z) (st : Server) :
  reachable rnd st →
  (∀ roomId room, rooms st !! roomId = Some room →
     Sorted Z.le (Room.drawnNumbers room) ∧
     NoDup (Room.drawnNumbers room) ∧
     Forall (λ v, 1 ≤ v ≤ 75) (Room.drawnNumbers room) ∧
     (length (Room.drawnNumbers room) ≤ 75)%nat) ∧
  (∀ fuel socketId roomId now st' outs,
     drawNumber rnd fuel st socketId roomId now = Some (st', outs) →
     roomsOk st') ∧
  (∀ socketId roomId, roomsOk (resetDraw st socketId roomId).1).
Proof.
  intros Hreach. pose proof (reachable_roomsOk rnd st Hreach) as Hinv.
  split; [exact Hinv|]. split.
  - intros fuel socketId roomId now st' outs. by apply drawNumber_roomsOk.
  - intros socketId roomId. by apply resetDraw_roomsOk.
Qed.

Lemma drawnNumbers_invariant_witness :
  ∃ st room,
    runRequests demoStream 10 emptyServer demoRequests = Some st ∧
    rooms st !! "abcd1234"%string = Some room ∧
    Room.drawnNumbers room = [1; 2; 3] ∧
    Sorted Z.le (Room.drawnNumbers room) ∧ NoDup (Room.drawnNumbers room).
Proof.
  assert (Hrun : is_Some (runRequests demoStream 10 emptyServer demoRequests)).
  { vm_compute. eexists. reflexivity. }
  destruct Hrun as [st Hrun].
  assert (Hroom : is_Some (rooms st !! "abcd1234"%string)).
  { revert Hrun. vm_compute. intros [= <-]. eexists. reflexivity. }
  destruct Hroom as [room Hroom].
  assert (Hdrawn : Room.drawnNumbers room = [1; 2; 3]).
  { revert Hrun Hroom. vm_compute. intros [= <-]. intros [= <-]. reflexivity. }
  exists st, room. split; [done|]. split; [done|]. split; [done|].
  assert (Hreach : reachable demoStream st).
  { eapply runRequests_reachable; [|exact Hrun]. apply rtc_refl. }
  destruct (drawnNumbers_invariant demoStream st Hreach) as (Hinv & _ & _).
  destruct (Hinv _ _ Hroom) as (? & ? & _). done.
Defined.

(** ** Drawing every number *)

Lemma drawTimes_reachable rnd k fuel : ∀ st socketId roomId now st',
  reachable rnd st →
  drawTimes rnd k fuel st socketId roomId now = Some st' →
  reachable rnd st'.
Proof.
  induction k as [|k IH]; intros st socketId roomId now st' Hreach; simpl.
  - by intros [= <-].
  - destruct (drawNumber _ _ _ _ _ _) as [[st1 outs]|] eqn:Hdraw;
      [|discriminate].
    destruct (isNumberDrawn outs); [|discriminate].
    apply IH. unfold reachable in *. eapply rtc_r; [done|].
    by exists fuel, (DrawNumber socketId roomId now), outs.
Qed.

Lemma drawnOk_full drawn :
  drawnOk drawn → length drawn = 75%nat → drawn = seqZ 1 75.
Proof.
  intros (Hs & Hnd & Hr & _) Hlen.
  assert (Hsub : drawn ⊆+ seqZ 1 75).
  { apply NoDup_submseteq; [done|]. intros x Hx.
    rewrite Forall_forall in Hr. apply Hr in Hx. apply elem_of_seqZ. lia. }
  apply submseteq_length_Permutation in Hsub;
    [|rewrite length_seqZ; lia].
  apply (Sorted_unique Z.le); [done| |done].
  apply (bool_decide_unpack _). by vm_compute.
Qed.

(** Starting in a reachable state with a room in which nothing is drawn,
    75 draws in a row leave the room with exactly the numbers 1 to 75,
    in ascending order. *)
Lemma drawTimes_all_numbers rnd fuel st socketId roomId now userInfo room
    st75 :
  reachable rnd st →
  users st !! socketId = Some userInfo → Session.isHost userInfo = true →
  rooms st !! roomId = Some room → Room.drawnNumbers room = [] →
  drawTimes rnd 75 fuel st socketId roomId now = Some st75 →
  ∃ room', rooms st75 !! roomId = Some room' ∧
    Room.drawnNumbers room' = seqZ 1 75.
Proof.
  intros Hreach Hu Hh Hr Hempty Hrun.
  destruct (drawTimes_length rnd 75 fuel _ _ _ _ _ _ _ Hu Hh Hr Hrun)
    as (_ & room' & Hroom' & Hlen).
  exists room'. split; [done|]. apply drawnOk_full.
  - eapply (reachable_roomsOk rnd st75); [|done].
    by eapply drawTimes_reachable.
  - rewrite Hlen, Hempty. done.
Qed.

Example demoServer_run :
  runRequests demoStream 0 emptyServer
    [ CreateRoom (Some "Ana"%string) None "abcd1234-0000" 0;
      JoinAsHost "s1" "abcd1234" "host" ]
  = Some demoServer.
Proof. by vm_compute. Qed.

Lemma drawTimes_all_numbers_witness :
  ∃ st75 room',
    drawTimes demoStream 75 100 demoServer "s1" "abcd1234" 0 = Some st75 ∧
    rooms st75 !! "abcd1234"%string = Some room' ∧
    Room.drawnNumbers room' = seqZ 1 75.
Proof.
  assert (Hrun : is_Some
            (drawTimes demoStream 75 100 demoServer "s1" "abcd1234" 0)).
  { vm_compute. eexists. reflexivity. }
  destruct Hrun as [st75 Hrun].
  assert (Hreach : reachable demoStream demoServer).
  { eapply runRequests_reachable; [apply rtc_refl | exact demoServer_run]. }
  destruct (drawTimes_all_numbers demoStream 100 demoServer "s1" "abcd1234" 0
              (Session.mk "host" "abcd1234" true) demoRoom st75
              Hreach eq_refl eq_refl eq_refl eq_refl Hrun)
    as (room' & Hroom' & Hdrawn).
  exists st75, room'. split; [exact Hrun|]. split; [exact Hroom'|exact Hdrawn].
Defined.

(** ** Host-only operations (claims C9 and C10) *)

Section HostOnly.
Variable rnd : nat → Z.

Lemma drawNumber_not_host fuel st socketId roomId now :
  (users st !! socketId = None ∨
   ∃ userInfo, users st !! socketId = Some userInfo ∧
               Session.isHost userInfo = false) →
  drawNumber rnd fuel st socketId roomId now
  = Some (st, [SocketEmit socketId (EvError msgOnlyHostDraws)]).
Proof.
  unfold drawNumber. intros [->|(userInfo & -> & ->)]; done.
Qed.

Lemma resetDraw_not_host st socketId roomId :
  (users st !! socketId = None ∨
   ∃ userInfo, users st !! socketId = Some userInfo ∧
               Session.isHost userInfo = false) →
  resetDraw st socketId roomId
  = (st, [SocketEmit socketId (EvError msgOnlyHostResets)]).
Proof.
  unfold resetDraw. intros [->|(userInfo & -> & ->)]; done.
Qed.

Lemma resetDraw_host st socketId roomId userInfo room :
  users st !! socketId = Some userInfo → Session.isHost userInfo = true →
  rooms st !! roomId = Some room →
  resetDraw st socketId roomId =
    let room' := Room.setParticipants (Room.setDraw room [] Null)
                   (clearMarks (Room.participants room)) in
    (setRoom st roomId room', [RoomEmit roomId (DrawReset room')]).
Proof. unfold resetDraw. by intros -> -> ->. Qed.

End HostOnly.

(** C9.  A connection with no session, or whose session is not a host
    session, gets the host-only error from [drawNumber] and from
    [resetDraw], whatever the room id; nothing is changed or broadcast. *)
Theorem host_only_operations (rnd : nat → Z) (fuel : nat) (st : Server)
    (socketId roomId : string) (now : Z) :
  (users st !! socketId = None ∨
   ∃ userInfo, users st !! socketId = Some userInfo ∧
               Session.isHost userInfo = false) →
  drawNumber rnd fuel st socketId roomId now
  = Some (st, [SocketEmit socketId (EvError msgOnlyHostDraws)]) ∧
  resetDraw st socketId roomId
  = (st, [SocketEmit socketId (EvError msgOnlyHostResets)]) ∧
  errorKind msgOnlyHostDraws = Some AuthorizationError ∧
  errorKind msgOnlyHostResets = Some AuthorizationError.
Proof.
  intros Hsession. split; [by apply drawNumber_not_host|].
  split; [by apply resetDraw_not_host|]. split; reflexivity.
Qed.

Lemma host_only_operations_witness :
  drawNumber demoStream 10 demoServer "s2" "abcd1234" 5
  = Some (demoServer, [SocketEmit "s2" (EvError msgOnlyHostDraws)]) ∧
  resetDraw demoServer "s2" "abcd1234"
  = (demoServer, [SocketEmit "s2" (EvError msgOnlyHostResets)]).
Proof.
  destruct (host_only_operations demoStream 10 demoServer "s2" "abcd1234" 5
              (or_introl eq_refl)) as (Hdraw & Hreset & _).
  split; [exact Hdraw | exact Hreset].
Defined.

(** C10.  [joinAsHost] on a known room accepts any user id: it binds the
    connection to a host session for the room and answers [roomJoined]
    with [isHost = true], leaving the rooms as they were.  The same
    connection then passes the host check of [resetDraw], which resets
    the room, and of [drawNumber], which never answers it with the
    host-only error and draws while numbers are left. *)
Theorem joinAsHost_accepts_any_user (rnd : nat → Z) (st : Server)
    (socketId roomId userId : string) (room : Room.t) :
  rooms st !! roomId = Some room →
  let st' := mkServer (rooms st)
               (<[ socketId := Session.mk userId roomId true ]> (users st))
               (randomCalls st) in
  joinAsHost st socketId roomId userId
  = (st', [SocketEmit socketId (RoomJoined room true Absent)]) ∧
  users st' !! socketId = Some (Session.mk userId roomId true) ∧
  (∃ room',
     resetDraw st' socketId roomId
     = (setRoom st' roomId room', [RoomEmit roomId (DrawReset room')])) ∧
  (∀ fuel now st'' outs,
     drawNumber rnd fuel st' socketId roomId now = Some (st'', outs) →
     outs ≠ [SocketEmit socketId (EvError msgOnlyHostDraws)] ∧
     ((length (Room.drawnNumbers room) < 75)%nat →
      isNumberDrawn outs = true)) ∧
  ((length (Room.drawnNumbers room) < 75)%nat → fair rnd 75 →
   ∀ now, ∃ fuel0, ∀ fuel, (fuel0 ≤ fuel)%nat →
     is_Some (drawNumber rnd fuel st' socketId roomId now)).
Proof.
  intros Hr st'.
  assert (Hu : users st' !! socketId = Some (Session.mk userId roomId true))
    by apply lookup_insert_eq.
  assert (Hr' : rooms st' !! roomId = Some room) by done.
  split; [unfold joinAsHost; by rewrite Hr|]. split; [done|]. split; [|split].
  - eexists. by apply (resetDraw_host st' socketId roomId _ room Hu).
  - intros fuel now st'' outs Hdraw.
    destruct (decide ((length (Room.drawnNumbers room) < 75)%nat))
      as [Hlt|Hge].
    + destruct (drawNumber_draw rnd _ _ _ _ _ _ _ _ _ Hu eq_refl Hr' Hlt Hdraw)
        as (number & pos' & _ & _ & Houts & _).
      simpl in Houts. subst outs. done.
    + rewrite (drawNumber_exhausted rnd fuel st' socketId roomId now _ _
                 Hu eq_refl Hr') in Hdraw by lia.
      injection Hdraw as <- <-. split; [done|lia].
  - intros Hlt Hfair now.
    by apply (drawNumber_terminates rnd st' socketId roomId now _ room Hu).
Qed.

Lemma joinAsHost_accepts_any_user_witness :
  ∃ st',
    joinAsHost demoServer "s9" "abcd1234" "nobody"
    = (st', [SocketEmit "s9" (RoomJoined demoRoom true Absent)]) ∧
    users st' !! "s9"%string = Some (Session.mk "nobody" "abcd1234" true) ∧
    ∃ fuel, is_Some (drawNumber demoStream fuel st' "s9" "abcd1234" 7).
Proof.
  destruct (joinAsHost_accepts_any_user demoStream demoServer
              "s9" "abcd1234" "nobody" demoRoom eq_refl)
    as (Hjoin & Hsession & _ & _ & Hdraw).
  eexists. split; [exact Hjoin|]. split; [exact Hsession|].
  destruct (Hdraw ltac:(simpl; lia) demoStream_fair_draw 7) as [fuel0 Hfuel].
  exists fuel0. by apply Hfuel.
Defined.

(** ** Reset (claim C7) *)

Lemma foldr_alter_lookup {A} (f : A → A) (keys : list string)
    (m : gmap string A) (k : string) :
  NoDup keys →
  foldr (λ key acc, alter f key acc) m keys !! k
  = if decide (k ∈ keys) then f <$> m !! k else m !! k.
Proof.
  induction keys as [|key keys IH]; intros Hnd; cbn [foldr].
  - case_decide as Hin; [by apply not_elem_of_nil in Hin|done].
  - apply NoDup_cons in Hnd as [Hfresh Hnd].
    destruct (decide (key = k)) as [->|Hne].
    + rewrite lookup_alter_eq, IH by done.
      repeat case_decide; try done; exfalso;
        rewrite ?elem_of_cons in *; intuition congruence.
    + rewrite lookup_alter_ne, IH by done.
      repeat case_decide; try done; exfalso;
        rewrite ?elem_of_cons in *; intuition congruence.
Qed.

Lemma clearMarks_lookup ps userId :
  clearMarks ps !! userId
  = (λ p, Participant.setMarked p []) <$> ps !! userId.
Proof.
  unfold clearMarks.
  rewrite foldr_alter_lookup by apply NoDup_fst_map_to_list.
  case_decide as Hin; [done|].
  destruct (ps !! userId) as [p|] eqn:Hp; [|done].
  exfalso. apply Hin. apply list_elem_of_fmap. exists (userId, p).
  split; [done|]. by apply elem_of_map_to_list.
Qed.

Example demoMarkServer_run :
  runRequests demoStream 100 emptyServer demoMarkRequests
  = Some demoMarkServer.
Proof. by vm_compute. Qed.

(** C7.  When a host resets a known room, the room is broadcast with no
    drawn numbers, a [null] last-draw stamp, and the marks of every
    participant emptied.  The room keeps its id, host name, card size and
    creation time and the same participants; each participant keeps the
    card, the grid, the geometry, the id, the name and the join time.
    Other rooms and all sessions stay as they are. *)
Theorem resetDraw_clears_draw_and_marks (st : Server)
    (socketId roomId : string) (userInfo : Session.t) (room : Room.t) :
  users st !! socketId = Some userInfo →
  Session.isHost userInfo = true →
  rooms st !! roomId = Some room →
  ∃ room',
    resetDraw st socketId roomId
    = (mkServer (<[ roomId := room' ]> (rooms st)) (users st) (randomCalls st),
       [RoomEmit roomId (DrawReset room')]) ∧
    Room.drawnNumbers room' = [] ∧
    Room.lastDrawnAt room' = Null ∧
    Room.id room' = Room.id room ∧
    Room.hostName room' = Room.hostName room ∧
    Room.numbersPerCard room' = Room.numbersPerCard room ∧
    Room.createdAt room' = Room.createdAt room ∧
    dom (Room.participants room') = dom (Room.participants room) ∧
    (∀ userId p, Room.participants room !! userId = Some p →
       ∃ p', Room.participants room' !! userId = Some p' ∧
         Participant.markedNumbers p' = [] ∧
         Participant.card p' = Participant.card p ∧
         Participant.cardGrid p' = Participant.cardGrid p ∧
         Participant.numbersPerRow p' = Participant.numbersPerRow p ∧
         Participant.numbersPerCol p' = Participant.numbersPerCol p ∧
         Participant.centerRow p' = Participant.centerRow p ∧
         Participant.centerCol p' = Participant.centerCol p ∧
         Participant.id p' = Participant.id p ∧
         Participant.name p' = Participant.name p ∧
         Participant.joinedAt p' = Participant.joinedAt p).
Proof.
  intros Hu Hh Hr. eexists. split.
  { rewrite (resetDraw_host st socketId roomId userInfo room Hu Hh Hr).
    reflexivity. }
  simpl. repeat (split; [done|]). split.
  - apply set_eq. intros k. rewrite !elem_of_dom, clearMarks_lookup.
    by rewrite fmap_is_Some.
  - intros userId p Hp. exists (Participant.setMarked p []).
    rewrite clearMarks_lookup, Hp. done.
Qed.

Lemma resetDraw_clears_draw_and_marks_witness :
  ∃ st',
    (resetDraw demoMarkServer "s1" "abcd1234").1 = st' ∧
    markedOf demoMarkServer "abcd1234" "u1" = Some [1; 16] ∧
    markedOf st' "abcd1234" "u1" = Some [].
Proof.
  destruct (resetDraw_clears_draw_and_marks demoMarkServer "s1" "abcd1234"
              (Session.mk "host" "abcd1234" true) demoMarkRoom
              eq_refl eq_refl eq_refl)
    as (room' & Hreset & _ & _ & _ & _ & _ & _ & _ & Hps).
  destruct (Hps "u1"%string demoParticipant eq_refl)
    as (p' & Hp' & Hmarks & _).
  eexists. split; [by rewrite Hreset|]. split; [done|].
  unfold markedOf. simpl. rewrite lookup_insert_eq. simpl.
  rewrite Hp'. simpl. by rewrite Hmarks.
Defined.

(** ** Marking (claims C5 and C6) *)

Lemma toggle_absent marked number :
  number ∉ marked → toggle marked number = marked ++ [number].
Proof.
  intros Hnot. unfold toggle.
  destruct (list_find _ marked) as [[i x]|] eqn:Hfind; [|done].
  apply list_find_Some in Hfind as (Hi & -> & _).
  exfalso. apply Hnot. by eapply list_elem_of_lookup_2.
Qed.

Lemma toggle_present marked number :
  number ∈ marked →
  ∃ before after,
    marked = before ++ number :: after ∧ (number ∉ before) ∧
    toggle marked number = before ++ after.
Proof.
  intros Hin. unfold toggle.
  destruct (list_find _ marked) as [[i x]|] eqn:Hfind.
  - apply list_find_Some in Hfind as (Hi & -> & Hleast).
    exists (take i marked), (drop (S i) marked).
    split; [by rewrite take_drop_middle|]. split.
    + intros Hbefore. apply list_elem_of_lookup in Hbefore as [j Hj].
      pose proof (lookup_lt_Some _ _ _ Hj) as Hlt.
      rewrite lookup_take_lt in Hj by (rewrite length_take in Hlt; lia).
      eapply Hleast; [exact Hj| |done].
      rewrite length_take in Hlt. lia.
    + apply delete_take_drop.
  - apply list_find_None in Hfind. rewrite Forall_forall in Hfind.
    by destruct (Hfind number Hin).
Qed.

Lemma toggle_twice_absent marked number :
  number ∉ marked → toggle (toggle marked number) number = marked.
Proof.
  intros Hnot. rewrite (toggle_absent marked number Hnot).
  destruct (toggle_present (marked ++ [number]) number)
    as (before & after & Hsplit & Hbefore & ->).
  { apply elem_of_app. right. by left. }
  assert (Hafter : after = [] ∧ before = marked).
  { destruct after as [|y after _] using rev_ind.
    - apply app_inj_tail in Hsplit as [-> _]. done.
    - rewrite app_comm_cons, app_assoc in Hsplit.
      apply app_inj_tail in Hsplit as [-> _].
      exfalso. apply Hnot. apply elem_of_app. right. by left. }
  destruct Hafter as [-> ->]. by rewrite app_nil_r.
Qed.

Lemma toggle_twice_present marked number :
  NoDup marked → number ∈ marked →
  ∃ before after,
    marked = before ++ number :: after ∧
    toggle (toggle marked number) number = before ++ after ++ [number].
Proof.
  intros Hnd Hin.
  destruct (toggle_present marked number Hin)
    as (before & after & Hsplit & Hbefore & Htoggle).
  exists before, after. split; [done|]. rewrite Htoggle.
  rewrite toggle_absent; [by rewrite <- app_assoc|].
  rewrite Hsplit in Hnd. apply NoDup_app in Hnd as (_ & Hdisj & Hnd).
  apply NoDup_cons in Hnd as [Hafter _].
  intros [?|?]%elem_of_app; done.
Qed.

Lemma toggle_subset marked number (card : list Z) :
  number ∈ card → marked ⊆ card → toggle marked number ⊆ card.
Proof.
  intros Hcard Hsub.
  destruct (decide (number ∈ marked)) as [Hin|Hnot].
  - destruct (toggle_present marked number Hin)
      as (before & after & Hsplit & _ & ->).
    intros x Hx. apply Hsub. rewrite Hsplit.
    apply elem_of_app in Hx as [?|?]; apply elem_of_app;
      [by left | right; by right].
  - rewrite toggle_absent by done. intros x Hx.
    apply elem_of_app in Hx as [?|Hx]; [by apply Hsub|].
    by apply list_elem_of_singleton in Hx as ->.
Qed.

Lemma toggle_NoDup marked number :
  NoDup marked → NoDup (toggle marked number).
Proof.
  intros Hnd. destruct (decide (number ∈ marked)) as [Hin|Hnot].
  - destruct (toggle_present marked number Hin)
      as (before & after & Hsplit & _ & ->).
    rewrite Hsplit in Hnd. rewrite NoDup_app in Hnd |- *.
    destruct Hnd as (Hb & Hdisj & Ha). apply NoDup_cons in Ha as [_ Ha].
    split; [done|]. split; [|done].
    intros x Hx Hx'. eapply Hdisj; [done|by right].
  - rewrite toggle_absent by done. apply NoDup_app.
    split; [done|]. split; [|apply NoDup_singleton].
    intros x Hx Hx'. by apply list_elem_of_singleton in Hx' as ->.
Qed.

(** [markNumber] for a known room and participant and a card number. *)
Lemma markNumber_ok st socketId roomId userId number room p :
  rooms st !! roomId = Some room →
  Room.participants room !! userId = Some p →
  number ∈ Participant.card p →
  markNumber st socketId roomId userId number =
    let marked := toggle (Participant.markedNumbers p) number in
    let hasBingo :=
      bool_decide (length marked = length (Participant.card p)) in
    (setRoom st roomId
       (Room.setParticipants room
          (<[ userId := Participant.setMarked p marked ]>
             (Room.participants room))),
     SocketEmit socketId (NumberMarked number marked hasBingo)
     :: (if hasBingo
         then [RoomEmit roomId (Bingo userId (Participant.name p))]
         else [])).
Proof.
  intros Hr Hp Hcard. unfold markNumber, getMember. rewrite Hr, Hp.
  by rewrite bool_decide_eq_true_2.
Qed.

(** C5.  When [markNumber] succeeds, the [hasBingo] flag it sends is
    true exactly when the participant now has as many marked numbers as
    the card has numbers; the win broadcast goes out exactly then.  The
    card is the flat list of numbers, so the free cell (a [null] of the
    grid) is in neither count, and only card numbers get marked. *)
Theorem markNumber_hasBingo (st : Server)
    (socketId roomId userId : string) (number : Z)
    (room : Room.t) (p : Participant.t) :
  rooms st !! roomId = Some room →
  Room.participants room !! userId = Some p →
  number ∈ Participant.card p →
  let marked := toggle (Participant.markedNumbers p) number in
  ∃ hasBingo st',
    markNumber st socketId roomId userId number
    = (st', SocketEmit socketId (NumberMarked number marked hasBingo)
            :: (if hasBingo
                then [RoomEmit roomId (Bingo userId (Participant.name p))]
                else [])) ∧
    markedOf st' roomId userId = Some marked ∧
    (hasBingo = true ↔ length marked = length (Participant.card p)) ∧
    (Participant.markedNumbers p ⊆ Participant.card p →
     marked ⊆ Participant.card p) ∧
    (∀ room' p', rooms st' !! roomId = Some room' →
       Room.participants room' !! userId = Some p' →
       Participant.card p' = Participant.card p ∧
       Participant.cardGrid p' = Participant.cardGrid p).
Proof.
  intros Hr Hp Hcard marked.
  exists (bool_decide (length marked = length (Participant.card p))).
  eexists. split; [by apply markNumber_ok|].
  split; [|split; [|split]].
  - unfold markedOf, setRoom. simpl. rewrite lookup_insert_eq. simpl.
    rewrite lookup_insert_eq. done.
  - apply bool_decide_eq_true.
  - by apply toggle_subset.
  - unfold setRoom. simpl. rewrite lookup_insert_eq. intros room' p' [= <-].
    simpl. rewrite lookup_insert_eq. by intros [= <-].
Qed.

Lemma markNumber_hasBingo_witness :
  ∃ st',
    markNumber demoMarkServer "s2" "abcd1234" "u1" 46
    = (st', [SocketEmit "s2" (NumberMarked 46 [1; 16; 46] true);
             RoomEmit "abcd1234" (Bingo "u1" "Bruno")]) ∧
    markedOf st' "abcd1234" "u1" = Some [1; 16; 46].
Proof.
  destruct (markNumber_hasBingo demoMarkServer "s2" "abcd1234" "u1" 46
              demoMarkRoom demoParticipant eq_refl eq_refl
              ltac:(apply (bool_decide_unpack _); exact I))
    as (hasBingo & st' & Hmark & Hmarked & Hflag & _).
  assert (HhasBingo : hasBingo = true) by (by apply Hflag).
  subst hasBingo. exists st'. split; [exact Hmark | exact Hmarked].
Defined.

Lemma setMarked_same p :
  Participant.setMarked p (Participant.markedNumbers p) = p.
Proof. by destruct p. Qed.

Lemma setParticipants_same room :
  Room.setParticipants room (Room.participants room) = room.
Proof. by destruct room. Qed.

Lemma setRoom_same st roomId room :
  rooms st !! roomId = Some room → setRoom st roomId room = st.
Proof.
  intros Hr. unfold setRoom. rewrite insert_id by done. by destruct st.
Qed.

(** Two calls of [markNumber] with the same card number, as one update. *)
Lemma markNumber_twice st socketId roomId userId number room p :
  rooms st !! roomId = Some room →
  Room.participants room !! userId = Some p →
  number ∈ Participant.card p →
  (markNumber (markNumber st socketId roomId userId number).1
     socketId roomId userId number).1
  = setRoom st roomId
      (Room.setParticipants room
         (<[ userId := Participant.setMarked p
                         (toggle (toggle (Participant.markedNumbers p) number)
                            number) ]>
            (Room.participants room))).
Proof.
  intros Hr Hp Hcard.
  rewrite (markNumber_ok st _ _ _ _ room p Hr Hp Hcard). simpl.
  erewrite markNumber_ok;
    [| unfold setRoom; simpl; apply lookup_insert_eq
     | simpl; apply lookup_insert_eq
     | done ].
  simpl. unfold setRoom. simpl.
  by rewrite !insert_insert_eq.
Qed.

(** C6, as the code has it.  Toggling the same card number twice gives
    the participant the same marked numbers as before, as a set: the
    array after the two calls is a rearrangement of the array before.
    It is the very same array, and the whole server state is the same,
    when the number was not marked at the start; when it was marked, it
    has moved to the end of the array. *)
Theorem markNumber_twice_restores_marks (st : Server)
    (socketId roomId userId : string) (number : Z)
    (room : Room.t) (p : Participant.t) :
  rooms st !! roomId = Some room →
  Room.participants room !! userId = Some p →
  number ∈ Participant.card p →
  NoDup (Participant.markedNumbers p) →
  let st2 := (markNumber (markNumber st socketId roomId userId number).1
                socketId roomId userId number).1 in
  ∃ marked2,
    markedOf st2 roomId userId = Some marked2 ∧
    marked2 ≡ₚ Participant.markedNumbers p ∧
    (number ∉ Participant.markedNumbers p →
     marked2 = Participant.markedNumbers p ∧ st2 = st) ∧
    (number ∈ Participant.markedNumbers p →
     ∃ before after,
       Participant.markedNumbers p = before ++ number :: after ∧
       marked2 = before ++ after ++ [number]).
Proof.
  intros Hr Hp Hcard Hnd st2. subst st2.
  rewrite (markNumber_twice st _ _ _ _ room p Hr Hp Hcard).
  eexists. split.
  { unfold markedOf, setRoom. simpl. rewrite lookup_insert_eq. simpl.
    rewrite lookup_insert_eq. reflexivity. }
  simpl.
  destruct (decide (number ∈ Participant.markedNumbers p)) as [Hin|Hnot].
  - destruct (toggle_twice_present _ _ Hnd Hin)
      as (before & after & Hsplit & Htwice).
    rewrite Htwice. split; [|split; [done|]].
    + rewrite Hsplit. apply Permutation_app_head. symmetry.
      apply Permutation_cons_append.
    + intros _. by exists before, after.
  - rewrite toggle_twice_absent by done. split; [done|]. split; [|done].
    intros _. split; [done|].
    rewrite setMarked_same, insert_id, setParticipants_same by done.
    by apply setRoom_same.
Qed.

Lemma markNumber_twice_restores_marks_witness :
  ∃ marked2,
    markedOf (markNumber (markNumber demoMarkServer "s2" "abcd1234" "u1" 46).1
                "s2" "abcd1234" "u1" 46).1 "abcd1234" "u1"
    = Some marked2 ∧
    marked2 = [1; 16].
Proof.
  destruct (markNumber_twice_restores_marks demoMarkServer
              "s2" "abcd1234" "u1" 46 demoMarkRoom demoParticipant
              eq_refl eq_refl
              ltac:(apply (bool_decide_unpack _); exact I)
              ltac:(apply (bool_decide_unpack _); exact I))
    as (marked2 & Hmarked & _ & Hsame & _).
  exists marked2. split; [exact Hmarked|].
  apply Hsame. apply (bool_decide_unpack _). exact I.
Defined.

(** After marking 1 and 16, toggling 1 twice leaves the marks as
    [16; 1], not [1; 16]: the array is not back in its earlier state. *)
Lemma markNumber_twice_reorders_marks :
  runRequests demoStream 100 emptyServer demoMarkRequests
  = Some demoMarkServer ∧
  markedOf demoMarkServer "abcd1234" "u1" = Some [1; 16] ∧
  markedOf (markNumber (markNumber demoMarkServer "s2" "abcd1234" "u1" 1).1
              "s2" "abcd1234" "u1" 1).1 "abcd1234" "u1"
  = Some [16; 1] ∧
  [16; 1] ≠ [1; 16].
Proof. by vm_compute. Qed.

(** ** Failures (claim C4) *)

Lemma roomKnown_Some st roomId room :
  rooms st !! roomId = Some room → roomKnown st roomId = true.
Proof. intros Hr. unfold roomKnown. rewrite Hr. by apply bool_decide_eq_true. Qed.

Lemma roomKnown_None st roomId :
  rooms st !! roomId = None → roomKnown st roomId = false.
Proof.
  intros Hr. unfold roomKnown. rewrite Hr. apply bool_decide_eq_false.
  by intros [? ?].
Qed.

Section Failures.
Variable rnd : nat → Z.

Lemma failing_request fuel st req :
  namesInherited st req = false →
  fails st req = true →
  ∃ out, handle rnd fuel st req = Some (st, [out]) ∧ unicastError req out.
Proof.
  destruct req; simpl; intros Hown Hfail.
  - unfold createRoom. rewrite Hfail. eexists. split; [done|]. simpl. auto.
  - unfold getRoom.
    destruct (rooms st !! roomId) as [room|] eqn:Hr.
    + by rewrite (roomKnown_Some _ _ _ Hr) in Hfail.
    + eexists. split; [done|]. simpl. auto.
  - unfold joinRoom. destruct (negb (truthy participantName)).
    + eexists. split; [done|]. simpl. auto.
    + destruct (rooms st !! roomId) as [room|] eqn:Hr.
      * by rewrite (roomKnown_Some _ _ _ Hr) in Hfail.
      * eexists. split; [done|]. simpl. auto.
  - unfold joinAsHost.
    destruct (rooms st !! roomId) as [room|] eqn:Hr.
    + by rewrite (roomKnown_Some _ _ _ Hr) in Hfail.
    + eexists. split; done.
  - unfold joinAsParticipant, participantOf, getMember in *.
    destruct (rooms st !! roomId) as [room|] eqn:Hr; simpl in Hfail.
    + destruct (Room.participants room !! userId) as [p|] eqn:Hp.
      * rewrite bool_decide_eq_true_2 in Hfail by eauto. done.
      * destruct (bool_decide (userId ∈ prototypeKeys)); [done|].
        eexists. split; done.
    + eexists. split; done.
  - unfold drawNumber, isHostSocket, exhausted in *.
    destruct (users st !! socketId) as [userInfo|] eqn:Hu; simpl in Hfail.
    2:{ eexists. split; done. }
    destruct (Session.isHost userInfo); simpl in Hfail.
    2:{ eexists. split; done. }
    destruct (rooms st !! roomId) as [room|] eqn:Hr.
    2:{ eexists. split; done. }
    rewrite (roomKnown_Some _ _ _ Hr) in Hfail. simpl in Hfail.
    apply bool_decide_eq_true in Hfail. unfold maxNumber.
    destruct (Z.geb_spec (Z.of_nat (length (Room.drawnNumbers room))) 75);
      [|lia].
    eexists. split; done.
  - unfold markNumber, participantOf, getMember in *.
    destruct (rooms st !! roomId) as [room|] eqn:Hr; simpl in Hfail.
    2:{ eexists. split; done. }
    destruct (Room.participants room !! userId) as [p|] eqn:Hp.
    2:{ destruct (bool_decide (userId ∈ prototypeKeys)); [done|].
        eexists. split; done. }
    rewrite Hfail. eexists. split; done.
  - unfold resetDraw, isHostSocket in *.
    destruct (users st !! socketId) as [userInfo|] eqn:Hu; simpl in Hfail.
    2:{ eexists. split; done. }
    destruct (Session.isHost userInfo); simpl in Hfail.
    2:{ eexists. split; done. }
    destruct (rooms st !! roomId) as [room|] eqn:Hr.
    + by rewrite (roomKnown_Some _ _ _ Hr) in Hfail.
    + eexists. split; done.
  - unfold getRoomState.
    destruct (rooms st !! roomId) as [room|] eqn:Hr.
    + by rewrite (roomKnown_Some _ _ _ Hr) in Hfail.
    + eexists. split; done.
  - done.
Qed.

Lemma passing_request fuel st req st' outs :
  fails st req = false →
  handle rnd fuel st req = Some (st', outs) →
  Forall (λ out, isError out = false ∧ isUncaught out = false) outs.
Proof.
  destruct req; simpl; intros Hfail.
  - unfold createRoom. rewrite Hfail. intros [= <- <-]. by repeat constructor.
  - unfold getRoom.
    destruct (rooms st !! roomId) as [room|] eqn:Hr.
    + intros [= <- <-]. by repeat constructor.
    + by rewrite (roomKnown_None _ _ Hr) in Hfail.
  - unfold joinRoom. apply orb_false_iff in Hfail as [-> Hroom].
    destruct (rooms st !! roomId) as [room|] eqn:Hr.
    + destruct (Gen.generateBingoCard _ _ _ _) as [[cardData pos']|];
        [|discriminate].
      intros [= <- <-]. by repeat constructor.
    + by rewrite (roomKnown_None _ _ Hr) in Hroom.
  - unfold joinAsHost.
    destruct (rooms st !! roomId) as [room|] eqn:Hr.
    + intros [= <- <-]. by repeat constructor.
    + by rewrite (roomKnown_None _ _ Hr) in Hfail.
  - unfold joinAsParticipant, participantOf, getMember in *.
    apply negb_false_iff, bool_decide_eq_true in Hfail as [p Hp].
    destruct (rooms st !! roomId) as [room|]; [|done]. simpl in Hp.
    rewrite Hp. intros [= <- <-]. by repeat constructor.
  - unfold isHostSocket, exhausted in Hfail.
    apply orb_false_iff in Hfail as [Hfail Hleft].
    apply orb_false_iff in Hfail as [Hhost Hroom].
    destruct (users st !! socketId) as [userInfo|] eqn:Hu; [|done].
    simpl in Hhost. apply negb_false_iff in Hhost.
    destruct (rooms st !! roomId) as [room|] eqn:Hr.
    2:{ by rewrite (roomKnown_None _ _ Hr) in Hroom. }
    apply bool_decide_eq_false in Hleft. intros Hdraw.
    destruct (drawNumber_draw rnd _ _ _ _ _ _ _ _ _ Hu Hhost Hr
                ltac:(lia) Hdraw)
      as (number & pos' & _ & _ & Houts & _).
    simpl in Houts. subst outs. by repeat constructor.
  - unfold markNumber, participantOf, getMember in *.
    destruct (rooms st !! roomId) as [room|]; [|done]. simpl in Hfail.
    destruct (Room.participants room !! userId) as [p|]; [|done].
    rewrite Hfail. intros [= <- <-].
    constructor; [done|].
    destruct (bool_decide (length _ = _)); by repeat constructor.
  - unfold resetDraw, isHostSocket in *.
    apply orb_false_iff in Hfail as [Hhost Hroom].
    destruct (users st !! socketId) as [userInfo|]; [|done].
    simpl in Hhost. apply negb_false_iff in Hhost. rewrite Hhost.
    destruct (rooms st !! roomId) as [room|] eqn:Hr.
    + intros [= <- <-]. by repeat constructor.
    + by rewrite (roomKnown_None _ _ Hr) in Hroom.
  - unfold getRoomState.
    destruct (rooms st !! roomId) as [room|] eqn:Hr.
    + intros [= <- <-]. by repeat constructor.
    + by rewrite (roomKnown_None _ _ Hr) in Hfail.
  - unfold disconnect. destruct (users st !! socketId);
      intros [= <- <-]; constructor.
Qed.

(** A user id that the participants of the room only inherit is taken
    for a participant: [markNumber] throws on it and [joinAsParticipant]
    opens a session for it. *)
Lemma markNumber_inherited st socketId roomId userId number room :
  rooms st !! roomId = Some room →
  Room.participants room !! userId = None →
  userId ∈ prototypeKeys →
  markNumber st socketId roomId userId number = (st, [Uncaught TypeError]).
Proof.
  intros Hr Hp Hkey. unfold markNumber, getMember. rewrite Hr, Hp.
  by rewrite bool_decide_eq_true_2.
Qed.

Lemma joinAsParticipant_inherited st socketId roomId userId room :
  rooms st !! roomId = Some room →
  Room.participants room !! userId = None →
  userId ∈ prototypeKeys →
  joinAsParticipant st socketId roomId userId
  = (mkServer (rooms st)
       (<[ socketId := Session.mk userId roomId false ]> (users st))
       (randomCalls st),
     [SocketEmit socketId (RoomJoined room false (Inherited userId))]).
Proof.
  intros Hr Hp Hkey. unfold joinAsParticipant, getMember. rewrite Hr, Hp.
  by rewrite bool_decide_eq_true_2.
Qed.

Lemma namesInherited_spec st req :
  namesInherited st req = true →
  fails st req = true ∧
  ∃ roomId userId room,
    rooms st !! roomId = Some room ∧
    Room.participants room !! userId = None ∧
    userId ∈ prototypeKeys ∧
    ((∃ socketId, req = JoinAsParticipant socketId roomId userId) ∨
     (∃ socketId number, req = MarkNumber socketId roomId userId number)).
Proof.
  destruct req; simpl; try done; unfold participantOf, getMember;
    destruct (rooms st !! roomId) as [room|] eqn:Hr; try done; simpl;
    destruct (Room.participants room !! userId) as [p|] eqn:Hp; try done;
    case_bool_decide as Hkey; try done; intros _.
  - split; [by rewrite bool_decide_eq_false_2 by (by intros [? ?])|].
    exists roomId, userId, room. eauto 10.
  - split; [done|]. exists roomId, userId, room. eauto 10.
Qed.

End Failures.

(** Apart from the user ids that the participants of a room only
    inherit: on every input on which an operation fails (a missing name,
    an unknown room or participant, a number that is not on the card, a
    caller that is not a host, no number left to draw) the handler
    returns at once, whatever the bound on its loops; it sends a single
    error, to the calling connection alone (the [error] event on its
    socket, or the 400/404 response of a REST call), broadcasts nothing,
    and leaves the whole server state, every room included, as it was.
    On every other input no error is sent to anyone and no exception
    leaves the handler. *)
Theorem errors_stay_with_caller (rnd : nat → Z) (fuel : nat) (st : Server)
    (req : Request) :
  namesInherited st req = false →
  (fails st req = true →
   ∃ out, handle rnd fuel st req = Some (st, [out]) ∧ unicastError req out) ∧
  (fails st req = false →
   ∀ st' outs, handle rnd fuel st req = Some (st', outs) →
     Forall (λ out, isError out = false ∧ isUncaught out = false) outs).
Proof.
  intros Hown. split.
  - by apply failing_request.
  - intros Hpass st' outs. by apply passing_request.
Qed.

Lemma errors_stay_with_caller_witness :
  ∃ out,
    handle demoStream 0 demoMarkServer (MarkNumber "s2" "abcd1234" "u9" 1)
    = Some (demoMarkServer, [out]) ∧
    unicastError (MarkNumber "s2" "abcd1234" "u9" 1) out.
Proof.
  destruct (errors_stay_with_caller demoStream 0 demoMarkServer
              (MarkNumber "s2" "abcd1234" "u9" 1) eq_refl) as [Hfail _].
  exact (Hfail eq_refl).
Defined.

Example errors_stay_with_caller_examples :
  handle demoStream 0 demoMarkServer
    (MarkNumber "s2" "abcd1234" "u1" 2)
  = Some (demoMarkServer, [SocketEmit "s2" (EvError msgNotOnCard)]) ∧
  handle demoStream 0 demoMarkServer
    (JoinRoom "abcd1234" (Some ""%string) "u2" 9)
  = Some (demoMarkServer,
          [HttpJson 400 (ErrorBody msgParticipantNameRequired)]) ∧
  handle demoStream 0 demoMarkServer (DrawNumber "s2" "abcd1234" 9)
  = Some (demoMarkServer, [SocketEmit "s2" (EvError msgOnlyHostDraws)]).
Proof. by vm_compute. Qed.

(** ** User ids that name a member of Object.prototype (claim C4) *)

(** C4 does not hold of the code.  The participants of a room are a plain
    object, read with the user id of the request as it comes.  In the
    state after one room was created, [markNumber] with the user id
    [__proto__] is a call with an unknown participant, yet no error is
    sent to the caller: the handler throws a [TypeError].
    [joinAsParticipant] with that user id sends no error either: it
    opens a session and answers [roomJoined]. *)
Theorem inherited_user_id_is_not_refused :
  reachable demoStream demoCreated ∧
  rooms demoCreated !! "abcd1234"%string = Some demoRoom ∧
  participantOf demoCreated "abcd1234" "__proto__" = None ∧
  fails demoCreated (MarkNumber "s2" "abcd1234" "__proto__" 1) = true ∧
  handle demoStream 0 demoCreated (MarkNumber "s2" "abcd1234" "__proto__" 1)
  = Some (demoCreated, [Uncaught TypeError]) ∧
  fails demoCreated (JoinAsParticipant "s2" "abcd1234" "__proto__") = true ∧
  handle demoStream 0 demoCreated
    (JoinAsParticipant "s2" "abcd1234" "__proto__")
  = Some (mkServer (rooms demoCreated)
            {[ "s2"%string := Session.mk "__proto__" "abcd1234" false ]} 0,
          [SocketEmit "s2"
             (RoomJoined demoRoom false (Inherited "__proto__"))]).
Proof.
  split.
  { eapply (runRequests_reachable demoStream 0
              [CreateRoom (Some "Ana"%string) None "abcd1234-0000" 0]);
      [apply rtc_refl | reflexivity]. }
  by vm_compute.
Qed.

(** ** Participants and cards of every reachable room *)

Lemma generated_card_ok rnd fuel pos n card pos' :
  0 ≤ n →
  Gen.generateBingoCard rnd fuel pos n = Some (card, pos') →
  n ≤ 75 ∧
  Z.of_nat (length (CardData.numbers card)) = n ∧
  NoDup (CardData.numbers card) ∧
  Sorted Z.le (CardData.numbers card) ∧
  Forall (λ v, 1 ≤ v ≤ 75) (CardData.numbers card) ∧
  CardData.numbersPerRow card = 5 ∧
  CardData.numbersPerCol card = n / 5 + 1 ∧
  CardData.centerRow card = (n / 5 + 1) / 2 ∧
  CardData.centerCol card = 2 ∧
  Z.of_nat (length (CardData.grid card)) = 5 * (n / 5 + 1).
Proof.
  intros Hn Hrun.
  assert (Hmax : n ≤ 75).
  { destruct (Z.le_gt_cases n 75) as [?|Hbig]; [done|].
    by rewrite (generateBingoCard_overfull rnd fuel pos n) in Hrun by lia. }
  split; [done|].
  apply generateBingoCard_columns in Hrun as (c0 & c1 & c2 & c3 & c4 & Hcols);
    [|done].
  assert (Hn' : 0 ≤ n ≤ 75) by lia.
  pose proof (columns_length _ _ _ _ _ _ _ Hn' Hcols) as Hlen.
  pose proof (columns_NoDup _ _ _ _ _ _ _ Hcols) as Hnd.
  assert (Hq : 0 ≤ n / 5) by (apply Z.div_pos; lia).
  rewrite (cc_numbers _ _ _ _ _ _ _ Hcols), (cc_perRow _ _ _ _ _ _ _ Hcols),
    (cc_perCol _ _ _ _ _ _ _ Hcols), (cc_centerRow _ _ _ _ _ _ _ Hcols),
    (cc_centerCol _ _ _ _ _ _ _ Hcols), (cc_grid _ _ _ _ _ _ _ Hcols).
  rewrite sortAsc_length, sortAsc_NoDup, sortAsc_Forall, ceilDiv_rows,
    flattenMatrix_length.
  split; [done|]. split; [done|]. split; [apply sortAsc_sorted|].
  split; [|repeat split; lia].
  column_facts Hcols. rewrite !Forall_app.
  repeat split;
    match goal with
    | H : Forall (inRange _) ?c |- Forall _ ?c =>
        eapply Forall_impl; [exact H|]; unfold inRange; simpl; lia
    end.
Qed.

Section Store.
Variable rnd : nat → Z.

Lemma storeOk_insert st roomId room users' pos' :
  storeOk st → Room.id room = roomId →
  (∀ userId p, Room.participants room !! userId = Some p →
     marksOk userId p ∧ cardOk (Room.numbersPerCard room) p) →
  storeOk (mkServer (<[ roomId := room ]> (rooms st)) users' pos').
Proof.
  intros Hinv Hid Hps rid r. simpl.
  destruct (decide (roomId = rid)) as [->|Hne].
  - rewrite lookup_insert_eq. intros [= <-]. done.
  - rewrite lookup_insert_ne by done. apply Hinv.
Qed.

Lemma handle_storeOk fuel st req st' outs :
  storeOk st → handle rnd fuel st req = Some (st', outs) → storeOk st'.
Proof.
  intros Hinv. destruct req; simpl.
  - unfold createRoom. destruct (negb _); intros [= <- <-]; [done|].
    apply storeOk_insert; [done|done|]. simpl. intros userId p.
    by rewrite lookup_empty.
  - unfold getRoom. destruct (rooms st !! roomId); by intros [= <- <-].
  - unfold joinRoom. destruct (negb _); [by intros [= <- <-]|].
    destruct (rooms st !! roomId) as [room|] eqn:Hr; [|by intros [= <- <-]].
    destruct (Gen.generateBingoCard _ _ _ _) as [[cardData pos']|] eqn:Hgen;
      [|discriminate].
    intros [= <- <-]. destruct (Hinv _ _ Hr) as [Hid Hps].
    apply storeOk_insert; [done|done|]. simpl. intros userId p.
    destruct (decide (uuid = userId)) as [->|Hne].
    + rewrite lookup_insert_eq. intros [= <-]. split.
      * split; [done|]. simpl. split; [constructor|]. intros x Hx.
        by apply not_elem_of_nil in Hx.
      * intros Hn. simpl.
        by apply (generated_card_ok rnd fuel (randomCalls st) _ _ pos').
    + rewrite lookup_insert_ne by done. apply Hps.
  - unfold joinAsHost. destruct (rooms st !! roomId); by intros [= <- <-].
  - unfold joinAsParticipant. destruct (rooms st !! roomId) as [room|];
      [|by intros [= <- <-]].
    destruct (getMember _ _); by intros [= <- <-].
  - unfold drawNumber.
    destruct (users st !! socketId) as [userInfo|]; [|by intros [= <- <-]].
    destruct (Session.isHost userInfo); [|by intros [= <- <-]].
    destruct (rooms st !! roomId) as [room|] eqn:Hr; [|by intros [= <- <-]].
    destruct (_ >=? _); [by intros [= <- <-]|].
    destruct (drawLoop _ _ _ _) as [[number pos']|]; [|discriminate].
    intros [= <- <-]. destruct (Hinv _ _ Hr) as [Hid Hps].
    by apply storeOk_insert.
  - unfold markNumber, getMember.
    destruct (rooms st !! roomId) as [room|] eqn:Hr; [|by intros [= <- <-]].
    destruct (Room.participants room !! userId) as [p|] eqn:Hp;
      [|by destruct (bool_decide _); intros [= <- <-]].
    case_bool_decide as Hcard; simpl; intros [= <- <-]; [|done].
    destruct (Hinv _ _ Hr) as [Hid Hps].
    destruct (Hps _ _ Hp) as [(Hpid & Hnd & Hsub) Hcardok].
    apply storeOk_insert; [done|done|]. simpl. intros uid q.
    destruct (decide (userId = uid)) as [->|Hne].
    + rewrite lookup_insert_eq. intros [= <-]. split; [|done].
      split; [done|]. simpl.
      split; [by apply toggle_NoDup | by apply toggle_subset].
    + rewrite lookup_insert_ne by done. apply Hps.
  - unfold resetDraw.
    destruct (users st !! socketId) as [userInfo|]; [|by intros [= <- <-]].
    destruct (Session.isHost userInfo); [|by intros [= <- <-]].
    destruct (rooms st !! roomId) as [room|] eqn:Hr; [|by intros [= <- <-]].
    intros [= <- <-]. destruct (Hinv _ _ Hr) as [Hid Hps].
    apply storeOk_insert; [done|done|]. simpl. intros uid q.
    rewrite clearMarks_lookup.
    destruct (Room.participants room !! uid) as [p|] eqn:Hp; [|done].
    simpl. intros [= <-]. destruct (Hps _ _ Hp) as [(Hpid & _ & _) Hcardok].
    split; [|done]. split; [done|]. simpl. split; [constructor|].
    intros x Hx. by apply not_elem_of_nil in Hx.
  - unfold getRoomState. destruct (rooms st !! roomId); by intros [= <- <-].
  - unfold disconnect. destruct (users st !! socketId); by intros [= <- <-].
Qed.

Lemma reachable_storeOk st : reachable rnd st → storeOk st.
Proof.
  unfold reachable. intros Hreach.
  apply rtc_nsteps in Hreach as [k Hreach].
  revert st Hreach. induction k as [|k IH]; intros st Hreach.
  - inversion Hreach; subst. intros rid room. simpl.
    by rewrite lookup_empty.
  - apply nsteps_inv_r in Hreach as (mid & Hmid & (fuel & req & outs & Hstep)).
    eapply handle_storeOk; [|done]. by apply IH.
Qed.

Lemma handle_sessionsOk fuel st req st' outs :
  sessionsOk st → handle rnd fuel st req = Some (st', outs) →
  sessionsOk st' ∧ dom (rooms st) ⊆ dom (rooms st').
Proof.
  intros Hinv.
  assert (Hgrow : ∀ roomId room users' pos',
            users' = users st →
            sessionsOk (mkServer (<[ roomId := room ]> (rooms st)) users' pos')
            ∧ dom (rooms st) ⊆ dom (<[ roomId := room ]> (rooms st))).
  { intros roomId room users' pos' ->. split; [|apply dom_insert_subseteq].
    intros sid s Hs. simpl in *. apply Hinv in Hs.
    destruct (decide (roomId = Session.roomId s)) as [->|Hne].
    - rewrite lookup_insert_eq. eauto.
    - by rewrite lookup_insert_ne. }
  assert (Hjoin : ∀ socketId roomId userId isHost room,
            rooms st !! roomId = Some room →
            sessionsOk (mkServer (rooms st)
                          (<[ socketId := Session.mk userId roomId isHost ]>
                             (users st)) (randomCalls st))).
  { intros socketId roomId userId isHost room Hr sid s. simpl.
    destruct (decide (socketId = sid)) as [->|Hne].
    - rewrite lookup_insert_eq. intros [= <-]. simpl. eauto.
    - rewrite lookup_insert_ne by done. apply Hinv. }
  destruct req; simpl.
  - unfold createRoom. destruct (negb _); intros [= <- <-]; [done|].
    by apply Hgrow.
  - unfold getRoom. destruct (rooms st !! roomId); by intros [= <- <-].
  - unfold joinRoom. destruct (negb _); [by intros [= <- <-]|].
    destruct (rooms st !! roomId) as [room|] eqn:Hr; [|by intros [= <- <-]].
    destruct (Gen.generateBingoCard _ _ _ _) as [[cardData pos']|];
      [|discriminate].
    intros [= <- <-]. by apply Hgrow.
  - unfold joinAsHost. destruct (rooms st !! roomId) as [room|] eqn:Hr;
      intros [= <- <-]; [|done]. split; [by eapply Hjoin|done].
  - unfold joinAsParticipant. destruct (rooms st !! roomId) as [room|] eqn:Hr;
      [|by intros [= <- <-]].
    destruct (getMember _ _); intros [= <- <-]; [| |done];
      (split; [by eapply Hjoin|done]).
  - unfold drawNumber.
    destruct (users st !! socketId) as [userInfo|]; [|by intros [= <- <-]].
    destruct (Session.isHost userInfo); [|by intros [= <- <-]].
    destruct (rooms st !! roomId) as [room|] eqn:Hr; [|by intros [= <- <-]].
    destruct (_ >=? _); [by intros [= <- <-]|].
    destruct (drawLoop _ _ _ _) as [[number pos']|]; [|discriminate].
    intros [= <- <-]. by apply Hgrow.
  - unfold markNumber.
    destruct (rooms st !! roomId) as [room|] eqn:Hr; [|by intros [= <- <-]].
    destruct (getMember _ _) as [p| |]; [|by intros [= <- <-]..].
    case_bool_decide as Hcard; simpl; intros [= <- <-]; [|done].
    by apply Hgrow.
  - unfold resetDraw.
    destruct (users st !! socketId) as [userInfo|]; [|by intros [= <- <-]].
    destruct (Session.isHost userInfo); [|by intros [= <- <-]].
    destruct (rooms st !! roomId) as [room|] eqn:Hr; [|by intros [= <- <-]].
    intros [= <- <-]. by apply Hgrow.
  - unfold getRoomState. destruct (rooms st !! roomId); by intros [= <- <-].
  - unfold disconnect. destruct (users st !! socketId) eqn:Hu;
      intros [= <- <-]; [|done].
    split; [|done]. intros sid s. simpl.
    destruct (decide (socketId = sid)) as [->|Hne].
    + by rewrite lookup_delete_eq.
    + rewrite lookup_delete_ne by done. apply Hinv.
Qed.

Lemma reachable_sessionsOk st : reachable rnd st → sessionsOk st.
Proof.
  unfold reachable. intros Hreach.
  apply rtc_nsteps in Hreach as [k Hreach].
  revert st Hreach. induction k as [|k IH]; intros st Hreach.
  - inversion Hreach; subst. intros sid s. simpl. by rewrite lookup_empty.
  - apply nsteps_inv_r in Hreach as (mid & Hmid & (fuel & req & outs & Hstep)).
    eapply handle_sessionsOk; [|done]. by apply IH.
Qed.

End Store.

(** In every state the server can reach, a room is stored under its own
    id and a participant under its own id, and the marked numbers of
    every participant are pairwise distinct numbers of the card, so never
    more than the card has. *)
Theorem reachable_marks_within_card (rnd : nat → Z) (st : Server)
    (roomId userId : string) (room : Room.t) (p : Participant.t) :
  reachable rnd st →
  rooms st !! roomId = Some room →
  Room.participants room !! userId = Some p →
  Room.id room = roomId ∧
  Participant.id p = userId ∧
  NoDup (Participant.markedNumbers p) ∧
  Participant.markedNumbers p ⊆ Participant.card p ∧
  (length (Participant.markedNumbers p) ≤ length (Participant.card p))%nat.
Proof.
  intros Hreach Hr Hp.
  destruct (reachable_storeOk rnd st Hreach _ _ Hr) as [Hid Hps].
  destruct (Hps _ _ Hp) as [(Hpid & Hnd & Hsub) _].
  repeat split; try done.
  apply submseteq_length, NoDup_submseteq; done.
Qed.

Lemma reachable_marks_within_card_witness :
  NoDup (Participant.markedNumbers demoParticipant) ∧
  Participant.markedNumbers demoParticipant ⊆ Participant.card demoParticipant.
Proof.
  assert (Hreach : reachable demoStream demoMarkServer).
  { eapply runRequests_reachable; [apply rtc_refl | exact demoMarkServer_run]. }
  destruct (reachable_marks_within_card demoStream demoMarkServer
              "abcd1234" "u1" demoMarkRoom demoParticipant
              Hreach eq_refl eq_refl) as (_ & _ & Hnd & Hsub & _).
  split; [exact Hnd | exact Hsub].
Defined.

(** In every state the server can reach, a participant of a room whose
    card size [n] is not negative holds a card of exactly [n] numbers,
    sorted ascending, pairwise distinct and between 1 and 75, with a grid
    of [n / 5 + 1] rows of five cells; so a room that holds a participant
    has a card size of at most 75.  (A room of a larger size can be
    created, and stays without participants.) *)
Theorem reachable_cards_well_formed (rnd : nat → Z) (st : Server)
    (roomId userId : string) (room : Room.t) (p : Participant.t) :
  reachable rnd st →
  rooms st !! roomId = Some room →
  Room.participants room !! userId = Some p →
  0 ≤ Room.numbersPerCard room →
  Room.numbersPerCard room ≤ 75 ∧
  Z.of_nat (length (Participant.card p)) = Room.numbersPerCard room ∧
  NoDup (Participant.card p) ∧
  Sorted Z.le (Participant.card p) ∧
  Forall (λ v, 1 ≤ v ≤ 75) (Participant.card p) ∧
  Participant.numbersPerRow p = 5 ∧
  Participant.numbersPerCol p = Room.numbersPerCard room / 5 + 1 ∧
  Participant.centerRow p = (Room.numbersPerCard room / 5 + 1) / 2 ∧
  Participant.centerCol p = 2 ∧
  Z.of_nat (length (Participant.cardGrid p))
  = 5 * (Room.numbersPerCard room / 5 + 1).
Proof.
  intros Hreach Hr Hp Hn.
  destruct (reachable_storeOk rnd st Hreach _ _ Hr) as [_ Hps].
  destruct (Hps _ _ Hp) as [_ Hcard]. by apply Hcard.
Qed.

Lemma reachable_cards_well_formed_witness :
  Z.of_nat (length (Participant.card demoParticipant)) = 3 ∧
  NoDup (Participant.card demoParticipant).
Proof.
  assert (Hreach : reachable demoStream demoMarkServer).
  { eapply runRequests_reachable; [apply rtc_refl | exact demoMarkServer_run]. }
  destruct (reachable_cards_well_formed demoStream demoMarkServer
              "abcd1234" "u1" demoMarkRoom demoParticipant
              Hreach eq_refl eq_refl ltac:(simpl; lia))
    as (_ & Hlen & Hnd & _).
  split; [exact Hlen | exact Hnd].
Defined.

(** In every state the server can reach, the room a session names is
    stored; and no request ever removes a room. *)
Theorem reachable_sessions_name_rooms (rnd : nat → Z) (st : Server) :
  reachable rnd st →
  (∀ socketId session, users st !! socketId = Some session →
     is_Some (rooms st !! Session.roomId session)) ∧
  (∀ fuel req st' outs, handle rnd fuel st req = Some (st', outs) →
     dom (rooms st) ⊆ dom (rooms st')).
Proof.
  intros Hreach. pose proof (reachable_sessionsOk rnd st Hreach) as Hinv.
  split; [exact Hinv|].
  intros fuel req st' outs Hstep.
  by destruct (handle_sessionsOk rnd fuel st req st' outs Hinv Hstep).
Qed.

Lemma reachable_sessions_name_rooms_witness :
  is_Some (rooms demoMarkServer !! "abcd1234"%string).
Proof.
  assert (Hreach : reachable demoStream demoMarkServer).
  { eapply runRequests_reachable; [apply rtc_refl | exact demoMarkServer_run]. }
  destruct (reachable_sessions_name_rooms demoStream demoMarkServer Hreach)
    as [Hsess _].
  exact (Hsess "s1"%string (Session.mk "host" "abcd1234" true) eq_refl).
Defined.

(** ** Creating and joining rooms *)

Lemma substring_length (n : nat) : ∀ s,
  String.length (String.substring 0 n s) = Nat.min n (String.length s).
Proof.
  induction n as [|n IH]; intros [|c s]; simpl; try done.
  by rewrite IH.
Qed.

Lemma truthy_Some name : truthy name = true → ∃ v, name = Some v ∧ v ≠ ""%string.
Proof.
  destruct name as [v|]; simpl; [|done]. intros Hv. exists v. split; [done|].
  apply negb_true_iff, bool_decide_eq_false in Hv. done.
Qed.

(** A room created with a host name is stored under the first eight
    characters of the fresh uuid, with card size 24 unless one is given,
    nothing drawn and nobody in it, and GET returns exactly that room.
    Whatever room was stored under that id before is replaced, so its
    participants are unknown afterwards: [markNumber] on the new room
    answers that the participant is not found, and throws when the user
    id names a member of [Object.prototype].  Every other room and every
    session stays as it was. *)
Theorem createRoom_then_getRoom (st : Server) (hostName : option string)
    (numbersPerCard : option Z) (uuid : string) (now : Z) :
  truthy hostName = true →
  ∃ name room,
    hostName = Some name ∧
    room = Room.mk (shortId uuid) name (default 24 numbersPerCard) [] ∅ now
             Undefined ∧
    let st' := (createRoom st hostName numbersPerCard uuid now).1 in
    createRoom st hostName numbersPerCard uuid now
    = (st', [HttpJson 200 (RoomCreated (shortId uuid) room)]) ∧
    getRoom st' (shortId uuid) = (st', [HttpJson 200 (RoomBody room)]) ∧
    String.length (shortId uuid) = Nat.min 8 (String.length uuid) ∧
    (∀ roomId, roomId ≠ shortId uuid →
       rooms st' !! roomId = rooms st !! roomId) ∧
    users st' = users st ∧
    (∀ socketId userId number,
       markNumber st' socketId (shortId uuid) userId number
       = (st', [if bool_decide (userId ∈ prototypeKeys)
                then Uncaught TypeError
                else SocketEmit socketId (EvError msgParticipantNotFound)])).
Proof.
  intros Hname. destruct (truthy_Some _ Hname) as (name & -> & Hne).
  exists name. eexists. split; [done|]. split; [reflexivity|].
  unfold createRoom. rewrite Hname. simpl.
  split; [done|]. split.
  { unfold getRoom. simpl. by rewrite lookup_insert_eq. }
  split; [apply substring_length|]. split.
  { intros roomId Hother. by rewrite lookup_insert_ne. }
  split; [done|].
  intros socketId userId number. unfold markNumber, getMember. simpl.
  rewrite lookup_insert_eq. simpl. rewrite lookup_empty.
  by destruct (bool_decide (userId ∈ prototypeKeys)).
Qed.

Lemma createRoom_then_getRoom_witness :
  ∃ room,
    getRoom (createRoom demoMarkServer (Some "Eva"%string) None
               "abcd1234-ffff" 9).1 "abcd1234"
    = ((createRoom demoMarkServer (Some "Eva"%string) None
          "abcd1234-ffff" 9).1, [HttpJson 200 (RoomBody room)]) ∧
    Room.participants room = ∅ ∧ Room.numbersPerCard room = 24.
Proof.
  destruct (createRoom_then_getRoom demoMarkServer (Some "Eva"%string) None
              "abcd1234-ffff" 9 eq_refl)
    as (name & room & _ & -> & _ & Hget & _).
  eexists. split; [exact Hget|]. split; reflexivity.
Defined.

Section Join.
Variable rnd : nat → Z.

Lemma joinRoom_ok fuel st roomId participantName uuid now room cardData pos' :
  truthy participantName = true →
  rooms st !! roomId = Some room →
  Gen.generateBingoCard rnd fuel (randomCalls st) (Room.numbersPerCard room)
  = Some (cardData, pos') →
  joinRoom rnd fuel st roomId participantName uuid now =
    let participant :=
      Participant.mk uuid (default ""%string participantName)
        (CardData.numbers cardData) (CardData.grid cardData)
        (CardData.numbersPerRow cardData) (CardData.numbersPerCol cardData)
        (CardData.centerRow cardData) (CardData.centerCol cardData) [] now in
    let room' :=
      Room.setParticipants room
        (<[ uuid := participant ]> (Room.participants room)) in
    Some (mkServer (<[ roomId := room' ]> (rooms st)) (users st) pos',
          [ RoomEmit roomId
              (ParticipantJoined participant (size (Room.participants room')));
            HttpJson 200 (Joined uuid room' participant) ]).
Proof.
  intros Hname Hr Hgen. unfold joinRoom. by rewrite Hname, Hr, Hgen.
Qed.

End Join.

(** A join by REST with a name, on a known room, stores a participant
    under the fresh uuid with an empty list of marks and tells the room
    how many participants it now has, one more than before when the id
    was unused.  The drawn numbers, the other participants, the other
    rooms and the sessions are as before.  The id then lets any
    connection join as this participant.  With a fair random stream and an
    integer card size from 0 to 75 the join does return. *)
Theorem joinRoom_admits_participant (rnd : nat → Z) (st : Server)
    (roomId : string) (participantName : option string) (uuid : string)
    (now : Z) (room : Room.t) :
  truthy participantName = true →
  rooms st !! roomId = Some room →
  (∀ fuel st' outs,
     joinRoom rnd fuel st roomId participantName uuid now = Some (st', outs) →
     ∃ p room',
       rooms st' !! roomId = Some room' ∧
       Room.participants room' = <[ uuid := p ]> (Room.participants room) ∧
       outs = [ RoomEmit roomId
                  (ParticipantJoined p (size (Room.participants room')));
                HttpJson 200 (Joined uuid room' p) ] ∧
       Participant.id p = uuid ∧
       participantName = Some (Participant.name p) ∧
       Participant.markedNumbers p = [] ∧
       Participant.joinedAt p = now ∧
       Room.drawnNumbers room' = Room.drawnNumbers room ∧
       Room.lastDrawnAt room' = Room.lastDrawnAt room ∧
       (Room.participants room !! uuid = None →
        size (Room.participants room') = S (size (Room.participants room))) ∧
       users st' = users st ∧
       (∀ other, other ≠ roomId → rooms st' !! other = rooms st !! other) ∧
       (∀ socketId,
          joinAsParticipant st' socketId roomId uuid
          = (mkServer (rooms st')
               (<[ socketId := Session.mk uuid roomId false ]> (users st'))
               (randomCalls st'),
             [SocketEmit socketId (RoomJoined room' false (Stored p))]))) ∧
  (fair rnd 15 → 0 ≤ Room.numbersPerCard room ≤ 75 →
   ∃ fuel0, ∀ fuel, (fuel0 ≤ fuel)%nat →
     is_Some (joinRoom rnd fuel st roomId participantName uuid now)).
Proof.
  intros Hname Hr. destruct (truthy_Some _ Hname) as (name & -> & Hne).
  split.
  - intros fuel st' outs Hjoin.
    destruct (Gen.generateBingoCard rnd fuel (randomCalls st)
                (Room.numbersPerCard room)) as [[cardData pos']|] eqn:Hgen.
    2:{ unfold joinRoom in Hjoin. by rewrite Hname, Hr, Hgen in Hjoin. }
    rewrite (joinRoom_ok rnd fuel st roomId (Some name) uuid now room
               cardData pos' Hname Hr Hgen) in Hjoin.
    simpl in Hjoin. injection Hjoin as <- <-.
    eexists. eexists. split; [simpl; apply lookup_insert_eq|].
    split; [reflexivity|]. split; [reflexivity|]. simpl.
    repeat (split; [done|]). split.
    { intros Hfresh. by apply map_size_insert_None. }
    split; [done|]. split.
    { intros other Hother. by rewrite lookup_insert_ne. }
    intros socketId. unfold joinAsParticipant, getMember. simpl.
    rewrite lookup_insert_eq. simpl. by rewrite lookup_insert_eq.
  - intros Hfair Hn.
    destruct (generateBingoCard_terminates rnd (randomCalls st)
                (Room.numbersPerCard room) Hn Hfair) as [fuel0 Hfuel].
    exists fuel0. intros fuel Hle.
    destruct (Hfuel fuel Hle) as [[cardData pos'] Hgen].
    rewrite (joinRoom_ok rnd fuel st roomId (Some name) uuid now room
               cardData pos' Hname Hr Hgen).
    eauto.
Qed.

Lemma joinRoom_admits_participant_witness :
  ∃ fuel, is_Some (joinRoom demoStream fuel demoServer "abcd1234"
                     (Some "Bruno"%string) "u7" 4).
Proof.
  destruct (joinRoom_admits_participant demoStream demoServer "abcd1234"
              (Some "Bruno"%string) "u7" 4 demoRoom eq_refl eq_refl)
    as [_ Hterm].
  destruct (Hterm demoStream_fair_column ltac:(simpl; lia)) as [fuel0 Hfuel].
  exists fuel0. by apply Hfuel.
Defined.

(** ** Sessions *)

(** A disconnect sends nothing and touches no room: it only drops the
    session of the connection, and the sessions of other connections
    stay.  Afterwards the connection is no host any more: [drawNumber] and
    [resetDraw] answer it with the host-only error, and the state of a
    known room is reported to it with [isHost = false] and no participant.
    A second disconnect changes nothing. *)
Theorem disconnect_drops_session (rnd : nat → Z) (fuel : nat) (st : Server)
    (socketId : string) :
  let st' := (disconnect st socketId).1 in
  disconnect st socketId = (st', []) ∧
  rooms st' = rooms st ∧
  users st' = delete socketId (users st) ∧
  (∀ roomId now,
     drawNumber rnd fuel st' socketId roomId now
     = Some (st', [SocketEmit socketId (EvError msgOnlyHostDraws)])) ∧
  (∀ roomId,
     resetDraw st' socketId roomId
     = (st', [SocketEmit socketId (EvError msgOnlyHostResets)])) ∧
  (∀ roomId room, rooms st !! roomId = Some room →
     getRoomState st' socketId roomId
     = (st', [SocketEmit socketId (RoomState room false Absent)])) ∧
  disconnect st' socketId = (st', []).
Proof.
  assert (Hst : (disconnect st socketId).1
                = mkServer (rooms st) (delete socketId (users st))
                    (randomCalls st)).
  { unfold disconnect. destruct (users st !! socketId) eqn:Hu; [done|].
    simpl. rewrite delete_id by done. by destruct st. }
  assert (Hgone : users (disconnect st socketId).1 !! socketId = None).
  { rewrite Hst. simpl. apply lookup_delete_eq. }
  simpl. split.
  { unfold disconnect. by destruct (users st !! socketId). }
  split; [by rewrite Hst|]. split; [by rewrite Hst|]. split.
  { intros roomId now. apply drawNumber_not_host. by left. }
  split.
  { intros roomId. apply resetDraw_not_host. by left. }
  split.
  { intros roomId room Hr. unfold getRoomState. rewrite Hgone.
    rewrite Hst at 1. simpl. by rewrite Hr. }
  unfold disconnect at 1. by rewrite Hgone.
Qed.

(** A host session is not tied to its room when it is used: a connection
    that joined one known room as host resets any other known room, and
    draws numbers in it while numbers are left. *)
Theorem host_session_reaches_every_room (rnd : nat → Z) (st : Server)
    (socketId roomA roomB userId : string) (rA rB : Room.t) :
  rooms st !! roomA = Some rA →
  rooms st !! roomB = Some rB →
  roomA ≠ roomB →
  let st1 := (joinAsHost st socketId roomA userId).1 in
  users st1 !! socketId = Some (Session.mk userId roomA true) ∧
  (∃ rB',
     resetDraw st1 socketId roomB
     = (setRoom st1 roomB rB', [RoomEmit roomB (DrawReset rB')]) ∧
     Room.drawnNumbers rB' = []) ∧
  ((length (Room.drawnNumbers rB) < 75)%nat →
   (∀ fuel now st2 outs,
      drawNumber rnd fuel st1 socketId roomB now = Some (st2, outs) →
      ∃ number room',
        1 ≤ number ≤ 75 ∧ (number ∉ Room.drawnNumbers rB) ∧
        rooms st2 !! roomB = Some room' ∧
        Room.drawnNumbers room'
        = sortAsc (Room.drawnNumbers rB ++ [number]) ∧
        isNumberDrawn outs = true) ∧
   (fair rnd 75 → ∀ now, ∃ fuel0, ∀ fuel, (fuel0 ≤ fuel)%nat →
      is_Some (drawNumber rnd fuel st1 socketId roomB now))).
Proof.
  intros HA HB Hdiff. unfold joinAsHost. rewrite HA. simpl.
  set (st1 := mkServer (rooms st)
                (<[ socketId := Session.mk userId roomA true ]> (users st))
                (randomCalls st)).
  assert (Hu : users st1 !! socketId = Some (Session.mk userId roomA true))
    by apply lookup_insert_eq.
  assert (HB' : rooms st1 !! roomB = Some rB) by done.
  split; [done|]. split.
  { eexists. split.
    - by apply (resetDraw_host st1 socketId roomB _ rB Hu).
    - done. }
  intros Hlt. split.
  - intros fuel now st2 outs Hdraw.
    destruct (drawNumber_draw rnd _ _ _ _ _ _ _ _ _ Hu eq_refl HB' Hlt Hdraw)
      as (number & pos' & Hrange & Hfresh & Houts & ->).
    simpl in Houts. subst outs. exists number. eexists.
    split; [done|]. split; [done|].
    split; [simpl; apply lookup_insert_eq|]. done.
  - intros Hfair now.
    by apply (drawNumber_terminates rnd st1 socketId roomB now _ rB Hu).
Qed.

Lemma host_session_reaches_every_room_witness :
  ∃ st1 rB',
    st1 = (joinAsHost (createRoom demoServer (Some "Eva"%string) None
                         "zzzz9999-1" 3).1 "s5" "abcd1234" "x").1 ∧
    resetDraw st1 "s5" "zzzz9999"
    = (setRoom st1 "zzzz9999" rB', [RoomEmit "zzzz9999" (DrawReset rB')]).
Proof.
  destruct (host_session_reaches_every_room demoStream
              (createRoom demoServer (Some "Eva"%string) None "zzzz9999-1" 3).1
              "s5" "abcd1234" "zzzz9999" "x" demoRoom
              (Room.mk "zzzz9999" "Eva" 24 [] ∅ 3 Undefined)
              eq_refl eq_refl ltac:(done))
    as (_ & (rB' & Hreset & _) & _).
  eexists. exists rB'. split; [reflexivity | exact Hreset].
Defined.

(** A connection has one session, that of its last join.  After joining
    as host and then as a participant, the connection is refused by
    [drawNumber] and sees its participant in the room state; after joining
    as a participant and then as host, it is reported as host, without a
    participant. *)
Theorem last_join_decides_role (rnd : nat → Z) (fuel : nat) (st : Server)
    (socketId roomId hostId userId : string) (room : Room.t)
    (p : Participant.t) :
  rooms st !! roomId = Some room →
  Room.participants room !! userId = Some p →
  let demoted :=
    (joinAsParticipant (joinAsHost st socketId roomId hostId).1
       socketId roomId userId).1 in
  let promoted :=
    (joinAsHost (joinAsParticipant st socketId roomId userId).1
       socketId roomId hostId).1 in
  users demoted !! socketId = Some (Session.mk userId roomId false) ∧
  (∀ now, drawNumber rnd fuel demoted socketId roomId now
          = Some (demoted, [SocketEmit socketId (EvError msgOnlyHostDraws)])) ∧
  getRoomState demoted socketId roomId
  = (demoted, [SocketEmit socketId (RoomState room false (Stored p))]) ∧
  users promoted !! socketId = Some (Session.mk hostId roomId true) ∧
  getRoomState promoted socketId roomId
  = (promoted, [SocketEmit socketId (RoomState room true Absent)]).
Proof.
  intros Hr Hp. unfold joinAsHost, joinAsParticipant, getMember.
  rewrite Hr. simpl. rewrite Hr, Hp. simpl. rewrite Hr. simpl.
  split; [apply lookup_insert_eq|]. split.
  { intros now. apply drawNumber_not_host. right. eexists.
    split; [simpl; apply lookup_insert_eq|done]. }
  split.
  { unfold getRoomState, getMember. simpl. rewrite Hr, lookup_insert_eq.
    simpl. by rewrite Hp. }
  split; [apply lookup_insert_eq|].
  unfold getRoomState. simpl. by rewrite Hr, lookup_insert_eq.
Qed.

Lemma last_join_decides_role_witness :
  drawNumber demoStream 5
    (joinAsParticipant (joinAsHost demoMarkServer "s3" "abcd1234" "h").1
       "s3" "abcd1234" "u1").1 "s3" "abcd1234" 8
  = Some ((joinAsParticipant (joinAsHost demoMarkServer "s3" "abcd1234" "h").1
             "s3" "abcd1234" "u1").1,
          [SocketEmit "s3" (EvError msgOnlyHostDraws)]).
Proof.
  destruct (last_join_decides_role demoStream 5 demoMarkServer
              "s3" "abcd1234" "h" "u1" demoMarkRoom demoParticipant
              eq_refl eq_refl) as (_ & Hdraw & _).
  exact (Hdraw 8).
Defined.

(** ** Winning *)

Lemma bingoCount_app outs1 outs2 :
  bingoCount (outs1 ++ outs2) = (bingoCount outs1 + bingoCount outs2)%nat.
Proof. unfold bingoCount. by rewrite filter_app, length_app. Qed.

(** Marking the unmarked rest of a card, number by number. *)
Lemma markEach_rest todo : ∀ st socketId roomId userId room p marked,
  rooms st !! roomId = Some room →
  Room.participants room !! userId = Some p →
  Participant.markedNumbers p = marked →
  Participant.card p = marked ++ todo →
  NoDup (Participant.card p) →
  let result := markEach st socketId roomId userId todo in
  markedOf result.1 roomId userId = Some (Participant.card p) ∧
  bingoCount result.2 = (if todo is [] then 0 else 1)%nat ∧
  length result.2 = (length todo + (if todo is [] then 0 else 1))%nat.
Proof.
  induction todo as [|x todo IH];
    intros st socketId roomId userId room p marked Hr Hp Hm Hcard Hnd.
  - simpl. rewrite app_nil_r in Hcard. unfold markedOf.
    rewrite Hr. simpl. rewrite Hp. simpl. by rewrite Hm, Hcard.
  - assert (Hx : x ∈ Participant.card p).
    { rewrite Hcard. apply elem_of_app. right. by left. }
    assert (Hfresh : x ∉ marked).
    { rewrite Hcard in Hnd. apply NoDup_app in Hnd as (_ & Hdisj & _).
      intros Hin. apply (Hdisj x Hin). by left. }
    cbn [markEach].
    rewrite (markNumber_ok st socketId roomId userId x room p Hr Hp Hx).
    rewrite Hm, (toggle_absent marked x Hfresh). cbn [fst snd].
    set (p1 := Participant.setMarked p (marked ++ [x])).
    set (room1 := Room.setParticipants room
                    (<[ userId := p1 ]> (Room.participants room))).
    destruct (IH (setRoom st roomId room1) socketId roomId userId room1 p1
                (marked ++ [x])) as (Hmarked & Hcount & Hlen).
    { unfold setRoom. simpl. apply lookup_insert_eq. }
    { simpl. apply lookup_insert_eq. }
    { done. }
    { simpl. by rewrite Hcard, <- app_assoc. }
    { done. }
    split; [exact Hmarked|].
    assert (Hsize : length (Participant.card p)
                    = (length marked + S (length todo))%nat).
    { rewrite Hcard, length_app. done. }
    destruct todo as [|y todo]; simpl in Hsize.
    + rewrite bool_decide_eq_true_2 by (rewrite length_app; simpl; lia).
      split; reflexivity.
    + rewrite bool_decide_eq_false_2 by (rewrite length_app; simpl; lia).
      cbn [app]. split.
      * unfold bingoCount in *. by rewrite filter_cons_False.
      * cbn [length]. by rewrite Hlen.
Qed.

(** Marks are never checked against the drawn numbers: a participant with
    no marks who marks every number of the card once, in the card's order,
    ends with the whole card marked, and the room hears [bingo] exactly
    once, whatever has been drawn. *)
Theorem markEach_card_wins (st : Server) (socketId roomId userId : string)
    (room : Room.t) (p : Participant.t) :
  rooms st !! roomId = Some room →
  Room.participants room !! userId = Some p →
  Participant.markedNumbers p = [] →
  Participant.card p ≠ [] →
  NoDup (Participant.card p) →
  let result := markEach st socketId roomId userId (Participant.card p) in
  markedOf result.1 roomId userId = Some (Participant.card p) ∧
  bingoCount result.2 = 1%nat ∧
  length result.2 = S (length (Participant.card p)).
Proof.
  intros Hr Hp Hm Hne Hnd.
  destruct (markEach_rest (Participant.card p) st socketId roomId userId
              room p [] Hr Hp Hm eq_refl Hnd) as (Hmarked & Hcount & Hlen).
  simpl. split; [exact Hmarked|].
  destruct (Participant.card p) as [|x card]; [done|].
  split; [exact Hcount|].
  rewrite Hlen. simpl. lia.
Qed.

Lemma markEach_card_wins_witness :
  bingoCount
    (markEach (resetDraw demoMarkServer "s1" "abcd1234").1
       "s2" "abcd1234" "u1" [1; 16; 46]).2 = 1%nat.
Proof.
  assert (Hroom : is_Some
            (rooms (resetDraw demoMarkServer "s1" "abcd1234").1
               !! "abcd1234"%string)).
  { eexists. reflexivity. }
  destruct Hroom as [room Hroom].
  destruct (markEach_card_wins (resetDraw demoMarkServer "s1" "abcd1234").1
              "s2" "abcd1234" "u1"
              (Room.setParticipants (Room.setDraw demoMarkRoom [] Null)
                 (clearMarks (Room.participants demoMarkRoom)))
              (Participant.setMarked demoParticipant [])
              eq_refl eq_refl eq_refl ltac:(done)
              ltac:(apply (bool_decide_unpack _); exact I))
    as (_ & Hcount & _).
  exact Hcount.
Defined.

(** There is no guard against announcing a win twice.  Once the whole
    card is marked, unmarking a number answers [hasBingo = false] and
    broadcasts nothing, and marking it again answers [hasBingo = true] and
    broadcasts [bingo] once more. *)
Theorem bingo_is_announced_again (st : Server)
    (socketId roomId userId : string) (number : Z)
    (room : Room.t) (p : Participant.t) :
  rooms st !! roomId = Some room →
  Room.participants room !! userId = Some p →
  number ∈ Participant.card p →
  NoDup (Participant.card p) →
  Participant.markedNumbers p ≡ₚ Participant.card p →
  let first := markNumber st socketId roomId userId number in
  let second := markNumber first.1 socketId roomId userId number in
  (∃ marked1,
     first.2 = [SocketEmit socketId (NumberMarked number marked1 false)] ∧
     (number ∉ marked1) ∧
     S (length marked1) = length (Participant.card p)) ∧
  (∃ marked2,
     second.2 = [ SocketEmit socketId (NumberMarked number marked2 true);
                  RoomEmit roomId (Bingo userId (Participant.name p)) ] ∧
     marked2 ≡ₚ Participant.card p).
Proof.
  intros Hr Hp Hcard Hnd Hfull.
  assert (HndM : NoDup (Participant.markedNumbers p)) by by rewrite Hfull.
  assert (Hin : number ∈ Participant.markedNumbers p) by by rewrite Hfull.
  destruct (toggle_present _ _ Hin)
    as (before & after & Hsplit & Hbefore & Htoggle).
  assert (Hafter : number ∉ after).
  { rewrite Hsplit in HndM. apply NoDup_app in HndM as (_ & _ & HndM).
    by apply NoDup_cons in HndM as [? _]. }
  assert (Hlen : length (Participant.card p) = S (length (before ++ after))).
  { rewrite <- Hfull, Hsplit, !length_app. simpl. lia. }
  assert (Hgone : number ∉ before ++ after).
  { intros [?|?]%elem_of_app; done. }
  simpl.
  rewrite (markNumber_ok st socketId roomId userId number room p Hr Hp Hcard).
  cbn [fst snd]. rewrite Htoggle.
  rewrite bool_decide_eq_false_2 by lia.
  split.
  { exists (before ++ after). split; [done|]. split; [done|]. lia. }
  erewrite markNumber_ok;
    [| unfold setRoom; simpl; apply lookup_insert_eq
     | simpl; apply lookup_insert_eq
     | done ].
  cbn [snd Participant.markedNumbers Participant.setMarked
       Participant.card Participant.name].
  rewrite (toggle_absent _ _ Hgone).
  rewrite bool_decide_eq_true_2 by (rewrite length_app; simpl; lia).
  eexists. split; [reflexivity|].
  rewrite <- Hfull, Hsplit, <- app_assoc.
  apply Permutation_app_head. symmetry. apply Permutation_cons_append.
Qed.

Lemma bingo_is_announced_again_witness :
  ∃ marked2,
    (markNumber (markNumber demoFullServer "s2" "abcd1234" "u1" 16).1
       "s2" "abcd1234" "u1" 16).2
    = [ SocketEmit "s2" (NumberMarked 16 marked2 true);
        RoomEmit "abcd1234" (Bingo "u1" "Bruno") ].
Proof.
  destruct (bingo_is_announced_again demoFullServer "s2" "abcd1234" "u1" 16
              (Room.setParticipants demoMarkRoom
                 (<[ "u1"%string :=
                       Participant.setMarked demoParticipant [1; 16; 46] ]>
                    (Room.participants demoMarkRoom)))
              (Participant.setMarked demoParticipant [1; 16; 46])
              eq_refl eq_refl
              ltac:(apply (bool_decide_unpack _); exact I)
              ltac:(apply (bool_decide_unpack _); exact I)
              ltac:(reflexivity))
    as (_ & marked2 & Hsecond & _).
  by exists marked2.
Defined.

(** ** Draws, marks and resets together *)

Section Together.
Variable rnd : nat → Z.

(** [drawNumber] for a host and a known room with numbers left, in terms
    of its sampling loop. *)
Lemma drawNumber_loop fuel st socketId roomId now userInfo room :
  users st !! socketId = Some userInfo → Session.isHost userInfo = true →
  rooms st !! roomId = Some room →
  (length (Room.drawnNumbers room) < 75)%nat →
  drawNumber rnd fuel st socketId roomId now =
    match drawLoop rnd fuel (randomCalls st) (Room.drawnNumbers room) with
    | None => None
    | Some (number, pos') =>
        let drawn := sortAsc (Room.drawnNumbers room ++ [number]) in
        Some (mkServer
                (<[ roomId := Room.setDraw room drawn (Millis now) ]> (rooms st))
                (users st) pos',
              [RoomEmit roomId (NumberDrawn number drawn (length drawn))])
    end.
Proof.
  intros Hu Hh Hr Hlt. unfold drawNumber. rewrite Hu, Hh, Hr.
  unfold maxNumber.
  by destruct (Z.geb_spec (Z.of_nat (length (Room.drawnNumbers room))) 75);
    [lia|].
Qed.

Lemma clearMarks_again ps : clearMarks (clearMarks ps) = clearMarks ps.
Proof.
  apply map_eq. intros userId. rewrite !clearMarks_lookup.
  by destruct (ps !! userId).
Qed.

End Together.

(** A draw and a mark in one room do not get in each other's way: a draw
    leaves every participant as it is, a mark leaves the drawn numbers as
    they are and uses no random number, and doing the two in either order
    gives the same state and the same messages. *)
Theorem drawNumber_markNumber_commute (rnd : nat → Z) (fuel : nat)
    (st : Server) (hostSocket socketId roomId userId : string)
    (number now : Z) (userInfo : Session.t) (room : Room.t)
    (p : Participant.t) (st1 : Server) (outs1 : list Output) :
  users st !! hostSocket = Some userInfo →
  Session.isHost userInfo = true →
  rooms st !! roomId = Some room →
  (length (Room.drawnNumbers room) < 75)%nat →
  Room.participants room !! userId = Some p →
  number ∈ Participant.card p →
  drawNumber rnd fuel st hostSocket roomId now = Some (st1, outs1) →
  let marked := markNumber st socketId roomId userId number in
  (∃ room1, rooms st1 !! roomId = Some room1 ∧
            Room.participants room1 = Room.participants room) ∧
  (∃ room2, rooms marked.1 !! roomId = Some room2 ∧
            Room.drawnNumbers room2 = Room.drawnNumbers room ∧
            Room.lastDrawnAt room2 = Room.lastDrawnAt room) ∧
  randomCalls marked.1 = randomCalls st ∧
  drawNumber rnd fuel marked.1 hostSocket roomId now
  = Some ((markNumber st1 socketId roomId userId number).1, outs1) ∧
  (markNumber st1 socketId roomId userId number).2 = marked.2.
Proof.
  intros Hu Hh Hr Hlt Hp Hcard Hdraw. simpl.
  rewrite (drawNumber_loop rnd fuel st hostSocket roomId now userInfo room
             Hu Hh Hr Hlt) in Hdraw.
  destruct (drawLoop rnd fuel (randomCalls st) (Room.drawnNumbers room))
    as [[drawn pos']|] eqn:Hloop; [|discriminate].
  simpl in Hdraw. injection Hdraw as <- <-.
  rewrite (markNumber_ok st socketId roomId userId number room p Hr Hp Hcard).
  cbn [fst snd].
  split.
  { eexists. split; [simpl; apply lookup_insert_eq|done]. }
  split.
  { eexists. split; [unfold setRoom; simpl; apply lookup_insert_eq|done]. }
  split; [done|].
  erewrite (markNumber_ok _ socketId roomId userId number);
    [| simpl; apply lookup_insert_eq | simpl; exact Hp | done ].
  cbn [fst snd]. split; [|done].
  erewrite drawNumber_loop;
    [| exact Hu | exact Hh
     | unfold setRoom; simpl; apply lookup_insert_eq
     | done ].
  unfold setRoom. simpl. rewrite Hloop. simpl.
  by rewrite !insert_insert_eq.
Qed.

Lemma drawNumber_markNumber_commute_witness :
  ∃ st1 outs1,
    drawNumber demoStream 10 demoMarkServer "s1" "abcd1234" 5
    = Some (st1, outs1) ∧
    drawNumber demoStream 10
      (markNumber demoMarkServer "s2" "abcd1234" "u1" 46).1 "s1" "abcd1234" 5
    = Some ((markNumber st1 "s2" "abcd1234" "u1" 46).1, outs1).
Proof.
  assert (Hdraw : ∃ r, drawNumber demoStream 10 demoMarkServer
                         "s1" "abcd1234" 5 = Some r).
  { vm_compute. eexists. reflexivity. }
  destruct Hdraw as [[st1 outs1] Hdraw]. exists st1, outs1.
  split; [exact Hdraw|].
  destruct (drawNumber_markNumber_commute demoStream 10 demoMarkServer
              "s1" "s2" "abcd1234" "u1" 46 5
              (Session.mk "host" "abcd1234" true) demoMarkRoom demoParticipant
              st1 outs1 eq_refl eq_refl eq_refl ltac:(simpl; lia) eq_refl
              ltac:(apply (bool_decide_unpack _); exact I) Hdraw)
    as (_ & _ & _ & Hcomm & _).
  exact Hcomm.
Defined.

(** Resetting twice is resetting once: the second reset leaves the state
    of the first and broadcasts the same room.  A reset makes the room
    drawable again, however many numbers had been drawn: the next draw
    returns a number from 1 to 75 as the only drawn number, and with a
    fair random stream it does return. *)
Theorem resetDraw_again_and_redraw (rnd : nat → Z) (st : Server)
    (socketId roomId : string) (userInfo : Session.t) (room : Room.t) :
  users st !! socketId = Some userInfo →
  Session.isHost userInfo = true →
  rooms st !! roomId = Some room →
  let st1 := (resetDraw st socketId roomId).1 in
  resetDraw st1 socketId roomId = (st1, (resetDraw st socketId roomId).2) ∧
  (∀ fuel now st2 outs,
     drawNumber rnd fuel st1 socketId roomId now = Some (st2, outs) →
     ∃ number,
       1 ≤ number ≤ 75 ∧
       outs = [RoomEmit roomId (NumberDrawn number [number] 1)]) ∧
  (fair rnd 75 → ∀ now, ∃ fuel0, ∀ fuel, (fuel0 ≤ fuel)%nat →
     is_Some (drawNumber rnd fuel st1 socketId roomId now)).
Proof.
  intros Hu Hh Hr.
  rewrite (resetDraw_host st socketId roomId userInfo room Hu Hh Hr).
  cbn [fst snd].
  set (room1 := Room.setParticipants (Room.setDraw room [] Null)
                  (clearMarks (Room.participants room))).
  assert (Hu1 : users (setRoom st roomId room1) !! socketId = Some userInfo)
    by done.
  assert (Hr1 : rooms (setRoom st roomId room1) !! roomId = Some room1)
    by (unfold setRoom; simpl; apply lookup_insert_eq).
  split; [|split].
  - rewrite (resetDraw_host _ socketId roomId userInfo room1 Hu1 Hh Hr1).
    simpl. unfold setRoom. simpl.
    rewrite clearMarks_again, insert_insert_eq. done.
  - intros fuel now st2 outs Hdraw.
    destruct (drawNumber_draw rnd _ _ _ _ _ _ _ _ _ Hu1 Hh Hr1
                ltac:(simpl; lia) Hdraw)
      as (number & pos' & Hrange & _ & Houts & _).
    exists number. split; [done|]. exact Houts.
  - intros Hfair now.
    apply (drawNumber_terminates rnd _ socketId roomId now userInfo room1);
      try done. simpl. lia.
Qed.

Lemma resetDraw_again_and_redraw_witness :
  resetDraw (resetDraw demoMarkServer "s1" "abcd1234").1 "s1" "abcd1234"
  = ((resetDraw demoMarkServer "s1" "abcd1234").1,
     (resetDraw demoMarkServer "s1" "abcd1234").2).
Proof.
  destruct (resetDraw_again_and_redraw demoStream demoMarkServer
              "s1" "abcd1234" (Session.mk "host" "abcd1234" true) demoMarkRoom
              eq_refl eq_refl eq_refl) as (Hagain & _).
  exact Hagain.
Defined.

(** ** Card sizes that are not positive *)

Lemma targetCounts_nonpositive n :
  n ≤ 0 →
  Gen.targetCounts n = [n / 5; n / 5; n / 5; n / 5; n / 5 + n mod 5].
Proof.
  intros Hn.
  assert (Hcount : ∀ c, 0 ≤ c < 5 → Gen.targetCount n c = n / 5).
  { intros c Hc.
    unfold Gen.targetCount, floorDiv, jsRem, Gen.numbersPerRow,
      Gen.positionInNonCenter, Gen.centerCol.
    pose proof (Z.rem_nonpos n 5 ltac:(lia) Hn).
    destruct (Z.eqb_spec c 2); [done|].
    destruct (Z.ltb_spec c 2);
      match goal with
      | |- context [Z.ltb ?a ?b] => destruct (Z.ltb_spec a b)
      end; lia. }
  unfold Gen.targetCounts, Gen.totalTarget. rewrite initialCounts_eq.
  rewrite !Hcount by lia. simpl.
  pose proof (Z.div_mod n 5 ltac:(lia)) as Hdiv.
  destruct (Z.eqb_spec (0 + n / 5 + n / 5 + n / 5 + n / 5 + n / 5) n).
  - do 4 f_equal. f_equal. lia.
  - do 4 f_equal. f_equal. lia.
Qed.

(** [generateBingoCard] does not refuse an integer size that is not
    positive.  Whenever it returns for such a size, the first four columns
    are empty
    and the last column holds the numbers the adjustment assigns to it
    (none for size 0, three for size -1, none below -11), all between 61
    and 75.  The grid is one row of five nulls for size 0 and empty for
    a negative size, so the numbers of a negative size are on no cell.
    With a fair random stream the call does return. *)
Theorem generateBingoCard_nonpositive (rnd : nat → Z) (pos : nat) (n : Z) :
  n ≤ 0 →
  (∀ fuel card pos',
     Gen.generateBingoCard rnd fuel pos n = Some (card, pos') →
     Z.of_nat (length (CardData.numbers card)) = Z.max 0 (n / 5 + n mod 5) ∧
     (length (CardData.numbers card) ≤ 3)%nat ∧
     (n < -11 → CardData.numbers card = []) ∧
     NoDup (CardData.numbers card) ∧
     Forall (λ v, 61 ≤ v ≤ 75) (CardData.numbers card) ∧
     CardData.grid card = (if decide (n = 0) then replicate 5 None else [])) ∧
  (fair rnd 15 →
   ∃ fuel0, ∀ fuel, (fuel0 ≤ fuel)%nat →
     is_Some (Gen.generateBingoCard rnd fuel pos n)).
Proof.
  intros Hn.
  pose proof (Z.div_mod n 5 ltac:(lia)) as Hdiv.
  pose proof (Z.mod_pos_bound n 5 ltac:(lia)) as Hmod.
  assert (Hq : n / 5 ≤ 0) by lia.
  split.
  - intros fuel card pos'. unfold Gen.generateBingoCard.
    rewrite targetCounts_nonpositive by done.
    destruct (Gen.fillColumns _ _ _ _) as [[cols pos1]|] eqn:Hcols;
      [|discriminate].
    intros [= <- <-].
    apply fillColumns_spec in Hcols.
    2:{ unfold Gen.columnRanges. simpl. repeat constructor; simpl; lia. }
    unfold Gen.columnRanges in Hcols. simpl in Hcols.
    apply Forall2_cons_inv_l in Hcols as (c0 & cols0 & H0 & Hcols & ->).
    apply Forall2_cons_inv_l in Hcols as (c1 & cols1 & H1 & Hcols & ->).
    apply Forall2_cons_inv_l in Hcols as (c2 & cols2 & H2 & Hcols & ->).
    apply Forall2_cons_inv_l in Hcols as (c3 & cols3 & H3 & Hcols & ->).
    apply Forall2_cons_inv_l in Hcols as (c4 & cols4 & H4 & Hcols & ->).
    apply Forall2_nil_inv_l in Hcols as ->.
    destruct H0 as (_ & _ & _ & Hl0), H1 as (_ & _ & _ & Hl1),
      H2 as (_ & _ & _ & Hl2), H3 as (_ & _ & _ & Hl3),
      H4 as (Hnd4 & Hr4 & _ & Hl4).
    simpl in Hl0, Hl1, Hl2, Hl3, Hl4, Hr4.
    assert (c0 = []) as -> by (apply nil_length_inv; lia).
    assert (c1 = []) as -> by (apply nil_length_inv; lia).
    assert (c2 = []) as -> by (apply nil_length_inv; lia).
    assert (c3 = []) as -> by (apply nil_length_inv; lia).
    cbn [concat app CardData.numbers CardData.grid]. rewrite app_nil_r.
    rewrite sortAsc_length, sortAsc_NoDup, sortAsc_Forall.
    split; [lia|]. split; [lia|]. split.
    { intros Hsmall. apply nil_length_inv. rewrite sortAsc_length. lia. }
    split; [done|]. split.
    { eapply Forall_impl; [exact Hr4|]. unfold inRange. simpl. lia. }
    case_decide as Hzero.
    + subst n. assert (c4 = []) as -> by (apply nil_length_inv; simpl in *; lia).
      reflexivity.
    + apply nil_length_inv. rewrite flattenMatrix_length.
      unfold ceilDiv, Gen.numbersPerRow.
      assert (0 ≤ (- (n + 1)) / 5) by (apply Z.div_pos; lia). lia.
  - intros Hfair.
    destruct (fillColumns_terminates rnd
                (zip Gen.columnRanges (Gen.targetCounts n)) pos)
      as (fuel0 & [cols pos1] & Hcols).
    { rewrite targetCounts_nonpositive by done.
      unfold Gen.columnRanges. simpl.
      repeat constructor; simpl; try done; lia. }
    exists fuel0. intros fuel Hle. unfold Gen.generateBingoCard.
    by rewrite (fillColumns_mono rnd fuel0 fuel _ _ _ Hcols Hle).
Qed.

Lemma generateBingoCard_nonpositive_witness :
  ∃ card pos',
    Gen.generateBingoCard demoStream 100 0 (-1) = Some (card, pos') ∧
    length (CardData.numbers card) = 3%nat ∧ CardData.grid card = [].
Proof.
  assert (Hrun : ∃ r, Gen.generateBingoCard demoStream 100 0 (-1) = Some r).
  { vm_compute. eexists. reflexivity. }
  destruct Hrun as [[card pos'] Hrun]. exists card, pos'.
  destruct (generateBingoCard_nonpositive demoStream 0 (-1) ltac:(lia))
    as [Hres _].
  destruct (Hres 100%nat card pos' Hrun) as (Hlen & _ & _ & _ & _ & Hgrid).
  split; [exact Hrun|]. split; [|exact Hgrid].
  change ((-1) / 5 + (-1) mod 5) with 3 in Hlen. lia.
Defined.
